(** * PKP strategy engine: a shallow embedding of [strategies/pkp/strategy.py]

    The development follows the Python class [PKPStrategy] block by block.

    Numeric model.  Python [int] values (unit counts, stage counters) are [Z].
    Python [float] values (prices, cash amounts) are exact rationals [Q]:
    every statement below is about the arithmetic the code writes down, not
    about binary64 rounding.  [Q] is compared with [==] (several fractions
    denote one number), so equalities between amounts are stated with [==].
    Where a claim is about the exactness of float arithmetic itself (C5),
    the lines concerned are transcribed a second time with binary64 floats,
    in [B64], and the claim is judged there.

    Exceptions.  The only exception the engine can raise on well-typed input
    is [ZeroDivisionError]; every division of the source is therefore the
    fallible [Py.div] / [Py.floordiv], and a function returns [None] exactly
    when the Python code would raise.

    Left out: [ticker], [verbose], [show_notes] and all printing
    ([log_daily], the report tables), which never feed back into the state. *)

From Stdlib Require Import ZArith QArith Qround Qminmax Lqa Lia List Bool.
From Stdlib Require Import Ascii.
From Stdlib Require PrimFloat Uint63.
Import ListNotations.

Local Open Scope Q_scope.

(** ** Python primitives *)

Module Py.

(** A small error monad: [None] is a raised [ZeroDivisionError]. *)
Definition bind {A B : Type} (m : option A) (k : A -> option B) : option B :=
  match m with
  | Some a => k a
  | None => None
  end.

(** [a / b] on numbers. *)
Definition div (a b : Q) : option Q :=
  if Qeq_dec b 0 then None else Some (a / b).

(** [a // b] on floats: the floor of the quotient, still a float. *)
Definition floordiv (a b : Q) : option Q :=
  if Qeq_dec b 0 then None else Some (inject_Z (Qfloor (a / b))).

(** [int(x)]: truncation towards zero. *)
Definition int (x : Q) : Z := Z.quot (Qnum x) (Zpos (Qden x)).

(** [math.ceil(x)], used only to state what the specification asks for. *)
Definition ceil (x : Q) : Z := Qceiling x.

End Py.

Notation "x <- m ;; k" := (Py.bind m (fun x => k))
  (at level 61, m at next level, right associativity).

(** ** Data model *)

(** [datetime] values, compared lexicographically. *)
Record Date := mkDate { year : Z; month : Z; day : Z }.

Definition date_ltb (a b : Date) : bool :=
  ((year a <? year b)
   || ((year a =? year b)
       && ((month a <? month b)
           || ((month a =? month b) && (day a <? day b)))))%Z.

(** [date.strftime('%Y-%m')], the key of the monthly ledger. *)
Definition ym_key (d : Date) : Z * Z := (year d, month d).

(** One input row: [{'date': ..., 'close': ...}]. *)
Record Row := mkRow { date : Date; close : Q }.

(** Constructor arguments that the engine reads. *)
Record Config := mkConfig {
  base_sip : Q;
  min_profit_booking_amount : Q;
  bid_multiplier : Q;
  bid_trigger_drop : Q;
  initial_lumpsum : Q
}.

(** The [type] string of a transaction; [BID k] stands for ["BID-kx"]. *)
Inductive TxType := LUMPSUM | SIP | BID (k : Z) | SELL.

(** The [notes] string, kept as the values that are formatted into it. *)
Inductive Notes :=
| InitialInvestment
| ReserveUsed (amount_from_reserve : Q)
| DropReserveUsed (drop_pct_x100 amount_from_reserve : Q)
| GainProfitRecov (gain_pct_x100 profit_val invested_reduction : Q).

(** An entry of [self.transactions]. *)
Record Transaction := mkTransaction {
  t_date : Date;
  t_type : TxType;
  t_units : Z;
  t_price : Q;
  t_amount : Q;
  t_total_units : Z;
  t_pap : Q;
  t_bia : Q;
  t_actual_invested : Q;
  t_current_market_value : Q;
  t_pnl_pct : Q;
  t_profit_reserve : Q;
  t_notes : Notes
}.

(** An entry of [self.portfolio_history]. *)
Record HistoryRecord := mkHistoryRecord {
  h_date : Date;
  h_units : Z;
  h_pap : Q;
  h_price : Q;
  h_portfolio_value : Q;
  h_profit_reserve : Q;
  h_total_equity : Q;
  h_actual_invested : Q
}.

(** The instance attributes of [PKPStrategy] that change during a run.
    [monthly_profits] is a Python dict: insertion-ordered, one entry per key. *)
Record State := mkState {
  total_units : Z;
  bia : Q;
  pap : Q;
  profit_reserve : Q;
  actual_invested : Q;
  transactions : list Transaction;
  portfolio_history : list HistoryRecord;
  current_bid_stage : Z;
  bids_executed_count : Z;
  current_sip_amount : Q;
  initial_breakeven_date : option Date;
  sustained_breakeven_date : option Date;
  monthly_profits : list ((Z * Z) * Q);
  has_invested : bool;
  max_actual_invested : Q;
  max_actual_invested_date : option Date;
  benchmark_units : Z;
  benchmark_invested : Q
}.

(** [__init__] *)
Definition init (cfg : Config) : State := {|
  total_units := 0;
  bia := 0;
  pap := 0;
  profit_reserve := 0;
  actual_invested := 0;
  transactions := [];
  portfolio_history := [];
  current_bid_stage := 0;
  bids_executed_count := 0;
  current_sip_amount := base_sip cfg;
  initial_breakeven_date := None;
  sustained_breakeven_date := None;
  monthly_profits := [];
  has_invested := false;
  max_actual_invested := 0;
  max_actual_invested_date := None;
  benchmark_units := 0;
  benchmark_invested := 0
|}.

(** Attribute assignment, one setter per attribute the engine writes. *)
Definition set_total_units (v : Z) (s : State) : State :=
  mkState v (bia s) (pap s) (profit_reserve s) (actual_invested s)
    (transactions s) (portfolio_history s) (current_bid_stage s)
    (bids_executed_count s) (current_sip_amount s) (initial_breakeven_date s)
    (sustained_breakeven_date s) (monthly_profits s) (has_invested s)
    (max_actual_invested s) (max_actual_invested_date s) (benchmark_units s)
    (benchmark_invested s).

Definition set_bia (v : Q) (s : State) : State :=
  mkState (total_units s) v (pap s) (profit_reserve s) (actual_invested s)
    (transactions s) (portfolio_history s) (current_bid_stage s)
    (bids_executed_count s) (current_sip_amount s) (initial_breakeven_date s)
    (sustained_breakeven_date s) (monthly_profits s) (has_invested s)
    (max_actual_invested s) (max_actual_invested_date s) (benchmark_units s)
    (benchmark_invested s).

Definition set_pap (v : Q) (s : State) : State :=
  mkState (total_units s) (bia s) v (profit_reserve s) (actual_invested s)
    (transactions s) (portfolio_history s) (current_bid_stage s)
    (bids_executed_count s) (current_sip_amount s) (initial_breakeven_date s)
    (sustained_breakeven_date s) (monthly_profits s) (has_invested s)
    (max_actual_invested s) (max_actual_invested_date s) (benchmark_units s)
    (benchmark_invested s).

Definition set_profit_reserve (v : Q) (s : State) : State :=
  mkState (total_units s) (bia s) (pap s) v (actual_invested s)
    (transactions s) (portfolio_history s) (current_bid_stage s)
    (bids_executed_count s) (current_sip_amount s) (initial_breakeven_date s)
    (sustained_breakeven_date s) (monthly_profits s) (has_invested s)
    (max_actual_invested s) (max_actual_invested_date s) (benchmark_units s)
    (benchmark_invested s).

Definition set_actual_invested (v : Q) (s : State) : State :=
  mkState (total_units s) (bia s) (pap s) (profit_reserve s) v
    (transactions s) (portfolio_history s) (current_bid_stage s)
    (bids_executed_count s) (current_sip_amount s) (initial_breakeven_date s)
    (sustained_breakeven_date s) (monthly_profits s) (has_invested s)
    (max_actual_invested s) (max_actual_invested_date s) (benchmark_units s)
    (benchmark_invested s).

Definition set_transactions (v : list Transaction) (s : State) : State :=
  mkState (total_units s) (bia s) (pap s) (profit_reserve s)
    (actual_invested s) v (portfolio_history s) (current_bid_stage s)
    (bids_executed_count s) (current_sip_amount s) (initial_breakeven_date s)
    (sustained_breakeven_date s) (monthly_profits s) (has_invested s)
    (max_actual_invested s) (max_actual_invested_date s) (benchmark_units s)
    (benchmark_invested s).

Definition set_portfolio_history (v : list HistoryRecord) (s : State) : State :=
  mkState (total_units s) (bia s) (pap s) (profit_reserve s)
    (actual_invested s) (transactions s) v (current_bid_stage s)
    (bids_executed_count s) (current_sip_amount s) (initial_breakeven_date s)
    (sustained_breakeven_date s) (monthly_profits s) (has_invested s)
    (max_actual_invested s) (max_actual_invested_date s) (benchmark_units s)
    (benchmark_invested s).

Definition set_current_bid_stage (v : Z) (s : State) : State :=
  mkState (total_units s) (bia s) (pap s) (profit_reserve s)
    (actual_invested s) (transactions s) (portfolio_history s) v
    (bids_executed_count s) (current_sip_amount s) (initial_breakeven_date s)
    (sustained_breakeven_date s) (monthly_profits s) (has_invested s)
    (max_actual_invested s) (max_actual_invested_date s) (benchmark_units s)
    (benchmark_invested s).

Definition set_bids_executed_count (v : Z) (s : State) : State :=
  mkState (total_units s) (bia s) (pap s) (profit_reserve s)
    (actual_invested s) (transactions s) (portfolio_history s)
    (current_bid_stage s) v (current_sip_amount s) (initial_breakeven_date s)
    (sustained_breakeven_date s) (monthly_profits s) (has_invested s)
    (max_actual_invested s) (max_actual_invested_date s) (benchmark_units s)
    (benchmark_invested s).

Definition set_current_sip_amount (v : Q) (s : State) : State :=
  mkState (total_units s) (bia s) (pap s) (profit_reserve s)
    (actual_invested s) (transactions s) (portfolio_history s)
    (current_bid_stage s) (bids_executed_count s) v (initial_breakeven_date s)
    (sustained_breakeven_date s) (monthly_profits s) (has_invested s)
    (max_actual_invested s) (max_actual_invested_date s) (benchmark_units s)
    (benchmark_invested s).

Definition set_initial_breakeven_date (v : option Date) (s : State) : State :=
  mkState (total_units s) (bia s) (pap s) (profit_reserve s)
    (actual_invested s) (transactions s) (portfolio_history s)
    (current_bid_stage s) (bids_executed_count s) (current_sip_amount s) v
    (sustained_breakeven_date s) (monthly_profits s) (has_invested s)
    (max_actual_invested s) (max_actual_invested_date s) (benchmark_units s)
    (benchmark_invested s).

Definition set_sustained_breakeven_date (v : option Date) (s : State) : State :=
  mkState (total_units s) (bia s) (pap s) (profit_reserve s)
    (actual_invested s) (transactions s) (portfolio_history s)
    (current_bid_stage s) (bids_executed_count s) (current_sip_amount s)
    (initial_breakeven_date s) v (monthly_profits s) (has_invested s)
    (max_actual_invested s) (max_actual_invested_date s) (benchmark_units s)
    (benchmark_invested s).

Definition set_monthly_profits (v : list ((Z * Z) * Q)) (s : State) : State :=
  mkState (total_units s) (bia s) (pap s) (profit_reserve s)
    (actual_invested s) (transactions s) (portfolio_history s)
    (current_bid_stage s) (bids_executed_count s) (current_sip_amount s)
    (initial_breakeven_date s) (sustained_breakeven_date s) v (has_invested s)
    (max_actual_invested s) (max_actual_invested_date s) (benchmark_units s)
    (benchmark_invested s).

Definition set_has_invested (v : bool) (s : State) : State :=
  mkState (total_units s) (bia s) (pap s) (profit_reserve s)
    (actual_invested s) (transactions s) (portfolio_history s)
    (current_bid_stage s) (bids_executed_count s) (current_sip_amount s)
    (initial_breakeven_date s) (sustained_breakeven_date s) (monthly_profits s)
    v (max_actual_invested s) (max_actual_invested_date s) (benchmark_units s)
    (benchmark_invested s).

Definition set_max_actual_invested (v : Q) (s : State) : State :=
  mkState (total_units s) (bia s) (pap s) (profit_reserve s)
    (actual_invested s) (transactions s) (portfolio_history s)
    (current_bid_stage s) (bids_executed_count s) (current_sip_amount s)
    (initial_breakeven_date s) (sustained_breakeven_date s) (monthly_profits s)
    (has_invested s) v (max_actual_invested_date s) (benchmark_units s)
    (benchmark_invested s).

Definition set_max_actual_invested_date (v : option Date) (s : State) : State :=
  mkState (total_units s) (bia s) (pap s) (profit_reserve s)
    (actual_invested s) (transactions s) (portfolio_history s)
    (current_bid_stage s) (bids_executed_count s) (current_sip_amount s)
    (initial_breakeven_date s) (sustained_breakeven_date s) (monthly_profits s)
    (has_invested s) (max_actual_invested s) v (benchmark_units s)
    (benchmark_invested s).

Definition set_benchmark_units (v : Z) (s : State) : State :=
  mkState (total_units s) (bia s) (pap s) (profit_reserve s)
    (actual_invested s) (transactions s) (portfolio_history s)
    (current_bid_stage s) (bids_executed_count s) (current_sip_amount s)
    (initial_breakeven_date s) (sustained_breakeven_date s) (monthly_profits s)
    (has_invested s) (max_actual_invested s) (max_actual_invested_date s) v
    (benchmark_invested s).

Definition set_benchmark_invested (v : Q) (s : State) : State :=
  mkState (total_units s) (bia s) (pap s) (profit_reserve s)
    (actual_invested s) (transactions s) (portfolio_history s)
    (current_bid_stage s) (bids_executed_count s) (current_sip_amount s)
    (initial_breakeven_date s) (sustained_breakeven_date s) (monthly_profits s)
    (has_invested s) (max_actual_invested s) (max_actual_invested_date s)
    (benchmark_units s) v.

(** [d.get(k, 0)] and [d[k] = v] on the monthly ledger. *)
Fixpoint dict_get (d : list ((Z * Z) * Q)) (k : Z * Z) : Q :=
  match d with
  | [] => 0
  | (k', v) :: d' =>
      if ((fst k' =? fst k) && (snd k' =? snd k))%Z then v else dict_get d' k
  end.

Fixpoint dict_set (d : list ((Z * Z) * Q)) (k : Z * Z) (v : Q)
  : list ((Z * Z) * Q) :=
  match d with
  | [] => [(k, v)]
  | (k', v') :: d' =>
      if ((fst k' =? fst k) && (snd k' =? snd k))%Z
      then (k', v) :: d'
      else (k', v') :: dict_set d' k v
  end.

(** ** The engine *)

(** [log_transaction], lines 52-54: the guarded profit-and-loss ratio. *)
Definition pnl_pct (bia_now current_market_value : Q) : option Q :=
  if Qlt_le_dec 0 bia_now
  then Py.div (current_market_value - bia_now) bia_now
  else Some 0.

(** [log_transaction] *)
Definition log_transaction (date : Date) (type : TxType) (units : Z)
    (price amount actual_invested_arg : Q) (notes : Notes) (s : State)
  : option State :=
  let current_market_value := inject_Z (total_units s) * price in
  pnl <- pnl_pct (bia s) current_market_value ;;
  Some (set_transactions
          (transactions s ++
           [ {| t_date := date;
                t_type := type;
                t_units := units;
                t_price := price;
                t_amount := amount;
                t_total_units := total_units s;
                t_pap := pap s;
                t_bia := bia s;
                t_actual_invested := actual_invested_arg;
                t_current_market_value := current_market_value;
                t_pnl_pct := pnl;
                t_profit_reserve := profit_reserve s;
                t_notes := notes |} ]) s).

(** [record_history] *)
Definition record_history (date : Date) (current_price : Q) (s : State)
  : State :=
  let portfolio_value := inject_Z (total_units s) * current_price in
  let total_equity := portfolio_value + profit_reserve s in
  let s :=
    if has_invested s && (if Qlt_le_dec 0 (actual_invested s) then false else true)
    then match initial_breakeven_date s with
         | None => set_initial_breakeven_date (Some date) s
         | Some _ => s
         end
    else s in
  set_portfolio_history
    (portfolio_history s ++
     [ {| h_date := date;
          h_units := total_units s;
          h_pap := pap s;
          h_price := current_price;
          h_portfolio_value := portfolio_value;
          h_profit_reserve := profit_reserve s;
          h_total_equity := total_equity;
          h_actual_invested := actual_invested s |} ]) s.

(** "Track Max Invested": the high-water mark, lines 103-105, 157-159 and
    209-211 of [run]. *)
Definition track_max_invested (date : Date) (s : State) : State :=
  if Qlt_le_dec (max_actual_invested s) (actual_invested s)
  then set_max_actual_invested_date (Some date)
         (set_max_actual_invested (actual_invested s) s)
  else s.

(** [run], lines 93-111: the body of the initial lumpsum purchase. *)
Definition lumpsum_buy (date : Date) (close_price : Q) (units_to_buy : Z)
    (s : State) : option State :=
  let cost := inject_Z units_to_buy * close_price in
  let s := set_bia (bia s + cost) s in
  let s := set_total_units (total_units s + units_to_buy) s in
  p <- Py.div (bia s) (inject_Z (total_units s)) ;;
  let s := set_pap p s in
  let s := set_actual_invested (actual_invested s + cost) s in
  let s := set_has_invested true s in
  let s := track_max_invested date s in
  let s := set_benchmark_invested (benchmark_invested s + cost) s in
  let s := set_benchmark_units (benchmark_units s + units_to_buy) s in
  log_transaction date LUMPSUM units_to_buy close_price cost
    (actual_invested s) InitialInvestment s.

(** [run], lines 89-111. *)
Definition lumpsum_block (cfg : Config) (i : nat) (date : Date)
    (close_price : Q) (s : State) : option State :=
  if (i =? 0)%nat && (if Qlt_le_dec 0 (initial_lumpsum cfg) then true else false)
  then
    q <- Py.div (initial_lumpsum cfg) close_price ;;
    let units_to_buy := Py.int q in
    if Z_lt_le_dec 0 units_to_buy
    then lumpsum_buy date close_price units_to_buy s
    else Some s
  else Some s.

(** [run], lines 119-120: the day classifier. *)
Definition is_sip_day (prev_month : option Z) (current_month : Z) : bool :=
  match prev_month with
  | Some pm => negb (current_month =? pm)%Z
  | None => false
  end.

(** "Funding Logic: Reserve First" followed by "Shortfall increases Actual
    Invested": lines 146-159 of the contribution branch, repeated verbatim
    as lines 198-211 of the dip-buy branch.  Returns the new state and
    [amount_from_reserve]. *)
Definition fund_reserve_first (date : Date) (cost : Q) (s : State)
  : State * Q :=
  let amount_from_reserve := Qmin cost (profit_reserve s) in
  let s := set_profit_reserve (profit_reserve s - amount_from_reserve) s in
  let fresh_capital := cost - amount_from_reserve in
  let s :=
    if Qlt_le_dec 0 fresh_capital
    then track_max_invested date
           (set_has_invested true
              (set_actual_invested (actual_invested s + fresh_capital) s))
    else s in
  (s, amount_from_reserve).

(** [run], lines 139-162: the body of the monthly contribution purchase. *)
Definition sip_buy (date : Date) (close_price : Q) (units_to_buy : Z)
    (s : State) : option State :=
  let cost := inject_Z units_to_buy * close_price in
  let s := set_bia (bia s + cost) s in
  let s := set_total_units (total_units s + units_to_buy) s in
  p <- Py.div (bia s) (inject_Z (total_units s)) ;;
  let s := set_pap p s in
  let '(s, amount_from_reserve) := fund_reserve_first date cost s in
  log_transaction date SIP units_to_buy close_price cost
    (actual_invested s) (ReserveUsed amount_from_reserve) s.

(** [run], lines 126-130: the shadow benchmark buys on a contribution day. *)
Definition benchmark_sip (cfg : Config) (close_price : Q) (s : State)
  : option State :=
  q <- Py.div (base_sip cfg) close_price ;;
  let bench_units := Py.int q in
  if Z_lt_le_dec 0 bench_units
  then
    let s := set_benchmark_invested
               (benchmark_invested s + inject_Z bench_units * close_price) s in
    Some (set_benchmark_units (benchmark_units s + bench_units) s)
  else Some s.

(** [run], lines 125-163 (the caller records history and [continue]s). *)
Definition sip_block (cfg : Config) (date : Date) (close_price : Q)
    (s : State) : option State :=
  s <- benchmark_sip cfg close_price s ;;
  let s := set_current_sip_amount (base_sip cfg) s in
  q <- Py.div (current_sip_amount s) close_price ;;
  let units_to_buy := Py.int q in
  if Z_lt_le_dec 0 units_to_buy
  then sip_buy date close_price units_to_buy s
  else Some s.

(** [run], lines 191-217: the body of a dip-buy at multiplier
    [bid_multiplier_factor]. *)
Definition bid_buy (date : Date) (close_price drop_pct : Q)
    (bid_multiplier_factor units_to_buy : Z) (s : State) : option State :=
  let cost := inject_Z units_to_buy * close_price in
  let s := set_bia (bia s + cost) s in
  let s := set_total_units (total_units s + units_to_buy) s in
  p <- Py.div (bia s) (inject_Z (total_units s)) ;;
  let s := set_pap p s in
  let '(s, amount_from_reserve) := fund_reserve_first date cost s in
  let s := set_bids_executed_count (bids_executed_count s + 1) s in
  let s := set_current_bid_stage (current_bid_stage s + 1) s in
  log_transaction date (BID bid_multiplier_factor) units_to_buy close_price
    cost (actual_invested s)
    (DropReserveUsed (drop_pct * 100) amount_from_reserve) s.

(** [run], lines 176-184: which multiplier, if any, the drop triggers. *)
Definition bid_factor (cfg : Config) (drop_pct : Q) (s : State) : Z :=
  if Z_lt_le_dec (current_bid_stage s) 10
  then
    let next_multiplier := (current_bid_stage s + 1)%Z in
    let required_drop := inject_Z next_multiplier * bid_trigger_drop cfg in
    if Qlt_le_dec drop_pct required_drop then 0%Z else next_multiplier
  else 0%Z.

(** [run], lines 169-221.  The boolean tells whether a dip-buy executed, in
    which case the caller records history and [continue]s. *)
Definition bid_block (cfg : Config) (date : Date) (close_price : Q)
    (s : State) : option (State * bool) :=
  if Z_lt_le_dec 0 (total_units s)
  then
    let base_bid_amt_X := bid_multiplier cfg * base_sip cfg in
    drop_pct <- Py.div (pap s - close_price) (pap s) ;;
    let bid_multiplier_factor := bid_factor cfg drop_pct s in
    if Z_lt_le_dec 0 bid_multiplier_factor
    then
      let invest_amt := inject_Z bid_multiplier_factor * base_bid_amt_X in
      q <- Py.div invest_amt close_price ;;
      let units_to_buy := Py.int q in
      if Z_lt_le_dec 0 units_to_buy
      then
        s <- bid_buy date close_price drop_pct bid_multiplier_factor
               units_to_buy s ;;
        Some (s, true)
      else Some (s, false)
    else Some (s, false)
  else Some (s, false).

(** [run], line 232. *)
Definition target_threshold (cfg : Config) (current_value : Q) : Q :=
  Qmax (min_profit_booking_amount cfg) (0.01 * current_value).

(** [run], lines 237-241: units to sell, capped at the units held. *)
Definition units_calc (target close_price : Q) (held : Z) : option Z :=
  q <- Py.floordiv (target + close_price - 1) close_price ;;
  let u := Py.int q in
  Some (if Z_lt_le_dec held u then held else u).

(** [run], line 271. *)
Definition gain_pct (close_price pap_now : Q) : option Q :=
  if Qlt_le_dec 0 pap_now
  then Py.div (close_price - pap_now) pap_now
  else Some 0.

(** [run], lines 244-273: the body of a sale of [units] units. *)
Definition sell (date : Date) (close_price profit_val : Q) (units : Z)
    (s : State) : option State :=
  let sale_value := inject_Z units * close_price in
  let s := set_total_units (total_units s - units) s in
  p <- (if Z_lt_le_dec 0 (total_units s)
        then Py.div (bia s) (inject_Z (total_units s))
        else Some 0) ;;
  let s := set_pap p s in
  let invested_reduction := Qmin sale_value (actual_invested s) in
  let s := set_actual_invested (actual_invested s - invested_reduction) s in
  let reserve_addition := sale_value - invested_reduction in
  let s := set_profit_reserve (profit_reserve s + reserve_addition) s in
  let k := ym_key date in
  let s := set_monthly_profits
             (dict_set (monthly_profits s) k
                (dict_get (monthly_profits s) k + sale_value)) s in
  let s := set_current_bid_stage 0 s in
  g <- gain_pct close_price (pap s) ;;
  log_transaction date SELL (- units) close_price sale_value
    (actual_invested s) (GainProfitRecov (g * 100) profit_val invested_reduction)
    s.

(** [run], lines 223-273. *)
Definition sell_block (cfg : Config) (date : Date) (close_price : Q)
    (s : State) : option State :=
  if Z_lt_le_dec 0 (total_units s)
  then
    let current_value := inject_Z (total_units s) * close_price in
    let profit_val := current_value - bia s in
    let target := target_threshold cfg current_value in
    if Qlt_le_dec profit_val target
    then Some s
    else
      u <- units_calc target close_price (total_units s) ;;
      if Z_lt_le_dec 0 u
      then sell date close_price profit_val u s
      else Some s
  else Some s.

(** One iteration of the loop of [run].  The loop carries the instance
    state and the local [prev_month]. *)
Definition run_day (cfg : Config) (i : nat) (row : Row)
    (ls : State * option Z) : option (State * option Z) :=
  let '(s, prev_month) := ls in
  let close_price := close row in
  s <- lumpsum_block cfg i (date row) close_price s ;;
  let current_month := month (date row) in
  let sip_day := is_sip_day prev_month current_month in
  let prev_month := Some current_month in
  if sip_day
  then
    s <- sip_block cfg (date row) close_price s ;;
    Some (record_history (date row) close_price s, prev_month)
  else
    r <- bid_block cfg (date row) close_price s ;;
    let '(s, bought) := r in
    if bought : bool
    then Some (record_history (date row) close_price s, prev_month)
    else
      s <- sell_block cfg (date row) close_price s ;;
      Some (record_history (date row) close_price s, prev_month).

(** [for i, row in enumerate(data)], from index [i] on. *)
Fixpoint run_loop (cfg : Config) (i : nat) (data : list Row)
    (ls : State * option Z) : option (State * option Z) :=
  match data with
  | [] => Some ls
  | row :: rest =>
      ls' <- run_day cfg i row ls ;;
      run_loop cfg (S i) rest ls'
  end.

(** [run] on an instance in state [s]. *)
Definition run (cfg : Config) (s : State) (data : list Row) : option State :=
  ls <- run_loop cfg 0 data (s, None) ;;
  Some (fst ls).

(** [PKPStrategy(...).run(data)]: a run on a freshly built instance. *)
Definition run_fresh (cfg : Config) (data : list Row) : option State :=
  run cfg (init cfg) data.

(** ** Post-run analytics *)

(** [self.portfolio_history[-1]] *)
Fixpoint final_state (history : list HistoryRecord) : option HistoryRecord :=
  match history with
  | [] => None
  | [r] => Some r
  | _ :: rest => final_state rest
  end.

(** The first loop of the breakeven scan: the date of the last record whose
    [actual_invested] exceeds the tolerance [1.0]. *)
Definition last_positive_date (history : list HistoryRecord) : option Date :=
  fold_left
    (fun acc record =>
       if Qlt_le_dec 1 (h_actual_invested record)
       then Some (h_date record)
       else acc)
    history None.

(** The second loop: the date of the first record strictly after [d]. *)
Fixpoint first_date_after (history : list HistoryRecord) (d : Date)
  : option Date :=
  match history with
  | [] => None
  | record :: rest =>
      if date_ltb d (h_date record)
      then Some (h_date record)
      else first_date_after rest d
  end.

(** [generate_report], lines 316-340: the only part that writes to the
    instance.  Everything after it is printing. *)
Definition generate_report (s : State) : State :=
  match final_state (portfolio_history s) with
  | None => s
  | Some final =>
      match last_positive_date (portfolio_history s) with
      | Some lpd =>
          if date_ltb lpd (h_date final)
          then match first_date_after (portfolio_history s) lpd with
               | Some d => set_sustained_breakeven_date (Some d) s
               | None => s
               end
          else s
      | None => s
      end
  end.

(** A date rendered with [strftime('%Y-%m-%d')], or the sentinel string. *)
Inductive DateString := DateOf (d : Date) | NotReached.

(** The entries of the dict returned by [get_metrics] that are amounts or
    dates.  Left out: [symbol], and the entries that need calendar
    arithmetic on day counts ([sip_years], [time_to_break_even]) or
    re-key the ledger by year ([yearly_profits]). *)
Record Metrics := mkMetrics {
  base_inv_amt : Q;
  m_max_actual_invested : Q;
  m_actual_invested : Q;
  market_value : Q;
  cash_balance : Q;
  break_even_date : DateString;
  avg_monthly_profit_pre_be : Q;
  avg_monthly_profit_post_be : Q;
  invested_reg_sip : Q;
  market_value_reg_sip : Q
}.

(** What [get_metrics] returns: [{}] or the metrics dict. *)
Inductive MetricsDict := EmptyDict | MetricsOf (m : Metrics).

(** [get_metrics], lines 470-483. *)
Definition metrics_sustained_breakeven_date (history : list HistoryRecord)
    (final : HistoryRecord) : option Date :=
  match last_positive_date history with
  | Some lpd =>
      if date_ltb lpd (h_date final)
      then first_date_after history lpd
      else None
  | None =>
      match history with
      | first :: _ =>
          if Qlt_le_dec 0 (h_actual_invested first)
          then None
          else Some (h_date first)
      | [] => None
      end
  end.

(** [sum(l) / len(l) if l else 0] *)
Definition average (l : list Q) : option Q :=
  match l with
  | [] => Some 0
  | _ => Py.div (fold_left Qplus l 0) (inject_Z (Z.of_nat (length l)))
  end.

(** [get_metrics] *)
Definition get_metrics (s : State) : option MetricsDict :=
  match final_state (portfolio_history s) with
  | None => Some EmptyDict
  | Some final =>
      let sustained :=
        metrics_sustained_breakeven_date (portfolio_history s) final in
      let be_date :=
        match sustained with Some d => d | None => h_date final end in
      let is_pre (e : (Z * Z) * Q) :=
        date_ltb (mkDate (fst (fst e)) (snd (fst e)) 1) be_date in
      let pre_be_profits := map snd (filter is_pre (monthly_profits s)) in
      let post_be_profits :=
        map snd (filter (fun e => negb (is_pre e)) (monthly_profits s)) in
      avg_pre_be <- average pre_be_profits ;;
      avg_post_be <- average post_be_profits ;;
      Some (MetricsOf {|
        base_inv_amt := bia s;
        m_max_actual_invested := max_actual_invested s;
        m_actual_invested := actual_invested s;
        market_value := h_portfolio_value final;
        cash_balance := h_profit_reserve final;
        break_even_date :=
          match sustained with Some d => DateOf d | None => NotReached end;
        avg_monthly_profit_pre_be := avg_pre_be;
        avg_monthly_profit_post_be := avg_post_be;
        invested_reg_sip := benchmark_invested s;
        market_value_reg_sip := inject_Z (benchmark_units s) * h_price final
      |})
  end.

(** ** Concrete runs *)

(** The constructor defaults. *)
Definition default_config : Config := {|
  base_sip := 100000;
  min_profit_booking_amount := 10000;
  bid_multiplier := 0.5;
  bid_trigger_drop := 0.02;
  initial_lumpsum := 0
|}.

(** ** Proof tools *)

Ltac break_if :=
  match goal with
  | H : context [if ?c then _ else _] |- _ => destruct c
  | |- context [if ?c then _ else _] => destruct c
  end.

Ltac some_inv :=
  repeat match goal with
  | H : Some _ = Some _ |- _ => injection H; clear H; intros; subst
  | H : None = Some _ |- _ => discriminate H
  | H : Some _ = None |- _ => discriminate H
  end.

(** ** Python primitives: basic facts *)

Lemma div_some a b : ~ b == 0 -> Py.div a b = Some (a / b).
Proof.
  intros Hb. unfold Py.div. destruct (Qeq_dec b 0); [contradiction | reflexivity].
Qed.

Lemma div_inv a b q : Py.div a b = Some q -> ~ b == 0 /\ q = a / b.
Proof.
  unfold Py.div. destruct (Qeq_dec b 0); intros H; some_inv. auto.
Qed.

Lemma bind_inv {A B} (m : option A) (k : A -> option B) b :
  Py.bind m k = Some b -> exists a, m = Some a /\ k a = Some b.
Proof.
  destruct m as [a|]; simpl; intros H; [eauto | discriminate].
Qed.

Lemma int_inject_Z z : Py.int (inject_Z z) = z.
Proof. unfold Py.int. simpl. apply Z.quot_1_r. Qed.

(** A positive truncation comes from a positive number. *)
Lemma int_pos_inv q : (0 < Py.int q)%Z -> 0 < q.
Proof.
  destruct q as [n d]. unfold Py.int, Qlt. simpl. intros H.
  rewrite Z.mul_1_r.
  destruct (Z_lt_le_dec 0 n) as [Hn|Hn]; [exact Hn|].
  exfalso.
  assert (Hq : (Z.quot n (Z.pos d) <= 0)%Z).
  { apply Z.quot_le_upper_bound; lia. }
  lia.
Qed.

Lemma inject_Z_pos z : (0 < z)%Z -> 0 < inject_Z z.
Proof. intros H. unfold Qlt. simpl. lia. Qed.

Lemma inject_Z_nonzero z : (0 < z)%Z -> ~ inject_Z z == 0.
Proof. intros H E. apply inject_Z_pos in H. rewrite E in H. lra. Qed.

Lemma Qdiv_pos a b : 0 < a -> 0 < b -> 0 < a / b.
Proof.
  intros Ha Hb. unfold Qdiv. apply Qmult_lt_0_compat; [exact Ha|].
  apply Qinv_lt_0_compat. exact Hb.
Qed.

(** If the quotient is positive and so is the numerator, the divisor is. *)
Lemma Qdiv_pos_inv a b : 0 < a -> 0 < a / b -> 0 < b.
Proof.
  intros Ha Hq.
  destruct (Qlt_le_dec 0 b) as [Hb|Hb]; [exact Hb|].
  exfalso.
  destruct (Qeq_dec b 0) as [E|E].
  - rewrite E in Hq.
    assert (H0 : a / 0 == 0) by (unfold Qdiv; change (/ 0) with 0; ring).
    lra.
  - assert (Hnb : 0 < - b) by lra.
    assert (Hd : 0 < a / - b) by (apply Qdiv_pos; assumption).
    assert (Hs : a / - b == - (a / b)) by (field; exact E).
    lra.
Qed.

(** ** What each block does to the state *)

(** [t] is the entry that [log_transaction] writes in state [s]. *)
Definition logged (date : Date) (type : TxType) (units : Z)
    (price amount : Q) (s : State) (t : Transaction) : Prop :=
  t_date t = date /\ t_type t = type /\ t_units t = units /\
  t_price t = price /\ t_amount t = amount /\
  t_total_units t = total_units s /\ t_pap t = pap s /\ t_bia t = bia s /\
  t_actual_invested t = actual_invested s /\
  t_profit_reserve t = profit_reserve s.

Lemma pnl_pct_total b c : exists q, pnl_pct b c = Some q.
Proof.
  unfold pnl_pct. destruct (Qlt_le_dec 0 b) as [Hb|Hb]; [|eauto].
  rewrite div_some by lra. eauto.
Qed.

Lemma gain_pct_total p a : exists q, gain_pct p a = Some q.
Proof.
  unfold gain_pct. destruct (Qlt_le_dec 0 a) as [Hb|Hb]; [|eauto].
  rewrite div_some by lra. eauto.
Qed.

(** The fields a purchase or a sale leaves alone or sets, stated between
    the state [s] before and the state [s'] after. *)
Record buy_effect (type : TxType) (date : Date) (units : Z) (price : Q)
    (s s' : State) : Prop := {
  be_units : total_units s' = (total_units s + units)%Z;
  be_bia : bia s' = bia s + inject_Z units * price;
  be_pap : pap s' = bia s' / inject_Z (total_units s');
  be_nonzero : ~ inject_Z (total_units s') == 0;
  be_reserve :
    profit_reserve s' =
    match type with
    | LUMPSUM => profit_reserve s
    | _ => profit_reserve s - Qmin (inject_Z units * price) (profit_reserve s)
    end;
  be_invested :
    actual_invested s' =
    match type with
    | LUMPSUM => actual_invested s + inject_Z units * price
    | _ =>
        let fresh_capital :=
          inject_Z units * price
          - Qmin (inject_Z units * price) (profit_reserve s) in
        if Qlt_le_dec 0 fresh_capital
        then actual_invested s + fresh_capital
        else actual_invested s
    end;
  be_stage :
    current_bid_stage s' =
    match type with
    | BID _ => (current_bid_stage s + 1)%Z
    | _ => current_bid_stage s
    end;
  be_bench_units :
    benchmark_units s' =
    match type with
    | LUMPSUM => (benchmark_units s + units)%Z
    | _ => benchmark_units s
    end;
  be_bench_invested :
    benchmark_invested s' =
    match type with
    | LUMPSUM => benchmark_invested s + inject_Z units * price
    | _ => benchmark_invested s
    end;
  be_history : portfolio_history s' = portfolio_history s;
  be_log :
    exists t,
      transactions s' = transactions s ++ [t]
      /\ logged date type units price (inject_Z units * price) s' t
}.

(** Reading an attribute after a chain of assignments.  Evaluation is by
    value and touches the setters and projections only, never the
    arithmetic, so each attribute stays a small expression. *)
Ltac fields :=
  cbv beta iota zeta delta
    [set_total_units set_bia set_pap set_profit_reserve
     set_actual_invested set_transactions set_portfolio_history
     set_current_bid_stage set_bids_executed_count set_current_sip_amount
     set_initial_breakeven_date set_sustained_breakeven_date
     set_monthly_profits set_has_invested set_max_actual_invested
     set_max_actual_invested_date set_benchmark_units
     set_benchmark_invested
     total_units bia pap profit_reserve actual_invested transactions
     portfolio_history current_bid_stage bids_executed_count
     current_sip_amount initial_breakeven_date sustained_breakeven_date
     monthly_profits has_invested max_actual_invested
     max_actual_invested_date benchmark_units benchmark_invested
     fst snd] in *.


(** Opening [x <- Py.div a b ;; k] in a hypothesis. *)
Ltac open_div H :=
  let q := fresh "q" in
  let Hq := fresh "Hq" in
  let Hnz := fresh "Hnz" in
  apply bind_inv in H; destruct H as (q & Hq & H);
  apply div_inv in Hq; destruct Hq as [Hnz Hq]; subst q; cbv beta in H.

(** Opening the final [log_transaction] of an action. *)
Ltac open_log H :=
  let q := fresh "pnl" in
  let Hq := fresh "Hpnl" in
  apply bind_inv in H; destruct H as (q & Hq & H); cbv beta in H;
  injection H as H; subst.

Ltac close_effect :=
  constructor; fields; try reflexivity; try assumption;
  try (eexists; split; [reflexivity | repeat split]);
  try (break_if; first [reflexivity | exfalso; lra]).

Lemma lumpsum_buy_effect date price units s s' :
  lumpsum_buy date price units s = Some s' ->
  buy_effect LUMPSUM date units price s s'.
Proof.
  destruct s.
  unfold lumpsum_buy, track_max_invested, log_transaction. intros H. fields.
  open_div H.
  break_if; fields; open_log H; close_effect.
Qed.

Lemma sip_buy_effect date price units s s' :
  sip_buy date price units s = Some s' ->
  buy_effect SIP date units price s s'.
Proof.
  destruct s.
  unfold sip_buy, fund_reserve_first, track_max_invested, log_transaction.
  intros H. fields. open_div H.
  repeat (break_if; fields); open_log H; close_effect.
Qed.

Lemma bid_buy_effect date price drop_pct k units s s' :
  bid_buy date price drop_pct k units s = Some s' ->
  buy_effect (BID k) date units price s s'.
Proof.
  destruct s.
  unfold bid_buy, fund_reserve_first, track_max_invested, log_transaction.
  intros H. fields. open_div H.
  repeat (break_if; fields); open_log H; close_effect.
Qed.

(** [log_transaction] raises for no argument: its division is guarded. *)
Lemma log_transaction_total date type units price amount ai notes s :
  exists s',
    log_transaction date type units price amount ai notes s = Some s'.
Proof.
  unfold log_transaction.
  destruct (pnl_pct_total (bia s) (inject_Z (total_units s) * price)) as [q Hq].
  rewrite Hq. cbn [Py.bind]. eauto.
Qed.

(** A purchase raises only if the new unit count is zero. *)
Lemma lumpsum_buy_total date price units s :
  ~ inject_Z (total_units s + units) == 0 ->
  exists s', lumpsum_buy date price units s = Some s'.
Proof.
  intros Hnz. destruct s. unfold lumpsum_buy. fields.
  rewrite div_some by exact Hnz. cbn [Py.bind].
  apply log_transaction_total.
Qed.

Lemma sip_buy_total date price units s :
  ~ inject_Z (total_units s + units) == 0 ->
  exists s', sip_buy date price units s = Some s'.
Proof.
  intros Hnz. destruct s. unfold sip_buy. fields.
  rewrite div_some by exact Hnz. cbn [Py.bind].
  destruct (fund_reserve_first _ _ _) as [s1 a].
  apply log_transaction_total.
Qed.

Lemma bid_buy_total date price drop_pct k units s :
  ~ inject_Z (total_units s + units) == 0 ->
  exists s', bid_buy date price drop_pct k units s = Some s'.
Proof.
  intros Hnz. destruct s. unfold bid_buy. fields.
  rewrite div_some by exact Hnz. cbn [Py.bind].
  destruct (fund_reserve_first _ _ _) as [s1 a].
  apply log_transaction_total.
Qed.

(** The effect of a sale of [units] units at [price]. *)
Record sell_effect (date : Date) (units : Z) (price : Q) (s s' : State)
  : Prop := {
  se_units : total_units s' = (total_units s - units)%Z;
  se_bia : bia s' = bia s;
  se_pap :
    pap s' =
    if Z_lt_le_dec 0 (total_units s')
    then bia s' / inject_Z (total_units s')
    else 0;
  se_invested :
    actual_invested s' =
    actual_invested s - Qmin (inject_Z units * price) (actual_invested s);
  se_reserve :
    profit_reserve s' =
    profit_reserve s
    + (inject_Z units * price
       - Qmin (inject_Z units * price) (actual_invested s));
  se_stage : current_bid_stage s' = 0%Z;
  se_bench_units : benchmark_units s' = benchmark_units s;
  se_bench_invested : benchmark_invested s' = benchmark_invested s;
  se_history : portfolio_history s' = portfolio_history s;
  se_log :
    exists t,
      transactions s' = transactions s ++ [t]
      /\ logged date SELL (- units) price (inject_Z units * price) s' t
      /\ exists g profit_val,
           t_notes t =
           GainProfitRecov g profit_val
             (Qmin (inject_Z units * price) (actual_invested s))
}.

Lemma sell_spec date price profit_val units s s' :
  sell date price profit_val units s = Some s' ->
  sell_effect date units price s s'.
Proof.
  destruct s. unfold sell, log_transaction. intros H. fields.
  apply bind_inv in H. destruct H as (p & Hp & H). cbv beta in H.
  apply bind_inv in H. destruct H as (g & Hg & H). cbv beta in H.
  open_log H.
  constructor; fields; try reflexivity.
  - destruct (Z_lt_le_dec 0 (total_units0 - units)) as [Hu|Hu].
    + apply div_inv in Hp. destruct Hp as [_ Hp]. exact Hp.
    + injection Hp as <-. reflexivity.
  - eexists. split; [reflexivity|]. split.
    + repeat split.
    + cbn [t_notes]. eauto.
Qed.

(** A sale raises only if units remain and their count is zero, which
    cannot be. *)
Lemma sell_total date price profit_val units s :
  exists s', sell date price profit_val units s = Some s'.
Proof.
  destruct s. unfold sell. fields.
  assert (Hp : exists p,
             (if Z_lt_le_dec 0 (total_units0 - units)
              then Py.div bia0 (inject_Z (total_units0 - units))
              else Some 0) = Some p).
  { destruct (Z_lt_le_dec 0 (total_units0 - units)) as [Hu|Hu]; [|eauto].
    rewrite div_some by (apply inject_Z_nonzero; exact Hu). eauto. }
  destruct Hp as (p & ->). cbn [Py.bind].
  destruct (gain_pct_total price p) as [g ->]. cbn [Py.bind].
  apply log_transaction_total.
Qed.

(** The record that [record_history] appends in state [s]. *)
Definition snapshot (date : Date) (price : Q) (s : State) : HistoryRecord := {|
  h_date := date;
  h_units := total_units s;
  h_pap := pap s;
  h_price := price;
  h_portfolio_value := inject_Z (total_units s) * price;
  h_profit_reserve := profit_reserve s;
  h_total_equity := inject_Z (total_units s) * price + profit_reserve s;
  h_actual_invested := actual_invested s
|}.

Record record_effect (date : Date) (price : Q) (s s' : State) : Prop := {
  re_units : total_units s' = total_units s;
  re_bia : bia s' = bia s;
  re_pap : pap s' = pap s;
  re_reserve : profit_reserve s' = profit_reserve s;
  re_invested : actual_invested s' = actual_invested s;
  re_stage : current_bid_stage s' = current_bid_stage s;
  re_bench_units : benchmark_units s' = benchmark_units s;
  re_bench_invested : benchmark_invested s' = benchmark_invested s;
  re_log : transactions s' = transactions s;
  re_history :
    portfolio_history s' = portfolio_history s ++ [snapshot date price s]
}.

Lemma record_history_effect date price s :
  record_effect date price s (record_history date price s).
Proof.
  unfold record_history.
  destruct (has_invested s && _); [destruct (initial_breakeven_date s)|];
    constructor; reflexivity.
Qed.

(** ** Inverting the blocks of [run] *)

Lemma lumpsum_block_inv cfg i date price s s' :
  lumpsum_block cfg i date price s = Some s' ->
  (s' = s /\
   ~ (i = 0%nat /\ 0 < initial_lumpsum cfg /\
      (0 < Py.int (initial_lumpsum cfg / price))%Z)) \/
  (i = 0%nat /\ 0 < initial_lumpsum cfg /\ ~ price == 0 /\
   (0 < Py.int (initial_lumpsum cfg / price))%Z /\
   lumpsum_buy date price (Py.int (initial_lumpsum cfg / price)) s = Some s').
Proof.
  unfold lumpsum_block. intros H.
  destruct (Nat.eqb_spec i 0) as [Hi|Hi]; cbn [andb] in H.
  2:{ some_inv. left. split; [reflexivity|].
      intros (Hi' & _). contradiction. }
  destruct (Qlt_le_dec 0 (initial_lumpsum cfg)) as [Hl|Hl].
  2:{ some_inv. left. split; [reflexivity|].
      intros (_ & Hlt & _). exact (Qlt_not_le _ _ Hlt Hl). }
  apply bind_inv in H. destruct H as (q & Hq & H).
  apply div_inv in Hq. destruct Hq as [Hnz ->].
  destruct (Z_lt_le_dec 0 _) as [Hu|Hu].
  2:{ some_inv. left. split; [reflexivity|].
      intros (_ & _ & Hlt). lia. }
  right. auto.
Qed.

Lemma benchmark_sip_inv cfg price s s' :
  benchmark_sip cfg price s = Some s' ->
  ~ price == 0 /\
  s' = (if Z_lt_le_dec 0 (Py.int (base_sip cfg / price))
        then set_benchmark_units
               (benchmark_units s + Py.int (base_sip cfg / price))
               (set_benchmark_invested
                  (benchmark_invested s
                   + inject_Z (Py.int (base_sip cfg / price)) * price) s)
        else s).
Proof.
  unfold benchmark_sip. intros H.
  apply bind_inv in H. destruct H as (q & Hq & H).
  apply div_inv in Hq. destruct Hq as [Hnz ->].
  split; [exact Hnz|].
  destruct (Z_lt_le_dec 0 _); some_inv; reflexivity.
Qed.

Lemma sip_block_inv cfg date price s s' :
  sip_block cfg date price s = Some s' ->
  exists s1,
    benchmark_sip cfg price s = Some s1 /\
    (s' = set_current_sip_amount (base_sip cfg) s1 \/
     ((0 < Py.int (base_sip cfg / price))%Z /\
      sip_buy date price (Py.int (base_sip cfg / price))
        (set_current_sip_amount (base_sip cfg) s1) = Some s')).
Proof.
  unfold sip_block. intros H.
  apply bind_inv in H. destruct H as (s1 & Hs1 & H).
  exists s1. split; [exact Hs1|].
  apply bind_inv in H. destruct H as (q & Hq & H).
  apply div_inv in Hq. destruct Hq as [Hnz ->]. fields.
  destruct (Z_lt_le_dec 0 _) as [Hu|Hu]; [|some_inv; auto].
  right. auto.
Qed.

Lemma bid_block_inv cfg date price s s' b :
  bid_block cfg date price s = Some (s', b) ->
  (b = false /\ s' = s) \/
  (b = true /\ (0 < total_units s)%Z /\ (current_bid_stage s < 10)%Z /\
   exists drop_pct units,
     (0 < units)%Z /\
     bid_buy date price drop_pct (current_bid_stage s + 1) units s = Some s').
Proof.
  unfold bid_block. intros H.
  destruct (Z_lt_le_dec 0 (total_units s)) as [Hu|Hu]; [|some_inv; auto].
  apply bind_inv in H. destruct H as (dp & Hdp & H).
  unfold bid_factor in H.
  destruct (Z_lt_le_dec (current_bid_stage s) 10) as [Hst|Hst].
  - destruct (Qlt_le_dec dp _) as [Hd|Hd].
    + destruct (Z_lt_le_dec 0 0); [lia|]. some_inv. auto.
    + destruct (Z_lt_le_dec 0 (current_bid_stage s + 1)) as [Hk|Hk];
        [|some_inv; auto].
      apply bind_inv in H. destruct H as (q & Hq & H).
      destruct (Z_lt_le_dec 0 (Py.int q)) as [Hq0|Hq0]; [|some_inv; auto].
      apply bind_inv in H. destruct H as (s2 & Hs2 & H). some_inv.
      right. repeat split; try assumption. eauto.
  - destruct (Z_lt_le_dec 0 0); [lia|]. some_inv. auto.
Qed.

Lemma sell_block_inv cfg date price s s' :
  sell_block cfg date price s = Some s' ->
  s' = s \/
  ((0 < total_units s)%Z /\
   exists profit_val units,
     (0 < units <= total_units s)%Z /\
     units_calc
       (target_threshold cfg (inject_Z (total_units s) * price)) price
       (total_units s) = Some units /\
     target_threshold cfg (inject_Z (total_units s) * price)
       <= inject_Z (total_units s) * price - bia s /\
     sell date price profit_val units s = Some s').
Proof.
  unfold sell_block. intros H.
  destruct (Z_lt_le_dec 0 (total_units s)) as [Hu|Hu]; [|some_inv; auto].
  destruct (Qlt_le_dec _ _) as [Hp|Hp]; [some_inv; auto|].
  apply bind_inv in H. destruct H as (u & Hcalc & H).
  destruct (Z_lt_le_dec 0 u) as [Hu0|Hu0]; [|some_inv; auto].
  right. split; [exact Hu|]. eexists. exists u.
  repeat split; try eassumption.
  unfold units_calc in Hcalc.
  apply bind_inv in Hcalc. destruct Hcalc as (q & _ & Hq).
  destruct (Z_lt_le_dec (total_units s) (Py.int q)); some_inv; lia.
Qed.

(** ** One day, phase by phase

    A day of [run] goes through the lumpsum block, then either the
    contribution branch (benchmark purchase, then the contribution itself)
    or the dip-buy and harvest blocks, then [record_history].  [P0] holds
    before the day, [P1] after the lumpsum block, [Pb] after the benchmark
    purchase, [P2] after the day's action and [Q] after the record. *)

Section DayPhases.

Variables (cfg : Config) (i : nat) (row : Row) (pm : option Z).
Variables P0 P1 Pb P2 Q : State -> Prop.

Let sip_day := is_sip_day pm (month (date row)).

Hypothesis no_lumpsum : forall s,
  ~ (i = 0%nat /\ 0 < initial_lumpsum cfg /\
     (0 < Py.int (initial_lumpsum cfg / close row))%Z) ->
  P0 s -> P1 s.

Hypothesis on_lumpsum : forall s s',
  i = 0%nat -> 0 < initial_lumpsum cfg ->
  (0 < Py.int (initial_lumpsum cfg / close row))%Z ->
  lumpsum_buy (date row) (close row)
    (Py.int (initial_lumpsum cfg / close row)) s = Some s' ->
  P0 s -> P1 s'.

Hypothesis on_benchmark : forall s s',
  sip_day = true ->
  benchmark_sip cfg (close row) s = Some s' ->
  P1 s -> Pb (set_current_sip_amount (base_sip cfg) s').

Hypothesis on_sip : forall s s',
  (0 < Py.int (base_sip cfg / close row))%Z ->
  sip_buy (date row) (close row) (Py.int (base_sip cfg / close row)) s
  = Some s' ->
  Pb s -> P2 s'.

Hypothesis no_sip : forall s, Pb s -> P2 s.

Hypothesis on_bid : forall drop_pct units s s',
  sip_day = false ->
  (0 < units)%Z -> (current_bid_stage s < 10)%Z ->
  bid_buy (date row) (close row) drop_pct (current_bid_stage s + 1) units s
  = Some s' ->
  P1 s -> P2 s'.

Hypothesis on_sell : forall profit_val units s s',
  sip_day = false ->
  (0 < units <= total_units s)%Z ->
  sell (date row) (close row) profit_val units s = Some s' ->
  P1 s -> P2 s'.

Hypothesis no_action : forall s, sip_day = false -> P1 s -> P2 s.

Hypothesis on_record : forall s,
  P2 s -> Q (record_history (date row) (close row) s).

Lemma run_day_phases s s' pm' :
  run_day cfg i row (s, pm) = Some (s', pm') -> P0 s -> Q s'.
Proof.
  unfold run_day. intros H HP.
  apply bind_inv in H. destruct H as (s1 & Hl & H).
  assert (HP1 : P1 s1).
  { apply lumpsum_block_inv in Hl.
    destruct Hl as [[-> Hno]|(Hi & Hlp & _ & Hu & Hbuy)]; [auto|].
    eapply on_lumpsum; eassumption. }
  clear HP Hl.
  fold sip_day in H. destruct sip_day eqn:Hday.
  - apply bind_inv in H. destruct H as (s2 & Hs & H). some_inv.
    apply on_record.
    apply sip_block_inv in Hs. destruct Hs as (sb & Hb & Hs).
    pose proof (on_benchmark _ _ eq_refl Hb HP1) as HPb.
    destruct Hs as [->|[Hu Hbuy]]; [auto|].
    eapply on_sip; eassumption.
  - apply bind_inv in H. destruct H as ([s2 b] & Hb & H).
    apply bid_block_inv in Hb.
    destruct Hb as [[-> ->]|(-> & _ & Hst & dp & u & Hu & Hbuy)].
    + apply bind_inv in H. destruct H as (s3 & Hs & H). some_inv.
      apply on_record.
      apply sell_block_inv in Hs.
      destruct Hs as [->|(_ & pv & u & Hu & _ & _ & Hsell)]; [auto|].
      eapply on_sell; eauto.
    + some_inv. apply on_record. eapply on_bid; eauto.
Qed.

End DayPhases.

(** The common case: one invariant for all phases. *)
Lemma run_day_preserves cfg i row (P : State -> Prop) :
  (forall s s',
     i = 0%nat -> 0 < initial_lumpsum cfg ->
     (0 < Py.int (initial_lumpsum cfg / close row))%Z ->
     lumpsum_buy (date row) (close row)
       (Py.int (initial_lumpsum cfg / close row)) s = Some s' ->
     P s -> P s') ->
  (forall s s',
     benchmark_sip cfg (close row) s = Some s' ->
     P s -> P (set_current_sip_amount (base_sip cfg) s')) ->
  (forall units s s',
     (0 < units)%Z ->
     sip_buy (date row) (close row) units s = Some s' -> P s -> P s') ->
  (forall drop_pct units s s',
     (0 < units)%Z -> (current_bid_stage s < 10)%Z ->
     bid_buy (date row) (close row) drop_pct (current_bid_stage s + 1)
       units s = Some s' ->
     P s -> P s') ->
  (forall profit_val units s s',
     (0 < units <= total_units s)%Z ->
     sell (date row) (close row) profit_val units s = Some s' ->
     P s -> P s') ->
  (forall s, P s -> P (record_history (date row) (close row) s)) ->
  forall s pm s' pm',
    run_day cfg i row (s, pm) = Some (s', pm') -> P s -> P s'.
Proof.
  intros Hl Hb Hs Hbid Hsell Hr s pm s' pm' H HP.
  eapply (run_day_phases cfg i row pm P P P P P); eauto.
Qed.

(** The loop variable [prev_month] after a day is that day's month. *)
Lemma run_day_prev_month cfg i row ls s' pm' :
  run_day cfg i row ls = Some (s', pm') -> pm' = Some (month (date row)).
Proof.
  destruct ls as [s pm]. unfold run_day. intros H.
  apply bind_inv in H. destruct H as (s1 & _ & H).
  destruct (is_sip_day _ _).
  - apply bind_inv in H. destruct H as (s2 & _ & H). some_inv. reflexivity.
  - apply bind_inv in H. destruct H as ([s2 b] & _ & H).
    destruct b.
    + some_inv. reflexivity.
    + apply bind_inv in H. destruct H as (s3 & _ & H). some_inv. reflexivity.
Qed.

(** ** The loop *)

(** Running over [pre ++ post] is running over [pre], then over [post]. *)
Lemma run_loop_app cfg pre : forall i post ls,
  run_loop cfg i (pre ++ post) ls =
  (ls' <- run_loop cfg i pre ls ;; run_loop cfg (i + length pre) post ls').
Proof.
  induction pre as [|row pre IH]; intros i post ls; cbn [app run_loop length].
  - cbn [Py.bind]. rewrite Nat.add_0_r. reflexivity.
  - destruct (run_day cfg i row ls) as [ls1|]; cbn [Py.bind]; [|reflexivity].
    rewrite IH. replace (S i + length pre)%nat with (i + S (length pre))%nat by lia.
    reflexivity.
Qed.

Lemma run_loop_snoc cfg pre row i ls :
  run_loop cfg i (pre ++ [row]) ls =
  (ls' <- run_loop cfg i pre ls ;; run_day cfg (i + length pre) row ls').
Proof.
  rewrite run_loop_app.
  destruct (run_loop cfg i pre ls) as [ls1|]; cbn [Py.bind run_loop];
    [|reflexivity].
  destruct (run_day _ _ _ _); reflexivity.
Qed.

(** A property that every day preserves holds after the loop. *)
Lemma run_loop_preserves cfg (P : State -> Prop) (ok : Row -> Prop) :
  (forall i row s pm s' pm',
     ok row -> run_day cfg i row (s, pm) = Some (s', pm') -> P s -> P s') ->
  forall data i s pm s' pm',
    Forall ok data ->
    run_loop cfg i data (s, pm) = Some (s', pm') -> P s -> P s'.
Proof.
  intros Hday data.
  induction data as [|row rest IH]; intros i s pm s' pm' Hok H HP;
    cbn [run_loop] in H.
  - some_inv. exact HP.
  - apply bind_inv in H. destruct H as ([s1 pm1] & Hd & H).
    inversion Hok; subst.
    eapply IH; [eassumption | exact H |].
    eapply Hday; eassumption.
Qed.

(** ** The history is one snapshot per day *)

(** [h] is the record appended on [row], and [s] the state after that day. *)
Definition recorded (row : Row) (s : State) (h : HistoryRecord) : Prop :=
  h_date h = date row /\ h_price h = close row /\
  h_units h = total_units s /\ h_pap h = pap s /\
  h_profit_reserve h = profit_reserve s /\
  h_actual_invested h = actual_invested s.

Lemma run_day_history cfg i row s pm s' pm' :
  run_day cfg i row (s, pm) = Some (s', pm') ->
  exists h,
    portfolio_history s' = portfolio_history s ++ [h] /\ recorded row s' h.
Proof.
  intros H.
  pose (P := fun x : State => portfolio_history x = portfolio_history s).
  apply (run_day_phases cfg i row pm P P P P
           (fun x => exists h,
              portfolio_history x = portfolio_history s ++ [h]
              /\ recorded row x h)) in H; subst P; cbn beta in *; auto.
  - intros s0 s1 _ _ _ Hb <-. apply lumpsum_buy_effect in Hb. apply Hb.
  - intros s0 s1 _ Hb <-. apply benchmark_sip_inv in Hb.
    destruct Hb as [_ ->].
    destruct (Z_lt_le_dec 0 _); reflexivity.
  - intros s0 s1 _ Hb <-. apply sip_buy_effect in Hb. apply Hb.
  - intros dp u s0 s1 _ _ _ Hb <-. apply bid_buy_effect in Hb. apply Hb.
  - intros pv u s0 s1 _ _ Hb <-. apply sell_spec in Hb. apply Hb.
  - intros s0 <-.
    destruct (record_history_effect (date row) (close row) s0).
    eexists. split; [eassumption|].
    unfold recorded. cbn [snapshot h_date h_price h_units h_pap
                          h_profit_reserve h_actual_invested].
    repeat split; congruence.
Qed.

Lemma run_loop_history cfg data : forall i s pm s' pm',
  run_loop cfg i data (s, pm) = Some (s', pm') ->
  exists hs,
    portfolio_history s' = portfolio_history s ++ hs /\
    length hs = length data /\
    forall k h, nth_error hs k = Some h ->
      exists row sk pmk,
        nth_error data k = Some row /\
        run_loop cfg i (firstn (S k) data) (s, pm) = Some (sk, pmk) /\
        recorded row sk h.
Proof.
  induction data as [|row pre IH] using rev_ind; intros i s pm s' pm' H.
  - cbn in H. some_inv. exists []. rewrite app_nil_r.
    repeat split. intros k h Hk. destruct k; discriminate.
  - rewrite run_loop_snoc in H.
    apply bind_inv in H. destruct H as ([s1 pm1] & Hpre & Hday).
    destruct (IH _ _ _ _ _ Hpre) as (hs & Hh & Hlen & Hnth).
    destruct (run_day_history _ _ _ _ _ _ _ Hday) as (h & Hh' & Hrec).
    exists (hs ++ [h]). split; [|split].
    + rewrite Hh', Hh, app_assoc. reflexivity.
    + rewrite !length_app. cbn. lia.
    + intros k h0 Hk.
      destruct (Nat.lt_ge_cases k (length hs)) as [Hlt|Hge].
      * rewrite nth_error_app1 in Hk by exact Hlt.
        destruct (Hnth _ _ Hk) as (row0 & sk & pmk & Hrow & Hrun & Hr).
        exists row0, sk, pmk. split; [|split]; [| |exact Hr].
        -- rewrite nth_error_app1 by lia. exact Hrow.
        -- rewrite firstn_app.
           replace (S k - length pre)%nat with 0%nat by lia.
           cbn [firstn]. rewrite app_nil_r. exact Hrun.
      * rewrite nth_error_app2 in Hk by exact Hge.
        destruct (k - length hs)%nat as [|n] eqn:Hd; cbn in Hk;
          [|destruct n; discriminate].
        some_inv. assert (k = length pre) by lia. subst k.
        exists row, s', pm'. split; [|split]; [| |exact Hrec].
        -- rewrite nth_error_app2 by lia. rewrite Nat.sub_diag. reflexivity.
        -- rewrite firstn_all2 by (rewrite length_app; cbn; lia).
           rewrite run_loop_snoc, Hpre. exact Hday.
Qed.

(** ** The average-price invariant *)

Definition pap_ok (s : State) : Prop :=
  (0 <= total_units s)%Z /\
  ((0 < total_units s)%Z -> pap s == bia s / inject_Z (total_units s)) /\
  (total_units s = 0%Z -> pap s == 0).

Lemma buy_pap_ok type date units price s s' :
  (0 < units)%Z -> buy_effect type date units price s s' ->
  pap_ok s -> pap_ok s'.
Proof.
  intros Hu [] (H0 & _ & _). unfold pap_ok.
  rewrite be_pap0, be_units0. split; [lia|]. split.
  - intros _. reflexivity.
  - intros E. exfalso. lia.
Qed.

Lemma sell_pap_ok date units price s s' :
  (0 < units <= total_units s)%Z -> sell_effect date units price s s' ->
  pap_ok s -> pap_ok s'.
Proof.
  intros Hu [] _. unfold pap_ok. rewrite se_pap0, se_units0.
  split; [lia|].
  destruct (Z_lt_le_dec 0 (total_units s - units)) as [Hr|Hr]; split.
  - intros _. reflexivity.
  - intros E. exfalso. lia.
  - intros Hp. exfalso. lia.
  - intros _. reflexivity.
Qed.

Lemma benchmark_sip_core cfg price s s' :
  benchmark_sip cfg price s = Some s' ->
  let s1 := set_current_sip_amount (base_sip cfg) s' in
  total_units s1 = total_units s /\ bia s1 = bia s /\ pap s1 = pap s /\
  profit_reserve s1 = profit_reserve s /\
  actual_invested s1 = actual_invested s /\
  current_bid_stage s1 = current_bid_stage s /\
  transactions s1 = transactions s /\
  portfolio_history s1 = portfolio_history s.
Proof.
  intros H. apply benchmark_sip_inv in H. destruct H as [_ ->].
  destruct (Z_lt_le_dec 0 _); cbn; repeat split.
Qed.

Lemma run_day_pap_ok cfg i row s pm s' pm' :
  run_day cfg i row (s, pm) = Some (s', pm') -> pap_ok s -> pap_ok s'.
Proof.
  apply run_day_preserves.
  - intros s0 s1 _ _ Hu Hb. apply lumpsum_buy_effect in Hb.
    eapply buy_pap_ok; eassumption.
  - intros s0 s1 Hb. apply benchmark_sip_core in Hb.
    destruct Hb as (Hu & Hbia & Hp & _). unfold pap_ok.
    rewrite Hu, Hbia, Hp. auto.
  - intros u s0 s1 Hu Hb. apply sip_buy_effect in Hb.
    eapply buy_pap_ok; eassumption.
  - intros dp u s0 s1 Hu _ Hb. apply bid_buy_effect in Hb.
    eapply buy_pap_ok; eassumption.
  - intros pv u s0 s1 Hu Hb. apply sell_spec in Hb.
    eapply sell_pap_ok; eassumption.
  - intros s0. destruct (record_history_effect (date row) (close row) s0).
    unfold pap_ok. rewrite re_units0, re_pap0, re_bia0. auto.
Qed.

Lemma run_loop_pap_ok cfg data i s pm s' pm' :
  run_loop cfg i data (s, pm) = Some (s', pm') -> pap_ok s -> pap_ok s'.
Proof.
  apply (run_loop_preserves cfg pap_ok (fun _ => True)).
  - intros i0 row s0 pm0 s1 pm1 _. apply run_day_pap_ok.
  - apply Forall_forall. auto.
Qed.

Lemma init_pap_ok cfg : pap_ok (init cfg).
Proof. unfold pap_ok. cbn. repeat split; try lia; reflexivity. Qed.

Lemma run_fresh_inv cfg data s :
  run_fresh cfg data = Some s ->
  exists pm, run_loop cfg 0 data (init cfg, None) = Some (s, pm).
Proof.
  unfold run_fresh, run. intros H.
  apply bind_inv in H. destruct H as ([s1 pm] & Hr & H). some_inv.
  cbn [fst]. eauto.
Qed.

Lemma run_fresh_of_loop cfg data s pm :
  run_loop cfg 0 data (init cfg, None) = Some (s, pm) ->
  run_fresh cfg data = Some s.
Proof. unfold run_fresh, run. intros ->. reflexivity. Qed.

(** ** Soundness of the books under positive prices *)

Definition tx_nonneg (t : Transaction) : Prop :=
  0 <= t_actual_invested t /\ 0 <= t_profit_reserve t.

Definition h_nonneg (h : HistoryRecord) : Prop :=
  0 <= h_actual_invested h /\ 0 <= h_profit_reserve h.

Record sound (s : State) : Prop := {
  sd_pap : pap_ok s;
  sd_bia : 0 <= bia s;
  sd_bia_pos : (0 < total_units s)%Z -> 0 < bia s;
  sd_invested : 0 <= actual_invested s;
  sd_reserve : 0 <= profit_reserve s;
  sd_history : Forall h_nonneg (portfolio_history s);
  sd_log : Forall tx_nonneg (transactions s)
}.

Lemma cost_pos units price :
  (0 < units)%Z -> 0 < price -> 0 < inject_Z units * price.
Proof.
  intros Hu Hp. apply Qmult_lt_0_compat; [apply inject_Z_pos|]; assumption.
Qed.

Lemma buy_sound type date units price s s' :
  (0 < units)%Z -> 0 < price ->
  buy_effect type date units price s s' -> sound s -> sound s'.
Proof.
  intros Hu Hp Hb [].
  pose proof (cost_pos _ _ Hu Hp) as Hc.
  pose proof (buy_pap_ok _ _ _ _ _ _ Hu Hb sd_pap0) as Hpap.
  destruct Hb.
  pose proof (Q.le_min_r (inject_Z units * price) (profit_reserve s)) as Hmin.
  assert (Hinv : 0 <= actual_invested s').
  { rewrite be_invested0. destruct type; cbv zeta; try break_if; lra. }
  assert (Hres : 0 <= profit_reserve s').
  { rewrite be_reserve0. destruct type; lra. }
  constructor; try assumption.
  - rewrite be_bia0. lra.
  - intros _. rewrite be_bia0. lra.
  - rewrite be_history0. assumption.
  - destruct be_log0 as (t & -> & Hl).
    apply Forall_app. split; [assumption|].
    constructor; [|constructor].
    destruct Hl as (_ & _ & _ & _ & _ & _ & _ & _ & Ha & Hr).
    unfold tx_nonneg. rewrite Ha, Hr. auto.
Qed.

Lemma sell_sound date units price s s' :
  (0 < units <= total_units s)%Z -> 0 < price ->
  sell_effect date units price s s' -> sound s -> sound s'.
Proof.
  intros Hu Hp Hs [].
  pose proof (sell_pap_ok _ _ _ _ _ Hu Hs sd_pap0) as Hpap.
  destruct Hs.
  pose proof (Q.le_min_r (inject_Z units * price) (actual_invested s)) as Hr.
  pose proof (Q.le_min_l (inject_Z units * price) (actual_invested s)) as Hl.
  assert (Hinv : 0 <= actual_invested s') by (rewrite se_invested0; lra).
  assert (Hres : 0 <= profit_reserve s') by (rewrite se_reserve0; lra).
  constructor; try assumption.
  - rewrite se_bia0. assumption.
  - rewrite se_bia0, se_units0. intros H. apply sd_bia_pos0. lia.
  - rewrite se_history0. assumption.
  - destruct se_log0 as (t & -> & Hlog & _).
    apply Forall_app. split; [assumption|].
    constructor; [|constructor].
    destruct Hlog as (_ & _ & _ & _ & _ & _ & _ & _ & Ha & Hb).
    unfold tx_nonneg. rewrite Ha, Hb. auto.
Qed.

Lemma record_sound date price s :
  sound s -> sound (record_history date price s).
Proof.
  intros [].
  destruct (record_history_effect date price s).
  destruct sd_pap0 as (Hp0 & Hp1 & Hp2).
  constructor.
  - unfold pap_ok. rewrite re_units0, re_pap0, re_bia0. auto.
  - rewrite re_bia0. assumption.
  - rewrite re_bia0, re_units0. assumption.
  - rewrite re_invested0. assumption.
  - rewrite re_reserve0. assumption.
  - rewrite re_history0. apply Forall_app. split; [assumption|].
    constructor; [|constructor]. split; assumption.
  - rewrite re_log0. assumption.
Qed.

Lemma benchmark_sound cfg price s s' :
  benchmark_sip cfg price s = Some s' ->
  sound s -> sound (set_current_sip_amount (base_sip cfg) s').
Proof.
  intros Hb []. apply benchmark_sip_core in Hb. cbv zeta in Hb.
  destruct Hb as (Hu & Hbia & Hp & Hr & Ha & _ & Ht & Hh).
  destruct sd_pap0 as (Hp0 & Hp1 & Hp2).
  constructor.
  - unfold pap_ok. rewrite Hu, Hp, Hbia. auto.
  - rewrite Hbia. assumption.
  - rewrite Hbia, Hu. assumption.
  - rewrite Ha. assumption.
  - rewrite Hr. assumption.
  - rewrite Hh. assumption.
  - rewrite Ht. assumption.
Qed.

Lemma init_sound cfg : sound (init cfg).
Proof.
  constructor; cbn; try apply init_pap_ok; try constructor; try lra; try lia.
Qed.

Lemma run_day_sound cfg i row s pm s' pm' :
  0 < close row ->
  run_day cfg i row (s, pm) = Some (s', pm') -> sound s -> sound s'.
Proof.
  intros Hp. apply run_day_preserves.
  - intros s0 s1 _ _ Hu Hb. apply lumpsum_buy_effect in Hb.
    eapply buy_sound; eassumption.
  - intros s0 s1. apply benchmark_sound.
  - intros u s0 s1 Hu Hb. apply sip_buy_effect in Hb.
    eapply buy_sound; eassumption.
  - intros dp u s0 s1 Hu _ Hb. apply bid_buy_effect in Hb.
    eapply buy_sound; eassumption.
  - intros pv u s0 s1 Hu Hb. apply sell_spec in Hb.
    eapply sell_sound; eassumption.
  - intros s0. apply record_sound.
Qed.

Lemma sell_block_total cfg date price s :
  ~ price == 0 -> exists s', sell_block cfg date price s = Some s'.
Proof.
  intros Hnz. unfold sell_block, units_calc.
  destruct (Z_lt_le_dec 0 (total_units s)); [|eauto].
  destruct (Qlt_le_dec _ _); [eauto|].
  unfold Py.floordiv. destruct (Qeq_dec price 0); [contradiction|].
  cbn [Py.bind].
  destruct (Z_lt_le_dec 0 _); [|eauto].
  apply sell_total.
Qed.

Lemma lumpsum_block_total cfg i date price s :
  ~ price == 0 -> (0 <= total_units s)%Z ->
  exists s', lumpsum_block cfg i date price s = Some s'.
Proof.
  intros Hnz Hu. unfold lumpsum_block.
  destruct ((i =? 0)%nat && _); [|eauto].
  rewrite div_some by exact Hnz. cbn [Py.bind].
  destruct (Z_lt_le_dec 0 _) as [Hq|Hq]; [|eauto].
  apply lumpsum_buy_total. apply inject_Z_nonzero. lia.
Qed.

Lemma sip_block_total cfg date price s :
  ~ price == 0 -> (0 <= total_units s)%Z ->
  exists s', sip_block cfg date price s = Some s'.
Proof.
  intros Hnz Hu. unfold sip_block, benchmark_sip.
  rewrite div_some by exact Hnz. cbn [Py.bind].
  match goal with
  | |- context [Py.bind (if ?c then Some ?a else Some ?b) _] =>
      replace (if c then Some a else Some b)
        with (Some (if c then a else b)) by (destruct c; reflexivity)
  end.
  cbn [Py.bind]. fields.
  rewrite div_some by exact Hnz. cbn [Py.bind].
  destruct (Z_lt_le_dec 0 (Py.int (base_sip cfg / price))) as [Hq|Hq];
    [|eauto].
  apply sip_buy_total. fields. apply inject_Z_nonzero. lia.
Qed.

(** The division by [pap] in the dip-buy block is safe once units held
    have a positive average price. *)
Lemma bid_block_total cfg date price s :
  ~ price == 0 -> ((0 < total_units s)%Z -> 0 < pap s) ->
  exists r, bid_block cfg date price s = Some r.
Proof.
  intros Hnz Hpap. unfold bid_block.
  destruct (Z_lt_le_dec 0 (total_units s)) as [Hu|Hu]; [|eauto].
  specialize (Hpap Hu).
  rewrite (div_some (pap s - price) (pap s)) by lra. cbn [Py.bind].
  destruct (Z_lt_le_dec 0 (bid_factor cfg _ s)) as [Hk|Hk]; [|eauto].
  rewrite div_some by exact Hnz. cbn [Py.bind].
  destruct (Z_lt_le_dec 0 _) as [Hq|Hq]; [|eauto].
  match goal with
  | |- context [bid_buy ?d ?p ?dp ?k ?u ?x] =>
      destruct (bid_buy_total d p dp k u x) as (s2 & ->)
  end.
  - apply inject_Z_nonzero. lia.
  - cbn [Py.bind]. eauto.
Qed.

Lemma sound_pap_pos s : sound s -> (0 < total_units s)%Z -> 0 < pap s.
Proof.
  intros [(_ & Hpap & _) _ Hb _ _ _ _] Hu.
  rewrite (Hpap Hu). apply Qdiv_pos; [auto | apply inject_Z_pos; exact Hu].
Qed.

Lemma lumpsum_block_sound cfg i date price s s' :
  0 < price -> lumpsum_block cfg i date price s = Some s' ->
  sound s -> sound s'.
Proof.
  intros Hp H Hs. apply lumpsum_block_inv in H.
  destruct H as [[-> _]|(_ & _ & _ & Hu & Hb)]; [exact Hs|].
  apply lumpsum_buy_effect in Hb. eapply buy_sound; eassumption.
Qed.

(** Under a positive price and sound books, no division of the day has a
    zero denominator. *)
Lemma run_day_total cfg i row s pm :
  0 < close row -> sound s ->
  exists s', run_day cfg i row (s, pm) = Some (s', Some (month (date row))).
Proof.
  intros Hp Hs.
  assert (Hnz : ~ close row == 0) by lra.
  assert (Hu : (0 <= total_units s)%Z) by (destruct Hs as [(H0 & _)]; exact H0).
  unfold run_day.
  destruct (lumpsum_block_total cfg i (date row) (close row) s Hnz Hu)
    as (s1 & H1).
  rewrite H1. cbn [Py.bind].
  pose proof (lumpsum_block_sound _ _ _ _ _ _ Hp H1 Hs) as Hs1.
  assert (Hu1 : (0 <= total_units s1)%Z)
    by (destruct Hs1 as [(H0 & _)]; exact H0).
  destruct (is_sip_day pm (month (date row))).
  - destruct (sip_block_total cfg (date row) (close row) s1 Hnz Hu1)
      as (s2 & ->).
    cbn [Py.bind]. eauto.
  - destruct (bid_block_total cfg (date row) (close row) s1 Hnz
                (sound_pap_pos s1 Hs1)) as ([s2 b] & ->).
    cbn [Py.bind]. destruct b; [eauto|].
    destruct (sell_block_total cfg (date row) (close row) s2 Hnz)
      as (s3 & ->).
    cbn [Py.bind]. eauto.
Qed.

Definition positive_prices (data : list Row) : Prop :=
  Forall (fun row => 0 < close row) data.

Lemma run_loop_total cfg data : forall i s pm,
  positive_prices data -> sound s ->
  exists s' pm', run_loop cfg i data (s, pm) = Some (s', pm') /\ sound s'.
Proof.
  induction data as [|row rest IH]; intros i s pm Hpos Hs; cbn [run_loop].
  - eauto.
  - inversion Hpos as [|? ? Hp Hrest]; subst.
    destruct (run_day_total cfg i row s pm Hp Hs) as (s1 & H1).
    rewrite H1. cbn [Py.bind].
    apply IH; [exact Hrest|].
    eapply run_day_sound; eassumption.
Qed.

Lemma positive_prices_app pre post :
  positive_prices (pre ++ post) -> positive_prices pre /\ positive_prices post.
Proof. unfold positive_prices. apply Forall_app. Qed.

Lemma run_fresh_sound cfg data :
  positive_prices data ->
  exists s, run_fresh cfg data = Some s /\ sound s.
Proof.
  intros Hpos.
  destruct (run_loop_total cfg data 0 (init cfg) None Hpos (init_sound cfg))
    as (s & pm & Hr & Hs).
  exists s. split; [|exact Hs]. eapply run_fresh_of_loop. exact Hr.
Qed.

(** ** Sample inputs *)

(** A first record, a contribution at 2.5 on the first trading day of
    February, and a rise to 3.5 the day after. *)
Definition rising_rows : list Row :=
  [ mkRow (mkDate 2020 1 1) 2.5;
    mkRow (mkDate 2020 2 3) 2.5;
    mkRow (mkDate 2020 2 4) 3.5 ].

Lemma rising_rows_positive : positive_prices rising_rows.
Proof. repeat constructor. Qed.

(** A small contribution whose single unit is later sold in full. *)
Definition small_config : Config := {|
  base_sip := 100;
  min_profit_booking_amount := 10000;
  bid_multiplier := 0.5;
  bid_trigger_drop := 0.02;
  initial_lumpsum := 0
|}.

Definition sell_out_rows : list Row :=
  [ mkRow (mkDate 2020 1 1) 100;
    mkRow (mkDate 2020 2 3) 100;
    mkRow (mkDate 2020 2 4) 20000 ].

(** ** C9: no division raises *)

(** C9.  On input with strictly positive prices no division of the engine
    has a zero denominator: a fresh run completes; the two guarded
    percentage computations return 0 when [bia], respectively [pap], is not
    positive; and the state in which the dip-buy block divides by [pap]
    (the state after the lumpsum block of that day) has [pap > 0] whenever
    it holds units. *)
Theorem no_division_raises cfg data :
  positive_prices data ->
  (exists s, run_fresh cfg data = Some s) /\
  (forall bia_now value, ~ 0 < bia_now -> pnl_pct bia_now value = Some 0) /\
  (forall price pap_now, ~ 0 < pap_now -> gain_pct price pap_now = Some 0) /\
  (forall pre row post, data = pre ++ row :: post ->
     exists s s1,
       run_fresh cfg pre = Some s /\
       lumpsum_block cfg (length pre) (date row) (close row) s = Some s1 /\
       ((0 < total_units s1)%Z -> 0 < pap s1) /\
       exists r, bid_block cfg (date row) (close row) s1 = Some r).
Proof.
  intros Hpos. split; [|split; [|split]].
  - destruct (run_fresh_sound cfg data Hpos) as (s & Hs & _). eauto.
  - intros b v Hb. unfold pnl_pct.
    destruct (Qlt_le_dec 0 b); [contradiction | reflexivity].
  - intros p a Ha. unfold gain_pct.
    destruct (Qlt_le_dec 0 a); [contradiction | reflexivity].
  - intros pre row post ->.
    apply positive_prices_app in Hpos. destruct Hpos as [Hpre Hpost].
    inversion Hpost as [|? ? Hp _]; subst.
    destruct (run_fresh_sound cfg pre Hpre) as (s & Hs & Hsound).
    assert (Hnz : ~ close row == 0) by lra.
    assert (Hu : (0 <= total_units s)%Z)
      by (destruct Hsound as [(H0 & _)]; exact H0).
    destruct (lumpsum_block_total cfg (length pre) (date row) (close row) s
                Hnz Hu) as (s1 & H1).
    pose proof (lumpsum_block_sound _ _ _ _ _ _ Hp H1 Hsound) as Hs1.
    exists s, s1. repeat split; try assumption.
    + apply sound_pap_pos. exact Hs1.
    + apply bid_block_total; [exact Hnz | apply sound_pap_pos; exact Hs1].
Qed.

Lemma no_division_raises_witness :
  positive_prices rising_rows /\
  exists s, run_fresh default_config rising_rows = Some s.
Proof.
  split; [exact rising_rows_positive|].
  exact (proj1 (no_division_raises default_config rising_rows
                  rising_rows_positive)).
Defined.

(** ** C7: the two cash figures are never negative *)

(** C7.  On input with strictly positive prices, after any prefix of the
    input the run has completed, [actual_invested] and [profit_reserve] are
    non-negative, and so are the snapshots of both in every history record
    and every transaction written so far. *)
Theorem never_negative cfg data :
  positive_prices data ->
  forall pre post, data = pre ++ post ->
    exists s,
      run_fresh cfg pre = Some s /\
      0 <= actual_invested s /\ 0 <= profit_reserve s /\
      Forall h_nonneg (portfolio_history s) /\
      Forall tx_nonneg (transactions s).
Proof.
  intros Hpos pre post ->.
  apply positive_prices_app in Hpos. destruct Hpos as [Hpre _].
  destruct (run_fresh_sound cfg pre Hpre) as (s & Hs & []).
  exists s. auto.
Qed.

Lemma never_negative_witness :
  exists s,
    run_fresh default_config rising_rows = Some s /\
    0 <= actual_invested s /\ 0 <= profit_reserve s /\
    Forall h_nonneg (portfolio_history s) /\
    Forall tx_nonneg (transactions s).
Proof.
  exact (never_negative default_config rising_rows rising_rows_positive
           rising_rows [] eq_refl).
Defined.

(** ** C6: the average price at every history record *)

(** C6.  In a completed fresh run there is one history record per input
    row, and the [k]-th record is the snapshot of the state [sk] reached
    after the first [k+1] rows: its [pap] is [bia / total_units] of that
    state when units are held and 0 when none are. *)
Theorem pap_at_every_record cfg data s :
  run_fresh cfg data = Some s ->
  length (portfolio_history s) = length data /\
  forall k h, nth_error (portfolio_history s) k = Some h ->
    exists sk,
      run_fresh cfg (firstn (S k) data) = Some sk /\
      h_units h = total_units sk /\ h_pap h = pap sk /\
      ((0 < h_units h)%Z -> h_pap h == bia sk / inject_Z (h_units h)) /\
      (h_units h = 0%Z -> h_pap h == 0).
Proof.
  intros H. apply run_fresh_inv in H. destruct H as (pm & H).
  destruct (run_loop_history _ _ _ _ _ _ _ H) as (hs & Hh & Hlen & Hnth).
  cbn [init portfolio_history app] in Hh. rewrite Hh.
  split; [exact Hlen|].
  intros k h Hk.
  destruct (Hnth _ _ Hk) as (row & sk & pmk & _ & Hrun & Hrec).
  pose proof (run_loop_pap_ok _ _ _ _ _ _ _ Hrun (init_pap_ok cfg))
    as (_ & Hpos & Hzero).
  destruct Hrec as (_ & _ & Hu & Hp & _).
  exists sk. rewrite Hu, Hp.
  repeat split; try assumption.
  eapply run_fresh_of_loop. exact Hrun.
Qed.

Lemma pap_at_every_record_witness :
  exists s,
    run_fresh small_config sell_out_rows = Some s /\
    length (portfolio_history s) = length sell_out_rows /\
    forall k h, nth_error (portfolio_history s) k = Some h ->
      exists sk,
        run_fresh small_config (firstn (S k) sell_out_rows) = Some sk /\
        h_units h = total_units sk /\ h_pap h = pap sk /\
        ((0 < h_units h)%Z -> h_pap h == bia sk / inject_Z (h_units h)) /\
        (h_units h = 0%Z -> h_pap h == 0).
Proof.
  assert (H : exists s, run_fresh small_config sell_out_rows = Some s)
    by (vm_compute; eauto).
  destruct H as (s & H). exists s. split; [exact H|].
  exact (pap_at_every_record small_config sell_out_rows s H).
Defined.

(** The sample run does sell its only unit: the last record holds nothing
    and its average price is 0. *)
Example sell_out_last_record :
  exists s h,
    run_fresh small_config sell_out_rows = Some s /\
    nth_error (portfolio_history s) 2 = Some h /\
    h_units h = 0%Z /\ h_pap h = 0.
Proof. vm_compute. eexists. eexists. repeat split. Qed.

(** ** C3: the day classifier *)

(** After a non-empty prefix the loop variable [prev_month] is the month of
    the last row processed. *)
Lemma run_loop_prev_month cfg i pre prev ls s pm :
  run_loop cfg i (pre ++ [prev]) ls = Some (s, pm) ->
  pm = Some (month (date prev)).
Proof.
  rewrite run_loop_snoc. intros H.
  apply bind_inv in H. destruct H as (ls1 & _ & H).
  eapply run_day_prev_month. exact H.
Qed.

(** C3.  When the loop reaches [row] after having processed the rows
    [pre], with [pm] the value of [prev_month] at that point, [row] is
    classified as a contribution day exactly when [pre] has a last row
    whose month differs from that of [row]; the first row of a run is
    never one. *)
Theorem contribution_day_iff cfg s0 pre row s pm :
  run_loop cfg 0 pre (s0, None) = Some (s, pm) ->
  (is_sip_day pm (month (date row)) = true <->
   exists pre' prev,
     pre = pre' ++ [prev] /\ month (date prev) <> month (date row)) /\
  (pre = [] -> is_sip_day pm (month (date row)) = false).
Proof.
  intros H.
  destruct (rev_ind (fun l => l = [] \/ exists l' x, l = l' ++ [x])
              (or_introl eq_refl)
              (fun x l _ => or_intror (ex_intro _ l (ex_intro _ x eq_refl)))
              pre) as [->|(pre' & prev & ->)].
  - cbn in H. some_inv. cbn. split; [|reflexivity].
    split; [discriminate|].
    intros (l & x & E & _). destruct l; discriminate.
  - apply run_loop_prev_month in H. subst pm. cbn [is_sip_day].
    split.
    + split.
      * intros Hneq. exists pre', prev. split; [reflexivity|].
        intros E. rewrite E, Z.eqb_refl in Hneq. discriminate.
      * intros (l & x & E & Hne).
        apply app_inj_tail in E. destruct E as [_ <-].
        destruct (Z.eqb_spec (month (date row)) (month (date prev)));
          [congruence | reflexivity].
    + intros E. destruct pre'; discriminate.
Qed.

Lemma contribution_day_iff_witness :
  exists s pm,
    run_loop default_config 0 (firstn 1 rising_rows)
      (init default_config, None) = Some (s, pm) /\
    is_sip_day pm (month (mkDate 2020 2 3)) = true.
Proof.
  assert (H : exists s pm,
             run_loop default_config 0 (firstn 1 rising_rows)
               (init default_config, None) = Some (s, pm))
    by (vm_compute; eauto).
  destruct H as (s & pm & H). exists s, pm. split; [exact H|].
  apply (proj1 (contribution_day_iff default_config (init default_config)
                  (firstn 1 rising_rows)
                  (mkRow (mkDate 2020 2 3) 2.5) s pm H)).
  exists [], (mkRow (mkDate 2020 1 1) 2.5). split; [reflexivity|].
  cbn. discriminate.
Defined.

(** ** C8: the dip-buy stage *)

Definition is_bid (t : Transaction) : bool :=
  match t_type t with BID _ => true | _ => false end.

Definition is_sell (t : Transaction) : bool :=
  match t_type t with SELL => true | _ => false end.

Definition stage_in_range (s : State) : Prop :=
  (0 <= current_bid_stage s <= 10)%Z.

Lemma run_day_stage_in_range cfg i row s pm s' pm' :
  run_day cfg i row (s, pm) = Some (s', pm') ->
  stage_in_range s -> stage_in_range s'.
Proof.
  apply (run_day_preserves cfg i row stage_in_range); unfold stage_in_range.
  - intros s0 s1 _ _ _ Hb. apply lumpsum_buy_effect in Hb.
    destruct Hb. rewrite be_stage0. auto.
  - intros s0 s1 Hb. apply benchmark_sip_core in Hb.
    destruct Hb as (_ & _ & _ & _ & _ & -> & _). auto.
  - intros u s0 s1 _ Hb. apply sip_buy_effect in Hb.
    destruct Hb. rewrite be_stage0. auto.
  - intros dp u s0 s1 _ Hlt Hb. apply bid_buy_effect in Hb.
    destruct Hb. rewrite be_stage0. lia.
  - intros pv u s0 s1 _ Hb. apply sell_spec in Hb.
    destruct Hb. rewrite se_stage0. lia.
  - intros s0. destruct (record_history_effect (date row) (close row) s0).
    rewrite re_stage0. auto.
Qed.

Lemma run_loop_stage_in_range cfg data i s pm s' pm' :
  run_loop cfg i data (s, pm) = Some (s', pm') ->
  stage_in_range s -> stage_in_range s'.
Proof.
  apply (run_loop_preserves cfg stage_in_range (fun _ => True)).
  - intros i0 row s0 pm0 s1 pm1 _. apply run_day_stage_in_range.
  - apply Forall_forall. auto.
Qed.

(** What one day does to the log and to the stage, relative to the state
    [s] at the start of the day. *)
Definition stage_step (s x : State) : Prop :=
  exists new,
    transactions x = transactions s ++ new /\
    current_bid_stage x =
      (if existsb is_bid new then current_bid_stage s + 1
       else if existsb is_sell new then 0
       else current_bid_stage s)%Z /\
    (existsb is_bid new = true ->
     (current_bid_stage s < 10)%Z /\ existsb is_sell new = false).

(** Before the day's action: only a lumpsum may have been logged. *)
Definition stage_idle (s x : State) : Prop :=
  exists new,
    transactions x = transactions s ++ new /\
    existsb is_bid new = false /\ existsb is_sell new = false /\
    current_bid_stage x = current_bid_stage s.

Lemma stage_idle_step s x : stage_idle s x -> stage_step s x.
Proof.
  intros (new & Ht & Hb & Hs & Hst). exists new.
  rewrite Hb, Hs. repeat split; try assumption; discriminate.
Qed.

Lemma stage_idle_log s x x' t :
  transactions x' = transactions x ++ [t] ->
  is_bid t = false -> is_sell t = false ->
  current_bid_stage x' = current_bid_stage x ->
  stage_idle s x -> stage_idle s x'.
Proof.
  intros Hx Hb Hs Hst (new & Ht & Hnb & Hns & Hst0).
  exists (new ++ [t]). rewrite Hx, Ht, app_assoc, !existsb_app.
  cbn [existsb]. rewrite Hnb, Hns, Hb, Hs, Hst, Hst0. auto.
Qed.

Lemma run_day_stage_step cfg i row s pm s' pm' :
  run_day cfg i row (s, pm) = Some (s', pm') -> stage_step s s'.
Proof.
  intros H.
  apply (run_day_phases cfg i row pm (stage_idle s) (stage_idle s)
           (stage_idle s) (stage_step s) (stage_step s)) in H.
  - exact H.
  - intros s0 _ Hi. exact Hi.
  - intros s0 s1 _ _ _ Hb. apply lumpsum_buy_effect in Hb. destruct Hb.
    destruct be_log0 as (t & Ht & (_ & Hty & _)).
    apply (stage_idle_log s s0 s1 t); auto;
      unfold is_bid, is_sell; rewrite Hty; reflexivity.
  - intros s0 s1 _ Hb (new & Ht & Hnb & Hns & Hst).
    apply benchmark_sip_core in Hb.
    destruct Hb as (_ & _ & _ & _ & _ & Hst' & Ht' & _).
    exists new. rewrite Ht', Hst'. auto.
  - intros s0 s1 _ Hb Hi. apply stage_idle_step.
    apply sip_buy_effect in Hb. destruct Hb.
    destruct be_log0 as (t & Ht & (_ & Hty & _)).
    apply (stage_idle_log s s0 s1 t); auto;
      unfold is_bid, is_sell; rewrite Hty; reflexivity.
  - intros s0. apply stage_idle_step.
  - intros dp u s0 s1 _ _ Hlt Hb (new & Ht & Hnb & Hns & Hst).
    apply bid_buy_effect in Hb. destruct Hb.
    destruct be_log0 as (t & Ht' & (_ & Hty & _)).
    assert (Hbt : is_bid t = true) by (unfold is_bid; rewrite Hty; reflexivity).
    assert (Hst' : is_sell t = false)
      by (unfold is_sell; rewrite Hty; reflexivity).
    exists (new ++ [t]). rewrite Ht', Ht, app_assoc, !existsb_app.
    cbn [existsb]. rewrite Hbt, Hst', Hnb, Hns. cbn [orb].
    rewrite be_stage0, Hst.
    split; [reflexivity|]. split; [reflexivity|].
    intros _. split; [lia | reflexivity].
  - intros pv u s0 s1 _ _ Hb (new & Ht & Hnb & Hns & Hst).
    apply sell_spec in Hb. destruct Hb.
    destruct se_log0 as (t & Ht' & (_ & Hty & _) & _).
    assert (Hbt : is_bid t = false)
      by (unfold is_bid; rewrite Hty; reflexivity).
    assert (Hst' : is_sell t = true)
      by (unfold is_sell; rewrite Hty; reflexivity).
    exists (new ++ [t]). rewrite Ht', Ht, app_assoc, !existsb_app.
    cbn [existsb]. rewrite Hbt, Hst', Hnb, Hns. cbn [orb].
    rewrite se_stage0.
    split; [reflexivity|]. split; [reflexivity|].
    intros E. discriminate E.
  - intros s0 _. apply stage_idle_step.
  - intros s0 (new & Ht & Hst & Himp).
    destruct (record_history_effect (date row) (close row) s0).
    exists new. rewrite re_log0, re_stage0. auto.
  - exists []. rewrite app_nil_r. auto.
Qed.

(** C8.  In a fresh run the stage lies in [0, 10] before and after every
    day.  Over one day, with [new] the transactions that day logs: if a
    dip-buy is among them the stage was below 10 and rises by exactly 1 (and
    no sale is logged that day); otherwise, if a sale is among them the
    stage becomes 0; otherwise it does not change. *)
Theorem bid_stage_transitions cfg pre row s pm s' pm' :
  run_loop cfg 0 pre (init cfg, None) = Some (s, pm) ->
  run_day cfg (length pre) row (s, pm) = Some (s', pm') ->
  (0 <= current_bid_stage s <= 10)%Z /\
  (0 <= current_bid_stage s' <= 10)%Z /\
  exists new,
    transactions s' = transactions s ++ new /\
    current_bid_stage s' =
      (if existsb is_bid new then current_bid_stage s + 1
       else if existsb is_sell new then 0
       else current_bid_stage s)%Z /\
    (existsb is_bid new = true ->
     (current_bid_stage s < 10)%Z /\ existsb is_sell new = false).
Proof.
  intros Hpre Hday.
  assert (Hs : stage_in_range s).
  { eapply run_loop_stage_in_range; [exact Hpre|].
    unfold stage_in_range. cbn. lia. }
  split; [exact Hs|]. split.
  - eapply run_day_stage_in_range; eassumption.
  - eapply run_day_stage_step. exact Hday.
Qed.

(** A contribution at 100, then a 3% dip (scenario C of the
    specification). *)
Definition dip_rows : list Row :=
  [ mkRow (mkDate 2020 1 1) 100; mkRow (mkDate 2020 2 3) 100 ].

Definition dip_day : Row := mkRow (mkDate 2020 2 4) 97.

Definition before_dip : State * option Z :=
  Eval vm_compute in
    match run_loop default_config 0 dip_rows (init default_config, None) with
    | Some ls => ls
    | None => (init default_config, None)
    end.

Definition after_dip : State * option Z :=
  Eval vm_compute in
    match run_day default_config 2 dip_day before_dip with
    | Some ls => ls
    | None => before_dip
    end.

Lemma bid_stage_transitions_witness :
  current_bid_stage (fst before_dip) = 0%Z /\
  current_bid_stage (fst after_dip) = 1%Z /\
  exists new,
    transactions (fst after_dip) = transactions (fst before_dip) ++ new /\
    current_bid_stage (fst after_dip) =
      (if existsb is_bid new then current_bid_stage (fst before_dip) + 1
       else if existsb is_sell new then 0
       else current_bid_stage (fst before_dip))%Z /\
    (existsb is_bid new = true ->
     (current_bid_stage (fst before_dip) < 10)%Z /\
     existsb is_sell new = false).
Proof.
  split; [reflexivity|]. split; [reflexivity|].
  refine (proj2 (proj2 (bid_stage_transitions default_config dip_rows dip_day
                          (fst before_dip) (snd before_dip)
                          (fst after_dip) (snd after_dip) _ _)));
    vm_compute; reflexivity.
Defined.

(** Scenario C: the dip buys 515 units at multiplier 1. *)
Example dip_buys_515 :
  map (fun t => (t_type t, t_units t)) (transactions (fst after_dip))
  = [(SIP, 1000%Z); (BID 1, 515%Z)].
Proof. reflexivity. Qed.

(** ** C10: the benchmark and the lumpsum *)

Lemma int_nonneg_floor q : 0 <= q -> Py.int q = Qfloor q.
Proof.
  destruct q as [n d]. unfold Py.int, Qle. cbn. rewrite Z.mul_1_r.
  intros Hn. apply Z.quot_div_nonneg; lia.
Qed.

Lemma floor_pos_int q : (0 < Qfloor q)%Z -> Py.int q = Qfloor q.
Proof.
  intros H. apply int_nonneg_floor.
  pose proof (Qfloor_le q) as Hf.
  assert (H1 : 0 <= inject_Z (Qfloor q)).
  { unfold Qle. cbn. lia. }
  lra.
Qed.

(** What the benchmark buys on a contribution day at [price]. *)
Definition contribution_units (base price : Q) : Z :=
  let u := Py.int (base / price) in
  if Z_lt_le_dec 0 u then u else 0%Z.

(** The benchmark's contribution-day purchases over [rows], the month of
    the row before them being [prev]: units and cost. *)
Fixpoint benchmark_sip_units (base : Q) (prev : Z) (rows : list Row) : Z :=
  match rows with
  | [] => 0
  | row :: rest =>
      ((if is_sip_day (Some prev) (month (date row))
        then contribution_units base (close row)
        else 0)
       + benchmark_sip_units base (month (date row)) rest)%Z
  end.

Fixpoint benchmark_sip_cost (base : Q) (prev : Z) (rows : list Row) : Q :=
  match rows with
  | [] => 0
  | row :: rest =>
      (if is_sip_day (Some prev) (month (date row))
       then inject_Z (contribution_units base (close row)) * close row
       else 0)
      + benchmark_sip_cost base (month (date row)) rest
  end.

(** The benchmark moved by [du] units and [dc] of cost between [s] and
    [x], and the log of [s] is a prefix of the log of [x]. *)
Definition bench_moved (du : Z) (dc : Q) (s x : State) : Prop :=
  benchmark_units x = (benchmark_units s + du)%Z /\
  benchmark_invested x == benchmark_invested s + dc /\
  exists new, transactions x = transactions s ++ new.

Lemma bench_moved_refl s : bench_moved 0 0 s s.
Proof.
  unfold bench_moved. repeat split; [lia | ring |].
  exists []. rewrite app_nil_r. reflexivity.
Qed.

(** A step that leaves the benchmark alone and appends [new'] to the log. *)
Lemma bench_moved_keep du dc s x x' new' :
  benchmark_units x' = benchmark_units x ->
  benchmark_invested x' = benchmark_invested x ->
  transactions x' = transactions x ++ new' ->
  bench_moved du dc s x -> bench_moved du dc s x'.
Proof.
  intros Hu Hc Ht (Hu0 & Hc0 & new & Ht0). unfold bench_moved.
  rewrite Hu, Hc, Ht, Ht0, <- app_assoc. repeat split; eauto.
Qed.

Lemma bench_moved_buy type date units price du dc s x x' :
  type <> LUMPSUM ->
  buy_effect type date units price x x' ->
  bench_moved du dc s x -> bench_moved du dc s x'.
Proof.
  intros Hty [] H. destruct be_log0 as (t & Ht & _).
  apply (bench_moved_keep du dc s x x' [t]); auto;
    destruct type; try reflexivity; try assumption; congruence.
Qed.

Lemma bench_moved_sell date units price du dc s x x' :
  sell_effect date units price x x' ->
  bench_moved du dc s x -> bench_moved du dc s x'.
Proof.
  intros [] H. destruct se_log0 as (t & Ht & _).
  apply (bench_moved_keep du dc s x x' [t]); auto.
Qed.

Lemma bench_moved_record date price du dc s x :
  bench_moved du dc s x -> bench_moved du dc s (record_history date price x).
Proof.
  destruct (record_history_effect date price x).
  apply (bench_moved_keep du dc s x _ []); auto.
  rewrite app_nil_r. assumption.
Qed.

(** A day after the first: the benchmark moves on a contribution day
    only, by its own purchase. *)
Lemma run_day_benchmark cfg i row s pm s' pm' :
  run_day cfg (S i) row (s, pm) = Some (s', pm') ->
  bench_moved
    (if is_sip_day pm (month (date row))
     then contribution_units (base_sip cfg) (close row) else 0%Z)
    (if is_sip_day pm (month (date row))
     then inject_Z (contribution_units (base_sip cfg) (close row)) * close row
     else 0)
    s s'.
Proof.
  intros H.
  set (du := contribution_units (base_sip cfg) (close row)).
  set (dc := inject_Z du * close row).
  destruct (is_sip_day pm (month (date row))) eqn:Hday.
  - apply (run_day_phases cfg (S i) row pm
             (bench_moved 0 0 s) (bench_moved 0 0 s) (bench_moved du dc s)
             (bench_moved du dc s) (bench_moved du dc s)) in H.
    + exact H.
    + intros s0 _ Hm. exact Hm.
    + intros s0 s1 Hi. discriminate Hi.
    + intros s0 s1 _ Hb (Hu0 & Hc0 & new & Ht0).
      apply benchmark_sip_inv in Hb. destruct Hb as [_ ->].
      subst du dc. unfold contribution_units, bench_moved. cbv zeta.
      destruct (Z_lt_le_dec 0 (Py.int (base_sip cfg / close row)));
        destruct s0; fields; rewrite Hu0, Hc0, Ht0;
        (split; [lia|]; split; [ring | eauto]).
    + intros s0 s1 _ Hb Hm. apply sip_buy_effect in Hb.
      eapply bench_moved_buy; [|exact Hb|exact Hm]. discriminate.
    + intros s0 Hm. exact Hm.
    + intros dp u s0 s1 E. rewrite Hday in E. discriminate E.
    + intros pv u s0 s1 E. rewrite Hday in E. discriminate E.
    + intros s0 E. rewrite Hday in E. discriminate E.
    + intros s0. apply bench_moved_record.
    + apply bench_moved_refl.
  - apply (run_day_phases cfg (S i) row pm
             (bench_moved 0 0 s) (bench_moved 0 0 s) (fun _ => False)
             (bench_moved 0 0 s) (bench_moved 0 0 s)) in H.
    + exact H.
    + intros s0 _ Hm. exact Hm.
    + intros s0 s1 Hi. discriminate Hi.
    + intros s0 s1 E. rewrite Hday in E. discriminate E.
    + intros s0 s1 _ _ [].
    + intros s0 [].
    + intros dp u s0 s1 _ _ _ Hb Hm. apply bid_buy_effect in Hb.
      eapply bench_moved_buy; [|exact Hb|exact Hm]. discriminate.
    + intros pv u s0 s1 _ _ Hb Hm. apply sell_spec in Hb.
      eapply bench_moved_sell; eassumption.
    + intros s0 _ Hm. exact Hm.
    + intros s0. apply bench_moved_record.
    + apply bench_moved_refl.
Qed.

Lemma bench_moved_trans du dc du' dc' s x y :
  bench_moved du dc s x -> bench_moved du' dc' x y ->
  bench_moved (du + du') (dc + dc') s y.
Proof.
  intros (Hu & Hc & new & Ht) (Hu' & Hc' & new' & Ht'). unfold bench_moved.
  rewrite Hu', Hu, Hc', Hc, Ht', Ht, <- app_assoc.
  split; [lia|]. split; [ring | eauto].
Qed.

Lemma run_loop_benchmark cfg rest : forall i s m s' pm',
  run_loop cfg (S i) rest (s, Some m) = Some (s', pm') ->
  bench_moved (benchmark_sip_units (base_sip cfg) m rest)
    (benchmark_sip_cost (base_sip cfg) m rest) s s'.
Proof.
  induction rest as [|row rest IH]; intros i s m s' pm' H;
    cbn [run_loop benchmark_sip_units benchmark_sip_cost] in *.
  - some_inv. apply bench_moved_refl.
  - apply bind_inv in H. destruct H as ([s1 pm1] & Hday & H).
    pose proof (run_day_prev_month _ _ _ _ _ _ Hday) as ->.
    apply run_day_benchmark in Hday.
    eapply bench_moved_trans; [exact Hday|].
    eapply IH. exact H.
Qed.

(** The log of [x] extends the log of [s] by a lumpsum entry of [units]
    units and amount [cost], possibly followed by more. *)
Definition lumpsum_logged (units : Z) (cost : Q) (s x : State) : Prop :=
  exists t log,
    transactions x = transactions s ++ t :: log /\
    t_type t = LUMPSUM /\ t_units t = units /\ t_amount t = cost.

Lemma lumpsum_logged_more units cost s x y :
  (exists new, transactions y = transactions x ++ new) ->
  lumpsum_logged units cost s x -> lumpsum_logged units cost s y.
Proof.
  intros (new & Hy) (t & log & Hx & Ht). exists t, (log ++ new).
  split; [|exact Ht]. rewrite Hy, Hx, <- app_assoc. reflexivity.
Qed.

(** The first day of a run whose lumpsum buys at least one unit. *)
Lemma run_day_lumpsum cfg row s s' pm' :
  0 < initial_lumpsum cfg ->
  (0 < Py.int (initial_lumpsum cfg / close row))%Z ->
  run_day cfg 0 row (s, None) = Some (s', pm') ->
  let units := Py.int (initial_lumpsum cfg / close row) in
  let cost := inject_Z units * close row in
  bench_moved units cost s s' /\ lumpsum_logged units cost s s'.
Proof.
  intros Hl Hu H units cost.
  pose (P := fun x => bench_moved units cost s x
                      /\ lumpsum_logged units cost s x).
  apply (run_day_phases cfg 0 row None (eq s) P (fun _ => False) P P) in H.
  - exact H.
  - intros s0 Hno _. exfalso. apply Hno. auto.
  - intros s0 s1 _ _ _ Hb <-. apply lumpsum_buy_effect in Hb. destruct Hb.
    destruct be_log0 as (t & Ht & (_ & Hty & Htu & _ & Hta & _)).
    split.
    + unfold bench_moved. rewrite be_bench_units0, be_bench_invested0, Ht.
      split; [reflexivity|]. split; [reflexivity | eauto].
    + exists t, []. auto.
  - intros s0 s1 E. cbn in E. discriminate E.
  - intros s0 s1 _ _ [].
  - intros s0 [].
  - intros dp u s0 s1 _ _ _ Hb [Hm Hlog]. apply bid_buy_effect in Hb. split.
    + eapply bench_moved_buy; [|exact Hb|exact Hm]. discriminate.
    + eapply lumpsum_logged_more; [|exact Hlog].
      destruct Hb. destruct be_log0 as (t & Ht & _). eauto.
  - intros pv u s0 s1 _ _ Hb [Hm Hlog]. apply sell_spec in Hb. split.
    + eapply bench_moved_sell; eassumption.
    + eapply lumpsum_logged_more; [|exact Hlog].
      destruct Hb. destruct se_log0 as (t & Ht & _). eauto.
  - intros s0 _ HP. exact HP.
  - intros s0 [Hm Hlog]. split.
    + apply bench_moved_record. exact Hm.
    + eapply lumpsum_logged_more; [|exact Hlog].
      destruct (record_history_effect (date row) (close row) s0).
      exists []. rewrite app_nil_r. assumption.
  - reflexivity.
Qed.

(** C10.  In a fresh run with a positive lumpsum that buys at least one
    unit at the first price, the lumpsum is the first logged transaction,
    and the benchmark ends with exactly the lumpsum's units and cost on top
    of its own contribution-day purchases. *)
Theorem lumpsum_reaches_benchmark cfg row rest s :
  0 < initial_lumpsum cfg ->
  (0 < Qfloor (initial_lumpsum cfg / close row))%Z ->
  run_fresh cfg (row :: rest) = Some s ->
  let units := Qfloor (initial_lumpsum cfg / close row) in
  let cost := inject_Z units * close row in
  (exists t log,
     transactions s = t :: log /\
     t_type t = LUMPSUM /\ t_units t = units /\ t_amount t = cost) /\
  benchmark_units s =
    (units + benchmark_sip_units (base_sip cfg) (month (date row)) rest)%Z /\
  benchmark_invested s ==
    cost + benchmark_sip_cost (base_sip cfg) (month (date row)) rest.
Proof.
  intros Hl Hu H units cost.
  pose proof (floor_pos_int _ Hu) as Hint.
  apply run_fresh_inv in H. destruct H as (pm & H).
  cbn [run_loop] in H.
  apply bind_inv in H. destruct H as ([s1 pm1] & Hday & Hrest).
  pose proof (run_day_prev_month _ _ _ _ _ _ Hday) as ->.
  apply run_day_lumpsum in Hday; [|exact Hl | rewrite Hint; exact Hu].
  rewrite Hint in Hday. fold units cost in Hday.
  destruct Hday as [Hm Hlog].
  apply run_loop_benchmark in Hrest.
  pose proof (bench_moved_trans _ _ _ _ _ _ _ Hm Hrest) as (Hbu & Hbi & Hnew).
  cbn [init benchmark_units benchmark_invested] in Hbu, Hbi.
  split; [|split].
  - destruct Hrest as (_ & _ & new & Ht).
    destruct (lumpsum_logged_more units cost (init cfg) s1 s
                (ex_intro _ new Ht) Hlog) as (t & log & Hs & Hty).
    exists t, log. cbn [init transactions app] in Hs. auto.
  - rewrite Hbu. lia.
  - rewrite Hbi. ring.
Qed.

(** A lumpsum of 100000 at 100, then a contribution month. *)
Definition lumpsum_config : Config := {|
  base_sip := 100000;
  min_profit_booking_amount := 10000;
  bid_multiplier := 0.5;
  bid_trigger_drop := 0.02;
  initial_lumpsum := 100000
|}.

Definition lumpsum_state : State :=
  Eval vm_compute in
    match run_fresh lumpsum_config (dip_rows) with
    | Some s => s
    | None => init lumpsum_config
    end.

Lemma lumpsum_reaches_benchmark_witness :
  benchmark_units lumpsum_state = 2000%Z /\
  benchmark_units lumpsum_state =
    (Qfloor (100000 / 100)
     + benchmark_sip_units 100000 1 [mkRow (mkDate 2020 2 3) 100])%Z.
Proof.
  split; [reflexivity|].
  refine (proj1 (proj2 (lumpsum_reaches_benchmark lumpsum_config
                          (mkRow (mkDate 2020 1 1) 100)
                          [mkRow (mkDate 2020 2 3) 100]
                          lumpsum_state _ _ _)));
    vm_compute; reflexivity.
Defined.

(** ** C4: reserve first, fresh capital for the shortfall *)

(** The purchases a fresh run executes, with the state before, the cost
    and the state after.  The lumpsum is guarded as in [run]: first row
    only ([i == 0]), positive configured amount, at least one unit. *)
Inductive purchase (cfg : Config) : State -> Q -> State -> Prop :=
| purchase_lumpsum pre row s pm s' :
    run_loop cfg 0 pre (init cfg, None) = Some (s, pm) ->
    length pre = 0%nat ->
    0 < initial_lumpsum cfg ->
    (0 < Py.int (initial_lumpsum cfg / close row))%Z ->
    lumpsum_buy (date row) (close row)
      (Py.int (initial_lumpsum cfg / close row)) s = Some s' ->
    purchase cfg s
      (inject_Z (Py.int (initial_lumpsum cfg / close row)) * close row) s'
| purchase_sip date price units s s' :
    sip_buy date price units s = Some s' ->
    purchase cfg s (inject_Z units * price) s'
| purchase_bid date price drop_pct k units s s' :
    bid_buy date price drop_pct k units s = Some s' ->
    purchase cfg s (inject_Z units * price) s'.

Lemma reserve_first_arith c r a :
  r - Qmin c r == Qmax 0 (r - c) /\
  (if Qlt_le_dec 0 (c - Qmin c r) then a + (c - Qmin c r) else a)
  == a + Qmax 0 (c - r).
Proof.
  destruct (Q.min_spec c r) as [[H1 H2]|[H1 H2]];
    destruct (Q.max_spec 0 (r - c)) as [[H3 H4]|[H3 H4]];
    destruct (Q.max_spec 0 (c - r)) as [[H5 H6]|[H5 H6]];
    destruct (Qlt_le_dec 0 (c - Qmin c r)) as [H7|H7];
    split; lra.
Qed.

(** C4.  For every purchase of cost [c] executed in a fresh run, from a
    state with reserve [r]: the reserve afterwards is [max(0, r - c)] and
    [actual_invested] has grown by [max(0, c - r)]. *)
Theorem funding_order cfg s c s' :
  purchase cfg s c s' ->
  profit_reserve s' == Qmax 0 (profit_reserve s - c) /\
  actual_invested s' == actual_invested s + Qmax 0 (c - profit_reserve s).
Proof.
  intros [pre row s0 pm s1 Hrun Hlen Hl Hu Hb
         | date price units s0 s1 Hb
         | date price dp k units s0 s1 Hb].
  - destruct pre; [|discriminate Hlen]. cbn in Hrun. some_inv.
    apply lumpsum_buy_effect in Hb. destruct Hb.
    rewrite be_reserve0, be_invested0. cbn [init profit_reserve actual_invested].
    assert (Hp : 0 < close row).
    { apply (Qdiv_pos_inv (initial_lumpsum cfg)); [exact Hl|].
      apply int_pos_inv. exact Hu. }
    pose proof (cost_pos _ _ Hu Hp) as Hc.
    set (cost := inject_Z _ * close row) in *.
    destruct (Q.max_spec 0 (0 - cost)) as [[H3 H4]|[H3 H4]];
      destruct (Q.max_spec 0 (cost - 0)) as [[H5 H6]|[H5 H6]];
      split; lra.
  - apply sip_buy_effect in Hb. destruct Hb.
    rewrite be_reserve0, be_invested0. apply reserve_first_arith.
  - apply bid_buy_effect in Hb. destruct Hb.
    rewrite be_reserve0, be_invested0. apply reserve_first_arith.
Qed.

(** Every change the lumpsum block makes within a fresh run is a
    [purchase]. *)
Lemma lumpsum_block_purchase cfg pre row s pm s' :
  run_loop cfg 0 pre (init cfg, None) = Some (s, pm) ->
  lumpsum_block cfg (length pre) (date row) (close row) s = Some s' ->
  s' = s \/
  purchase cfg s
    (inject_Z (Py.int (initial_lumpsum cfg / close row)) * close row) s'.
Proof.
  intros Hrun H. apply lumpsum_block_inv in H.
  destruct H as [[-> _]|(Hi & Hl & _ & Hu & Hb)]; [auto|].
  right. eapply purchase_lumpsum; eassumption.
Qed.

(** Scenario A of the specification: a lumpsum of 100000 at 100 buys 1000
    units out of fresh capital. *)
Example lumpsum_purchase_scenario :
  exists s',
    purchase lumpsum_config (init lumpsum_config) (inject_Z 1000 * 100) s' /\
    total_units s' = 1000%Z /\ bia s' == 100000 /\ pap s' == 100 /\
    actual_invested s' == 100000 /\ profit_reserve s' == 0.
Proof.
  eexists. split.
  - apply (purchase_lumpsum lumpsum_config [] (mkRow (mkDate 2020 1 1) 100)
             (init lumpsum_config) None).
    + reflexivity.
    + reflexivity.
    + reflexivity.
    + reflexivity.
    + vm_compute. reflexivity.
  - vm_compute. repeat split.
Qed.

(** The state in which the dip of scenario C is bought, and the state
    after: the reserve is empty, so the whole cost is fresh capital. *)
Definition dip_bought : State :=
  Eval vm_compute in
    match bid_buy (date dip_day) (close dip_day) 0.03 1 515 (fst before_dip)
    with
    | Some s => s
    | None => fst before_dip
    end.

Lemma funding_order_witness :
  profit_reserve dip_bought
  == Qmax 0 (profit_reserve (fst before_dip) - inject_Z 515 * 97) /\
  actual_invested dip_bought
  == actual_invested (fst before_dip)
     + Qmax 0 (inject_Z 515 * 97 - profit_reserve (fst before_dip)).
Proof.
  refine (funding_order default_config (fst before_dip) (inject_Z 515 * 97)
            dip_bought
            (purchase_bid default_config (date dip_day) (close dip_day)
               0.03 1 515 (fst before_dip) dip_bought _)).
  vm_compute. reflexivity.
Defined.

(** ** C5: how a sale is split *)

(** The claim is about whether two floats add back to a third exactly, so
    it is judged on the program's own arithmetic.  [B64] transcribes the
    sale's cash lines with the kernel's binary64 floats, whose operations
    are the IEEE 754 ones Python's [float] uses. *)
Module B64.
Import PrimFloat.
Local Open Scope float_scope.

(** An [int] operand of a float operation is converted to [float] first
    (here for [0 <= n < 2^63]). *)
Definition of_int (n : Z) : float := of_uint63 (Uint63.of_Z n).

(** [min(a, b)]: the first argument unless the second is smaller. *)
Definition min (a b : float) : float := if b <? a then b else a.


Record Sale := mkSale {
  sale_value : float;
  invested_reduction : float;
  reserve_addition : float;
  new_actual_invested : float;
  new_profit_reserve : float
}.

(** Lines 244 and 257-262. *)
Definition sell (units_calc : Z)
    (close_price actual_invested profit_reserve : float) : Sale :=
  let sale_value := of_int units_calc * close_price in
  let invested_reduction := min sale_value actual_invested in
  let actual_invested' := actual_invested - invested_reduction in
  let reserve_addition := sale_value - invested_reduction in
  let profit_reserve' := profit_reserve + reserve_addition in
  mkSale sale_value invested_reduction reserve_addition
    actual_invested' profit_reserve'.

(** Python's [==] on floats. *)
Definition eq (a b : float) : bool := a =? b.


End B64.


(** The engine takes this path on that input: the lumpsum buys 7 units and
    the harvest rule sells 1. *)
Example rounded_sale_is_reached :
  option_map
    (fun s => map (fun t => (t_type t, t_units t)) (transactions s))
    (run_fresh
       {| base_sip := 100000; min_profit_booking_amount := 10000;
          bid_multiplier := 0.5; bid_trigger_drop := 0.02;
          initial_lumpsum := 500 |}
       [ mkRow (mkDate 2020 1 1) 70.97; mkRow (mkDate 2020 1 2) 15753.03 ])
  = Some [ (LUMPSUM, 7%Z); (SELL, (-1)%Z) ].
Proof. vm_compute. reflexivity. Qed.



(** Every sale the harvest block makes goes through [sell], with
    [units_calc] units. *)
Lemma sell_block_sells cfg date price s s' :
  sell_block cfg date price s = Some s' ->
  s' = s \/
  exists profit_val units,
    (0 < units <= total_units s)%Z /\
    sell date price profit_val units s = Some s'.
Proof.
  intros H. apply sell_block_inv in H.
  destruct H as [->|(_ & pv & u & Hu & _ & _ & Hs)]; [auto|].
  right. eauto.
Qed.

(** The sale of the sample run: 40000 units bought at 2.5, price 3.5. *)
Definition before_sale : State :=
  Eval vm_compute in
    match run_fresh default_config (firstn 2 rising_rows) with
    | Some s => s
    | None => init default_config
    end.

Definition after_sale : State :=
  Eval vm_compute in
    match sell (mkDate 2020 2 4) 3.5 40000 2857 before_sale with
    | Some s => s
    | None => before_sale
    end.


(** ** C1: units sold by the harvest rule *)

(** On whole-number amounts the expression of line 237 is the ceiling of
    [target / price], so [units_calc] is the capped ceiling. *)
Lemma units_calc_whole_numbers (target price held : Z) :
  (0 < price)%Z ->
  units_calc (inject_Z target) (inject_Z price) held
  = Some (Z.min held (Py.ceil (inject_Z target / inject_Z price))).
Proof.
  intros Hp. unfold units_calc, Py.floordiv, Py.ceil, Qceiling.
  destruct (Qeq_dec (inject_Z price) 0) as [E|_].
  - exfalso. revert E. apply inject_Z_nonzero. exact Hp.
  - cbn [Py.bind]. rewrite int_inject_Z.
    assert (F1 : Qfloor ((inject_Z target + inject_Z price - 1)
                         / inject_Z price)
                 = ((target + price - 1) / price)%Z).
    { rewrite Zdiv_Qdiv. apply Qfloor_comp.
      apply Qdiv_comp; [|reflexivity].
      unfold Qeq, inject_Z. cbn. lia. }
    assert (F2 : Qfloor (- (inject_Z target / inject_Z price))
                 = (- target / price)%Z).
    { rewrite Zdiv_Qdiv. apply Qfloor_comp.
      rewrite inject_Z_opp. field. apply inject_Z_nonzero. exact Hp. }
    rewrite F1, F2.
    assert (E3 : ((target + price - 1) / price = - (- target / price))%Z).
    { pose proof (Z.div_mod (target + price - 1) price ltac:(lia)) as D1.
      pose proof (Z.mod_pos_bound (target + price - 1) price Hp) as B1.
      pose proof (Z.div_mod (- target) price ltac:(lia)) as D2.
      pose proof (Z.mod_pos_bound (- target) price Hp) as B2.
      nia. }
    rewrite E3.
    destruct (Z_lt_le_dec held (- (- target / price))); f_equal; lia.
Qed.

(** C1 (the code at a failing input).  Constructor defaults; 40000 units
    are bought at 2.5 on the first trading day of February and the price is
    3.5 the day after.  The harvest rule fires with target 10000.  The code
    sells 2857 units, worth 9999.5; the capped ceiling of [target / price]
    is 2858, and the ceiling is not capped by the 40000 units held. *)
Theorem harvest_undershoots_fractional_price :
  let price := 3.5 in
  let target :=
    target_threshold default_config
      (inject_Z (total_units before_sale) * price) in
  run_fresh default_config (firstn 2 rising_rows) = Some before_sale /\
  total_units before_sale = 40000%Z /\
  target == 10000 /\
  target <= inject_Z (total_units before_sale) * price - bia before_sale /\
  units_calc target price (total_units before_sale) = Some 2857%Z /\
  Z.min (total_units before_sale) (Py.ceil (target / price)) = 2858%Z /\
  inject_Z 2857 * price < target /\
  exists s,
    run_fresh default_config rising_rows = Some s /\
    map (fun t => (t_type t, t_units t, Qred (t_amount t))) (transactions s)
    = [(SIP, 40000%Z, 100000); (SELL, (-2857)%Z, 19999 # 2)].
Proof.
  cbv zeta. repeat split; try (vm_compute; reflexivity).
  - vm_compute. discriminate.
  - eexists. split; vm_compute; reflexivity.
Qed.

(** ** C2: the sustained breakeven date when nothing was ever invested *)

Definition never_positive (history : list HistoryRecord) : Prop :=
  forall h, In h history -> ~ 1 < h_actual_invested h.

Lemma last_positive_date_none history :
  never_positive history -> last_positive_date history = None.
Proof.
  unfold last_positive_date, never_positive. generalize (@None Date) as acc.
  induction history as [|h rest IH]; intros acc Hall; cbn [fold_left].
  - reflexivity.
  - destruct (Qlt_le_dec 1 (h_actual_invested h)) as [Hp|_].
    + exfalso. apply (Hall h); [left; reflexivity | exact Hp].
    + apply IH. intros h0 Hin. apply Hall. right. exact Hin.
Qed.

(** The half of C2 that holds: [generate_report] sets no sustained
    breakeven date when [actual_invested] never exceeds the tolerance. *)
Lemma generate_report_never_positive s :
  never_positive (portfolio_history s) -> generate_report s = s.
Proof.
  intros H. unfold generate_report.
  rewrite (last_positive_date_none _ H).
  destruct (final_state (portfolio_history s)); reflexivity.
Qed.

(** What [get_metrics] reports in that case: the date of the first record
    as soon as that record has nothing invested. *)
Lemma get_metrics_never_positive s first rest m :
  portfolio_history s = first :: rest ->
  never_positive (portfolio_history s) ->
  get_metrics s = Some (MetricsOf m) ->
  break_even_date m =
    if Qlt_le_dec 0 (h_actual_invested first)
    then NotReached
    else DateOf (h_date first).
Proof.
  intros Hh Hnp H. unfold get_metrics in H.
  destruct (final_state (portfolio_history s)) as [final|]; [|discriminate].
  unfold metrics_sustained_breakeven_date in H.
  rewrite (last_positive_date_none _ Hnp), Hh in H.
  apply bind_inv in H. destruct H as (a1 & _ & H).
  apply bind_inv in H. destruct H as (a2 & _ & H).
  injection H as <-. cbn [break_even_date].
  destruct (Qlt_le_dec 0 (h_actual_invested first)); reflexivity.
Qed.

(** Two rows in one month, no lumpsum: nothing is ever bought. *)
Definition idle_rows : list Row :=
  [ mkRow (mkDate 2020 1 1) 100; mkRow (mkDate 2020 1 2) 101 ].

Definition idle_state : State :=
  Eval vm_compute in
    match run_fresh default_config idle_rows with
    | Some s => s
    | None => init default_config
    end.

(** C2 (the code at a failing input).  After a run that never invests,
    the history is non-empty and [actual_invested] never exceeds 1.0;
    [generate_report] leaves the sustained breakeven date unset, but
    [get_metrics] reports the date of the first record instead of the
    sentinel. *)
Theorem metrics_breakeven_on_idle_run :
  run_fresh default_config idle_rows = Some idle_state /\
  length (portfolio_history idle_state) = 2%nat /\
  never_positive (portfolio_history idle_state) /\
  sustained_breakeven_date (generate_report idle_state) = None /\
  exists m,
    get_metrics idle_state = Some (MetricsOf m) /\
    break_even_date m = DateOf (mkDate 2020 1 1) /\
    break_even_date m <> NotReached.
Proof.
  split; [vm_compute; reflexivity|].
  split; [reflexivity|].
  assert (Hnp : never_positive (portfolio_history idle_state)).
  { intros h [<-|[<-|[]]]; vm_compute; discriminate. }
  split; [exact Hnp|].
  split; [rewrite (generate_report_never_positive _ Hnp); reflexivity|].
  eexists. split; [vm_compute; reflexivity|].
  split; [reflexivity | discriminate].
Qed.

(** * Further properties of the engine *)

(** ** The remaining attributes *)

(** What a purchase does to the attributes that [buy_effect] does not
    mention.  Either no fresh capital was drawn and the capital figures
    are untouched, or [has_invested] is set and the high-water mark is
    raised to the new [actual_invested] if that is higher. *)
Record buy_extra (type : TxType) (date : Date) (s s' : State) : Prop := {
  bx_bids :
    bids_executed_count s' =
    match type with
    | BID _ => (bids_executed_count s + 1)%Z
    | _ => bids_executed_count s
    end;
  bx_ledger : monthly_profits s' = monthly_profits s;
  bx_initial : initial_breakeven_date s' = initial_breakeven_date s;
  bx_sustained : sustained_breakeven_date s' = sustained_breakeven_date s;
  bx_sip_amount : current_sip_amount s' = current_sip_amount s;
  bx_fresh :
    (actual_invested s' = actual_invested s /\
     has_invested s' = has_invested s /\
     max_actual_invested s' = max_actual_invested s /\
     max_actual_invested_date s' = max_actual_invested_date s) \/
    (has_invested s' = true /\
     (type = LUMPSUM \/ actual_invested s < actual_invested s') /\
     max_actual_invested s' =
       (if Qlt_le_dec (max_actual_invested s) (actual_invested s')
        then actual_invested s' else max_actual_invested s) /\
     max_actual_invested_date s' =
       (if Qlt_le_dec (max_actual_invested s) (actual_invested s')
        then Some date else max_actual_invested_date s))
}.

Ltac close_extra :=
  constructor; fields; try reflexivity;
  first [ left; repeat split; reflexivity
        | right; split; [reflexivity|]; split;
          [ first [left; reflexivity | right; lra]
          | split; (break_if; first [reflexivity | exfalso; lra]) ] ].

Lemma lumpsum_buy_extra date price units s s' :
  lumpsum_buy date price units s = Some s' ->
  buy_extra LUMPSUM date s s'.
Proof.
  destruct s.
  unfold lumpsum_buy, track_max_invested, log_transaction. intros H. fields.
  open_div H.
  break_if; fields; open_log H; close_extra.
Qed.

Lemma sip_buy_extra date price units s s' :
  sip_buy date price units s = Some s' ->
  buy_extra SIP date s s'.
Proof.
  destruct s.
  unfold sip_buy, fund_reserve_first, track_max_invested, log_transaction.
  intros H. fields. open_div H.
  repeat (break_if; fields); open_log H; close_extra.
Qed.

Lemma bid_buy_extra date price drop_pct k units s s' :
  bid_buy date price drop_pct k units s = Some s' ->
  buy_extra (BID k) date s s'.
Proof.
  destruct s.
  unfold bid_buy, fund_reserve_first, track_max_invested, log_transaction.
  intros H. fields. open_div H.
  repeat (break_if; fields); open_log H; close_extra.
Qed.

(** The same for a sale: only the ledger entry of the sale's month moves. *)
Record sell_extra (date : Date) (units : Z) (price : Q) (s s' : State)
  : Prop := {
  sx_bids : bids_executed_count s' = bids_executed_count s;
  sx_ledger :
    monthly_profits s' =
    dict_set (monthly_profits s) (ym_key date)
      (dict_get (monthly_profits s) (ym_key date) + inject_Z units * price);
  sx_initial : initial_breakeven_date s' = initial_breakeven_date s;
  sx_sustained : sustained_breakeven_date s' = sustained_breakeven_date s;
  sx_sip_amount : current_sip_amount s' = current_sip_amount s;
  sx_has : has_invested s' = has_invested s;
  sx_max : max_actual_invested s' = max_actual_invested s;
  sx_max_date : max_actual_invested_date s' = max_actual_invested_date s
}.

Lemma sell_extra_spec date price profit_val units s s' :
  sell date price profit_val units s = Some s' ->
  sell_extra date units price s s'.
Proof.
  destruct s. unfold sell, log_transaction. intros H. fields.
  apply bind_inv in H. destruct H as (p & Hp & H). cbv beta in H.
  apply bind_inv in H. destruct H as (g & Hg & H). cbv beta in H.
  open_log H.
  constructor; fields; reflexivity.
Qed.

(** [record_history] leaves every attribute alone except the history and,
    at most once, [initial_breakeven_date]. *)
Record record_extra (date : Date) (s s' : State) : Prop := {
  rx_bids : bids_executed_count s' = bids_executed_count s;
  rx_ledger : monthly_profits s' = monthly_profits s;
  rx_sustained : sustained_breakeven_date s' = sustained_breakeven_date s;
  rx_sip_amount : current_sip_amount s' = current_sip_amount s;
  rx_has : has_invested s' = has_invested s;
  rx_max : max_actual_invested s' = max_actual_invested s;
  rx_max_date : max_actual_invested_date s' = max_actual_invested_date s;
  rx_initial :
    initial_breakeven_date s' =
    match initial_breakeven_date s with
    | Some d => Some d
    | None =>
        if has_invested s
           && (if Qlt_le_dec 0 (actual_invested s) then false else true)
        then Some date
        else None
    end
}.

Lemma record_history_extra date price s :
  record_extra date s (record_history date price s).
Proof.
  unfold record_history.
  destruct (has_invested s && _) eqn:E;
    destruct (initial_breakeven_date s) eqn:Ei;
    constructor; fields; cbn; rewrite ?Ei, ?E; reflexivity.
Qed.

(** ** A day as a sequence of blocks *)

(** The contribution branch: the benchmark buys, [current_sip_amount] is
    reset, and the contribution is bought exactly when the benchmark
    bought, with the same unit count. *)
Lemma sip_block_cases cfg date price s s' :
  sip_block cfg date price s = Some s' ->
  ~ price == 0 /\
  (((Py.int (base_sip cfg / price) <= 0)%Z /\
    s' = set_current_sip_amount (base_sip cfg) s) \/
   ((0 < Py.int (base_sip cfg / price))%Z /\
    sip_buy date price (Py.int (base_sip cfg / price))
      (set_current_sip_amount (base_sip cfg)
         (set_benchmark_units
            (benchmark_units s + Py.int (base_sip cfg / price))
            (set_benchmark_invested
               (benchmark_invested s
                + inject_Z (Py.int (base_sip cfg / price)) * price) s)))
    = Some s')).
Proof.
  unfold sip_block, benchmark_sip. intros H.
  apply bind_inv in H. destruct H as (s1 & Hb & H).
  apply bind_inv in Hb. destruct Hb as (q & Hq & Hb).
  apply div_inv in Hq. destruct Hq as [Hnz ->]. cbv beta zeta in Hb.
  split; [exact Hnz|].
  apply bind_inv in H. destruct H as (q2 & Hq2 & H).
  apply div_inv in Hq2. destruct Hq2 as [_ ->]. cbv beta zeta in H.
  change (current_sip_amount (set_current_sip_amount (base_sip cfg) s1))
    with (base_sip cfg) in H.
  destruct (Z_lt_le_dec 0 (Py.int (base_sip cfg / price))) as [Hu|Hu].
  - injection Hb as <-. right. split; [exact Hu | exact H].
  - injection Hb as <-. injection H as <-. left. split; [exact Hu | reflexivity].
Qed.

Lemma run_day_inv cfg i row s pm s' pm' :
  run_day cfg i row (s, pm) = Some (s', pm') ->
  pm' = Some (month (date row)) /\
  exists s1 s2,
    lumpsum_block cfg i (date row) (close row) s = Some s1 /\
    s' = record_history (date row) (close row) s2 /\
    ((is_sip_day pm (month (date row)) = true /\
      sip_block cfg (date row) (close row) s1 = Some s2) \/
     (is_sip_day pm (month (date row)) = false /\
      bid_block cfg (date row) (close row) s1 = Some (s2, true)) \/
     (is_sip_day pm (month (date row)) = false /\
      bid_block cfg (date row) (close row) s1 = Some (s1, false) /\
      sell_block cfg (date row) (close row) s1 = Some s2)).
Proof.
  intros H. split; [eapply run_day_prev_month; exact H|].
  unfold run_day in H.
  apply bind_inv in H. destruct H as (s1 & Hl & H).
  exists s1.
  destruct (is_sip_day pm (month (date row))) eqn:Hday.
  - apply bind_inv in H. destruct H as (s2 & Hs & H). some_inv.
    exists s2. split; [exact Hl|]. split; [reflexivity|]. left. auto.
  - apply bind_inv in H. destruct H as ([s2 b] & Hb & H).
    destruct b.
    + some_inv. exists s2. split; [exact Hl|]. split; [reflexivity|].
      right. left. auto.
    + apply bind_inv in H. destruct H as (s3 & Hs & H). some_inv.
      exists s3.
      pose proof (bid_block_inv _ _ _ _ _ _ Hb) as [[_ ->]|(E & _)];
        [|discriminate E].
      split; [exact Hl|]. split; [reflexivity|]. right. right. auto.
Qed.

(** A property that every block preserves is preserved by the day and by
    the loop. *)
Lemma run_day_blocks cfg i row (P : State -> Prop) :
  (forall s s',
     lumpsum_block cfg i (date row) (close row) s = Some s' -> P s -> P s') ->
  (forall s s',
     sip_block cfg (date row) (close row) s = Some s' -> P s -> P s') ->
  (forall s s' b,
     bid_block cfg (date row) (close row) s = Some (s', b) -> P s -> P s') ->
  (forall s s',
     sell_block cfg (date row) (close row) s = Some s' -> P s -> P s') ->
  (forall s, P s -> P (record_history (date row) (close row) s)) ->
  forall s pm s' pm',
    run_day cfg i row (s, pm) = Some (s', pm') -> P s -> P s'.
Proof.
  intros Hl Hs Hb Hsell Hr s pm s' pm' H HP.
  apply run_day_inv in H.
  destruct H as (_ & s1 & s2 & H1 & -> & Hcase).
  apply Hr. pose proof (Hl _ _ H1 HP) as HP1.
  destruct Hcase as [[_ H]|[[_ H]|(_ & _ & H)]]; eauto.
Qed.

(** ** Sums over the transaction log *)

(** The signed unit deltas of the log, added up. *)
Definition sum_units (log : list Transaction) : Z :=
  fold_right (fun t acc => (t_units t + acc)%Z) 0%Z log.

(** The amounts of the transactions selected by [f], added up. *)
Definition sum_amount (f : Transaction -> bool) (log : list Transaction) : Q :=
  fold_right (fun t acc => (if f t then t_amount t else 0) + acc) 0 log.

Definition is_purchase (t : Transaction) : bool := negb (is_sell t).

(** Lumpsum and contribution: the purchases the benchmark mirrors. *)
Definition is_contribution (t : Transaction) : bool :=
  match t_type t with LUMPSUM | SIP => true | _ => false end.

Definition key_eqb (a b : Z * Z) : bool :=
  ((fst a =? fst b) && (snd a =? snd b))%Z.

(** A sale booked in the month [k]. *)
Definition is_sale_in (k : Z * Z) (t : Transaction) : bool :=
  is_sell t && key_eqb (ym_key (t_date t)) k.

Lemma sum_units_app l1 l2 :
  sum_units (l1 ++ l2) = (sum_units l1 + sum_units l2)%Z.
Proof.
  unfold sum_units.
  induction l1 as [|t l1 IH]; cbn [app fold_right].
  - reflexivity.
  - rewrite IH. lia.
Qed.

Lemma sum_amount_app f l1 l2 :
  sum_amount f (l1 ++ l2) == sum_amount f l1 + sum_amount f l2.
Proof.
  unfold sum_amount.
  induction l1 as [|t l1 IH]; cbn [app fold_right].
  - ring.
  - rewrite IH. ring.
Qed.

Lemma sum_units_snoc l t :
  sum_units (l ++ [t]) = (sum_units l + t_units t)%Z.
Proof. rewrite sum_units_app. unfold sum_units. cbn [fold_right]. lia. Qed.

Lemma sum_amount_snoc f l t :
  sum_amount f (l ++ [t])
  == sum_amount f l + (if f t then t_amount t else 0).
Proof.
  rewrite sum_amount_app. unfold sum_amount. cbn [fold_right]. ring.
Qed.

Lemma key_eqb_eq a b : key_eqb a b = true <-> a = b.
Proof.
  destruct a as [a1 a2], b as [b1 b2]. unfold key_eqb. cbn [fst snd].
  rewrite andb_true_iff, !Z.eqb_eq. split.
  - intros [-> ->]. reflexivity.
  - intros E. injection E as -> ->. auto.
Qed.

(** Lookup after assignment in the monthly ledger. *)
Lemma dict_get_set d k v k' :
  dict_get (dict_set d k v) k' = if key_eqb k k' then v else dict_get d k'.
Proof.
  induction d as [|[k0 v0] d IH]; cbn [dict_set dict_get].
  - reflexivity.
  - change ((fst k0 =? fst k) && (snd k0 =? snd k))%Z with (key_eqb k0 k).
    destruct (key_eqb k0 k) eqn:E0; cbn [dict_get];
      change ((fst k0 =? fst k') && (snd k0 =? snd k'))%Z
        with (key_eqb k0 k').
    + apply key_eqb_eq in E0. subst k0.
      destruct (key_eqb k k'); reflexivity.
    + rewrite IH.
      destruct (key_eqb k0 k') eqn:E1; [|reflexivity].
      apply key_eqb_eq in E1. subst k0.
      destruct (key_eqb k k') eqn:E2; [|reflexivity].
      apply key_eqb_eq in E2. subst k'.
      assert (E3 : key_eqb k k = true) by (apply key_eqb_eq; reflexivity).
      congruence.
Qed.

(** ** The books balance against the log *)

Record books (s : State) : Prop := {
  bk_units : total_units s = sum_units (transactions s);
  bk_bia : bia s == sum_amount is_purchase (transactions s);
  bk_bids :
    bids_executed_count s
    = Z.of_nat (length (filter is_bid (transactions s)));
  bk_ledger : forall k,
    dict_get (monthly_profits s) k
    == sum_amount (is_sale_in k) (transactions s)
}.

Lemma init_books cfg : books (init cfg).
Proof. constructor; cbn; intros; reflexivity. Qed.

Lemma buy_books type date units price s s' :
  type <> SELL ->
  buy_effect type date units price s s' -> buy_extra type date s s' ->
  books s -> books s'.
Proof.
  intros Hty He Hx [].
  destruct He, Hx.
  destruct be_log0 as (t & Ht & (_ & Htt & Htu & _ & Hta & _)).
  assert (Hsell : is_sell t = false).
  { unfold is_sell. rewrite Htt. destruct type; try reflexivity. congruence. }
  assert (Hpur : is_purchase t = true)
    by (unfold is_purchase; rewrite Hsell; reflexivity).
  constructor; rewrite Ht.
  - rewrite sum_units_snoc, Htu, be_units0. lia.
  - rewrite sum_amount_snoc, Hpur, Hta, be_bia0, bk_bia0. reflexivity.
  - assert (Hbid : is_bid t = match type with BID _ => true | _ => false end)
      by (unfold is_bid; rewrite Htt; reflexivity).
    rewrite filter_app, length_app, Nat2Z.inj_add, <- bk_bids0, bx_bids0.
    cbn [filter]. rewrite Hbid.
    destruct type; cbn [length]; lia.
  - intros k.
    assert (Hsale : is_sale_in k t = false)
      by (unfold is_sale_in; rewrite Hsell; reflexivity).
    rewrite sum_amount_snoc, bx_ledger0, bk_ledger0, Hsale. ring.
Qed.

Lemma sell_books date units price s s' :
  sell_effect date units price s s' -> sell_extra date units price s s' ->
  books s -> books s'.
Proof.
  intros He Hx []. destruct He, Hx.
  destruct se_log0 as (t & Ht & (Htd & Htt & Htu & _ & Hta & _) & _).
  assert (Hsell : is_sell t = true) by (unfold is_sell; rewrite Htt; reflexivity).
  assert (Hpur : is_purchase t = false)
    by (unfold is_purchase; rewrite Hsell; reflexivity).
  constructor; rewrite Ht.
  - rewrite sum_units_snoc, Htu, se_units0. lia.
  - rewrite sum_amount_snoc, Hpur, se_bia0, bk_bia0. ring.
  - assert (Hbid : is_bid t = false) by (unfold is_bid; rewrite Htt; reflexivity).
    rewrite filter_app, length_app, Nat2Z.inj_add, <- bk_bids0, sx_bids0.
    cbn [filter]. rewrite Hbid. cbn [length]. lia.
  - intros k. rewrite sum_amount_snoc, sx_ledger0, dict_get_set.
    unfold is_sale_in at 2. rewrite Hsell, Htd, Hta. cbn [andb].
    destruct (key_eqb (ym_key date) k) eqn:E.
    + apply key_eqb_eq in E. subst k. rewrite bk_ledger0. reflexivity.
    + rewrite bk_ledger0. ring.
Qed.

(** The benchmark's purchase and the reset of [current_sip_amount] touch
    neither the bid counter nor the ledger nor the capital trackers. *)
Lemma benchmark_sip_rest cfg price s s' :
  benchmark_sip cfg price s = Some s' ->
  let s1 := set_current_sip_amount (base_sip cfg) s' in
  bids_executed_count s1 = bids_executed_count s /\
  monthly_profits s1 = monthly_profits s /\
  has_invested s1 = has_invested s /\
  max_actual_invested s1 = max_actual_invested s /\
  max_actual_invested_date s1 = max_actual_invested_date s /\
  initial_breakeven_date s1 = initial_breakeven_date s /\
  sustained_breakeven_date s1 = sustained_breakeven_date s.
Proof.
  intros H. apply benchmark_sip_inv in H. destruct H as [_ ->].
  destruct (Z_lt_le_dec 0 _); cbn; repeat split.
Qed.

Lemma record_books date price s : books s -> books (record_history date price s).
Proof.
  intros [].
  destruct (record_history_effect date price s).
  destruct (record_history_extra date price s).
  constructor.
  - rewrite re_units0, re_log0. assumption.
  - rewrite re_bia0, re_log0. assumption.
  - rewrite rx_bids0, re_log0. assumption.
  - intros k. rewrite rx_ledger0, re_log0. apply bk_ledger0.
Qed.

Lemma run_day_books cfg i row s pm s' pm' :
  run_day cfg i row (s, pm) = Some (s', pm') -> books s -> books s'.
Proof.
  apply (run_day_preserves cfg i row books).
  - intros s0 s1 _ _ _ Hb.
    eapply buy_books;
      [ | eapply lumpsum_buy_effect; exact Hb | eapply lumpsum_buy_extra; exact Hb];
      discriminate.
  - intros s0 s1 Hb [].
    pose proof (benchmark_sip_core _ _ _ _ Hb) as Hc. cbv zeta in Hc.
    pose proof (benchmark_sip_rest _ _ _ _ Hb) as Hr. cbv zeta in Hr.
    destruct Hc as (Hu & Hbia & _ & Hres & Hai & _ & Ht & _).
    destruct Hr as (Hbids & Hled & _).
    constructor.
    + rewrite Hu, Ht. assumption.
    + rewrite Hbia, Ht. assumption.
    + rewrite Hbids, Ht. assumption.
    + intros k. rewrite Hled, Ht. apply bk_ledger0.
  - intros u s0 s1 _ Hb.
    eapply buy_books;
      [ | eapply sip_buy_effect; exact Hb | eapply sip_buy_extra; exact Hb];
      discriminate.
  - intros dp u s0 s1 _ _ Hb.
    eapply buy_books;
      [ | eapply bid_buy_effect; exact Hb | eapply bid_buy_extra; exact Hb];
      discriminate.
  - intros pv u s0 s1 _ Hb.
    eapply sell_books; [eapply sell_spec | eapply sell_extra_spec]; exact Hb.
  - intros s0. apply record_books.
Qed.

Lemma run_fresh_books cfg data s :
  run_fresh cfg data = Some s -> books s.
Proof.
  intros H. apply run_fresh_inv in H. destruct H as (pm & H).
  eapply (run_loop_preserves cfg books (fun _ => True)).
  - intros i row s0 pm0 s1 pm1 _. apply run_day_books.
  - apply Forall_forall. intros. exact I.
  - exact H.
  - apply init_books.
Qed.

(** ** The benchmark mirrors the lumpsum and the contributions *)

Definition bench_ok (s : State) : Prop :=
  benchmark_units s = sum_units (filter is_contribution (transactions s)) /\
  benchmark_invested s == sum_amount is_contribution (transactions s).

(** Appending [t] to the log while the benchmark moves by [du], [dc]. *)
Lemma bench_ok_step s s' t du dc :
  transactions s' = transactions s ++ [t] ->
  benchmark_units s' = (benchmark_units s + du)%Z ->
  benchmark_invested s' == benchmark_invested s + dc ->
  (if is_contribution t then t_units t else 0%Z) = du ->
  (if is_contribution t then t_amount t else 0) == dc ->
  bench_ok s -> bench_ok s'.
Proof.
  intros Ht Hu Hc Hdu Hdc [Hbu Hbc]. unfold bench_ok.
  rewrite Ht, filter_app, sum_units_app, sum_amount_snoc, Hu, Hc, Hbu, Hbc.
  cbn [filter]. split.
  - destruct (is_contribution t); unfold sum_units; cbn [fold_right]; lia.
  - rewrite Hdc. reflexivity.
Qed.

Lemma bench_ok_same s s' :
  transactions s' = transactions s ->
  benchmark_units s' = benchmark_units s ->
  benchmark_invested s' = benchmark_invested s ->
  bench_ok s -> bench_ok s'.
Proof. unfold bench_ok. intros -> -> ->. auto. Qed.

Lemma run_day_bench_ok cfg i row s pm s' pm' :
  run_day cfg i row (s, pm) = Some (s', pm') -> bench_ok s -> bench_ok s'.
Proof.
  apply (run_day_blocks cfg i row bench_ok).
  - intros s0 s1 H Hok. apply lumpsum_block_inv in H.
    destruct H as [[-> _]|(_ & _ & _ & _ & Hb)]; [exact Hok|].
    apply lumpsum_buy_effect in Hb. destruct Hb.
    destruct be_log0 as (t & Ht & (_ & Htt & Htu & _ & Hta & _)).
    assert (Hc : is_contribution t = true)
      by (unfold is_contribution; rewrite Htt; reflexivity).
    eapply (bench_ok_step s0 s1 t); try eassumption.
    + rewrite be_bench_invested0. reflexivity.
    + rewrite Hc. exact Htu.
    + rewrite Hc, Hta. reflexivity.
  - intros s0 s1 H Hok. apply sip_block_cases in H.
    destruct H as (_ & [[_ ->]|[_ Hb]]).
    + apply (bench_ok_same s0); [reflexivity .. | exact Hok].
    + apply sip_buy_effect in Hb. destruct Hb.
      destruct be_log0 as (t & Ht & (_ & Htt & Htu & _ & Hta & _)).
      assert (Hc : is_contribution t = true)
        by (unfold is_contribution; rewrite Htt; reflexivity).
      eapply (bench_ok_step s0 s1 t).
      * exact Ht.
      * rewrite be_bench_units0. reflexivity.
      * rewrite be_bench_invested0. reflexivity.
      * rewrite Hc. exact Htu.
      * rewrite Hc, Hta. reflexivity.
      * exact Hok.
  - intros s0 s1 b H Hok. apply bid_block_inv in H.
    destruct H as [[_ ->]|(_ & _ & _ & dp & u & _ & Hb)]; [exact Hok|].
    apply bid_buy_effect in Hb. destruct Hb.
    destruct be_log0 as (t & Ht & (_ & Htt & _)).
    assert (Hc : is_contribution t = false)
      by (unfold is_contribution; rewrite Htt; reflexivity).
    eapply (bench_ok_step s0 s1 t 0 0); try eassumption.
    + rewrite be_bench_units0. lia.
    + rewrite be_bench_invested0. ring.
    + rewrite Hc. reflexivity.
    + rewrite Hc. reflexivity.
  - intros s0 s1 H Hok. apply sell_block_inv in H.
    destruct H as [->|(_ & pv & u & _ & _ & _ & Hb)]; [exact Hok|].
    apply sell_spec in Hb. destruct Hb.
    destruct se_log0 as (t & Ht & (_ & Htt & _) & _).
    assert (Hc : is_contribution t = false)
      by (unfold is_contribution; rewrite Htt; reflexivity).
    eapply (bench_ok_step s0 s1 t 0 0); try eassumption.
    + rewrite se_bench_units0. lia.
    + rewrite se_bench_invested0. ring.
    + rewrite Hc. reflexivity.
    + rewrite Hc. reflexivity.
  - intros s0 Hok.
    destruct (record_history_effect (date row) (close row) s0).
    apply (bench_ok_same s0); assumption.
Qed.

(** ** A sample run with every kind of action *)

(** A first record, a contribution at 100, a dip to 97 (dip-buy), a rise
    to 120 (sale), and the next month's contribution. *)
Definition sample_rows : list Row :=
  [ mkRow (mkDate 2020 1 1) 100;
    mkRow (mkDate 2020 2 3) 100;
    mkRow (mkDate 2020 2 4) 97;
    mkRow (mkDate 2020 2 5) 120;
    mkRow (mkDate 2020 3 2) 120 ].

Definition sample_state : State :=
  Eval vm_compute in
    match run_fresh default_config sample_rows with
    | Some s => s
    | None => init default_config
    end.

Example sample_log :
  map (fun t => (t_type t, t_units t, Qred (t_amount t)))
    (transactions sample_state)
  = [ (SIP, 1000%Z, 100000); (BID 1, 515%Z, 49955);
      (SELL, (-84)%Z, 10080); (SIP, 833%Z, 99960) ].
Proof. reflexivity. Qed.

(** ** X1-X6: what the final state owes to the log *)

(** X1.  After a fresh run the units held are the signed unit counts of
    the logged transactions added up. *)
Theorem units_match_log cfg data s :
  run_fresh cfg data = Some s ->
  total_units s = sum_units (transactions s).
Proof. intros H. apply run_fresh_books in H. apply H. Qed.

Lemma units_match_log_witness :
  total_units sample_state = sum_units (transactions sample_state).
Proof.
  apply (units_match_log default_config sample_rows).
  vm_compute. reflexivity.
Defined.

(** X2.  After a fresh run [bia] is the total amount of the logged
    purchases (lumpsum, contributions, dip-buys): no sale lowers it. *)
Theorem bia_is_total_purchases cfg data s :
  run_fresh cfg data = Some s ->
  bia s == sum_amount is_purchase (transactions s).
Proof. intros H. apply run_fresh_books in H. apply H. Qed.

Lemma bia_is_total_purchases_witness :
  bia sample_state == sum_amount is_purchase (transactions sample_state).
Proof.
  apply (bia_is_total_purchases default_config sample_rows).
  vm_compute. reflexivity.
Defined.

(** X4.  After a fresh run the monthly ledger holds, under each
    year-month key, the total amount of the sales logged in that month
    (0 for a month without sales). *)
Theorem ledger_is_monthly_sales cfg data s :
  run_fresh cfg data = Some s ->
  forall k,
    dict_get (monthly_profits s) k
    == sum_amount (is_sale_in k) (transactions s).
Proof. intros H. apply run_fresh_books in H. apply H. Qed.

Lemma ledger_is_monthly_sales_witness :
  dict_get (monthly_profits sample_state) (2020, 2)%Z
  == sum_amount (is_sale_in (2020, 2)%Z) (transactions sample_state).
Proof.
  apply (ledger_is_monthly_sales default_config sample_rows).
  vm_compute. reflexivity.
Defined.

(** X5.  After a fresh run [bids_executed_count] is the number of dip-buy
    transactions in the log. *)
Theorem bids_count_matches_log cfg data s :
  run_fresh cfg data = Some s ->
  bids_executed_count s
  = Z.of_nat (length (filter is_bid (transactions s))).
Proof. intros H. apply run_fresh_books in H. apply H. Qed.

Lemma bids_count_matches_log_witness :
  bids_executed_count sample_state
  = Z.of_nat (length (filter is_bid (transactions sample_state))).
Proof.
  apply (bids_count_matches_log default_config sample_rows).
  vm_compute. reflexivity.
Defined.

(** X6.  After a fresh run the benchmark holds exactly the units, and has
    invested exactly the amounts, of the logged lumpsum and contribution
    transactions: it buys what the strategy buys on those occasions and
    nothing on a dip-buy or a sale. *)
Theorem benchmark_mirrors_contributions cfg data s :
  run_fresh cfg data = Some s ->
  benchmark_units s = sum_units (filter is_contribution (transactions s)) /\
  benchmark_invested s == sum_amount is_contribution (transactions s).
Proof.
  intros H. apply run_fresh_inv in H. destruct H as (pm & H).
  eapply (run_loop_preserves cfg bench_ok (fun _ => True)).
  - intros i row s0 pm0 s1 pm1 _. apply run_day_bench_ok.
  - apply Forall_forall. intros. exact I.
  - exact H.
  - split; cbn; reflexivity.
Qed.

Lemma benchmark_mirrors_contributions_witness :
  benchmark_units sample_state
  = sum_units (filter is_contribution (transactions sample_state)) /\
  benchmark_invested sample_state
  == sum_amount is_contribution (transactions sample_state).
Proof.
  apply (benchmark_mirrors_contributions default_config sample_rows).
  vm_compute. reflexivity.
Defined.

(** ** What is logged, and when *)

(** A dip-buy executes only from a state that holds units, at a stage
    below 10, when the drop from the average price reaches the next
    stage's trigger; it buys the floor of that stage's budget. *)
Lemma bid_block_cases cfg date price s s' :
  bid_block cfg date price s = Some (s', true) ->
  let k := (current_bid_stage s + 1)%Z in
  let drop_pct := (pap s - price) / pap s in
  let units := Py.int (inject_Z k * (bid_multiplier cfg * base_sip cfg) / price) in
  (0 < total_units s)%Z /\ (current_bid_stage s < 10)%Z /\
  ~ pap s == 0 /\ ~ price == 0 /\
  inject_Z k * bid_trigger_drop cfg <= drop_pct /\
  (0 < units)%Z /\
  bid_buy date price drop_pct k units s = Some s'.
Proof.
  unfold bid_block. intros H.
  destruct (Z_lt_le_dec 0 (total_units s)) as [Hu|Hu]; [|discriminate H].
  apply bind_inv in H. destruct H as (dp & Hdp & H).
  apply div_inv in Hdp. destruct Hdp as [Hpap ->]. cbv beta zeta in H.
  unfold bid_factor in H.
  destruct (Z_lt_le_dec (current_bid_stage s) 10) as [Hst|Hst].
  - destruct (Qlt_le_dec _ _) as [Hd|Hd].
    + destruct (Z_lt_le_dec 0 0) as [H0|H0]; [lia | discriminate H].
    + destruct (Z_lt_le_dec 0 (current_bid_stage s + 1)) as [Hk|Hk];
        [|discriminate H].
      apply bind_inv in H. destruct H as (q & Hq & H).
      apply div_inv in Hq. destruct Hq as [Hnz ->]. cbv beta zeta in H.
      destruct (Z_lt_le_dec 0 _) as [Hq0|Hq0]; [|discriminate H].
      apply bind_inv in H. destruct H as (s2 & Hs2 & H).
      injection H as <-.
      cbv zeta. repeat split; assumption.
  - destruct (Z_lt_le_dec 0 0) as [H0|H0]; [lia | discriminate H].
Qed.

(** A logged purchase of [units] units on [row]: dated and priced as the
    row, a positive unit count, and units times price as amount. *)
Definition buys (row : Row) (units : Z) (t : Transaction) : Prop :=
  t_date t = date row /\ t_price t = close row /\
  t_units t = units /\ (0 < units)%Z /\
  t_amount t = inject_Z units * close row.

(** The lumpsum entry of the first row. *)
Definition lumpsum_entry (cfg : Config) (row : Row) (t : Transaction)
  : Prop :=
  t_type t = LUMPSUM /\
  0 < initial_lumpsum cfg /\
  buys row (Py.int (initial_lumpsum cfg / close row)) t.

(** The entry of the day's one action: the contribution on a contribution
    day; otherwise a dip-buy at some multiplier [k] between 1 and 10, or a
    sale, logged with a negative unit count. *)
Inductive action_entry (cfg : Config) (row : Row) (pm : option Z)
    (t : Transaction) : Prop :=
| sip_entry :
    is_sip_day pm (month (date row)) = true ->
    t_type t = SIP ->
    buys row (Py.int (base_sip cfg / close row)) t ->
    action_entry cfg row pm t
| bid_entry k :
    is_sip_day pm (month (date row)) = false ->
    t_type t = BID k -> (1 <= k <= 10)%Z ->
    buys row
      (Py.int (inject_Z k * (bid_multiplier cfg * base_sip cfg) / close row))
      t ->
    action_entry cfg row pm t
| sell_entry units :
    is_sip_day pm (month (date row)) = false ->
    t_type t = SELL ->
    t_date t = date row -> t_price t = close row ->
    (0 < units)%Z -> t_units t = (- units)%Z ->
    t_amount t = inject_Z units * close row ->
    action_entry cfg row pm t.

(** The transactions one day may append, in order: on the first row a
    lumpsum, then at most one action. *)
Inductive day_log (cfg : Config) (i : nat) (row : Row) (pm : option Z)
  : list Transaction -> Prop :=
| day_log_nil : day_log cfg i row pm []
| day_log_action t : action_entry cfg row pm t -> day_log cfg i row pm [t]
| day_log_lumpsum t :
    i = 0%nat -> lumpsum_entry cfg row t -> day_log cfg i row pm [t]
| day_log_both t t' :
    i = 0%nat -> lumpsum_entry cfg row t -> action_entry cfg row pm t' ->
    day_log cfg i row pm [t; t'].

Lemma logged_buys row type units s t :
  (0 < units)%Z ->
  logged (date row) type units (close row) (inject_Z units * close row) s t ->
  t_type t = type /\ buys row units t.
Proof.
  intros Hu (Hd & Hty & Htu & Hp & Ha & _). unfold buys. auto 10.
Qed.

Lemma lumpsum_block_log cfg i row s s1 :
  lumpsum_block cfg i (date row) (close row) s = Some s1 ->
  current_bid_stage s1 = current_bid_stage s /\
  (transactions s1 = transactions s \/
   (i = 0%nat /\
    exists t, transactions s1 = transactions s ++ [t]
              /\ lumpsum_entry cfg row t)).
Proof.
  intros H. apply lumpsum_block_inv in H.
  destruct H as [[-> _]|(Hi & Hl & _ & Hu & Hb)]; [auto|].
  apply lumpsum_buy_effect in Hb. destruct Hb.
  split; [exact be_stage0|]. right. split; [exact Hi|].
  destruct be_log0 as (t & Ht & Hlog). exists t. split; [exact Ht|].
  destruct (logged_buys row _ _ _ _ Hu Hlog) as [Hty Hb].
  unfold lumpsum_entry. auto.
Qed.

Lemma action_log cfg row pm s1 s2 :
  (0 <= current_bid_stage s1)%Z ->
  (is_sip_day pm (month (date row)) = true /\
   sip_block cfg (date row) (close row) s1 = Some s2) \/
  (is_sip_day pm (month (date row)) = false /\
   bid_block cfg (date row) (close row) s1 = Some (s2, true)) \/
  (is_sip_day pm (month (date row)) = false /\
   bid_block cfg (date row) (close row) s1 = Some (s1, false) /\
   sell_block cfg (date row) (close row) s1 = Some s2) ->
  transactions s2 = transactions s1 \/
  exists t, transactions s2 = transactions s1 ++ [t]
            /\ action_entry cfg row pm t.
Proof.
  intros Hst [[Hday H]|[[Hday H]|(Hday & _ & H)]].
  - apply sip_block_cases in H. destruct H as (_ & [[_ ->]|[Hu Hb]]).
    + left. reflexivity.
    + right. apply sip_buy_effect in Hb. destruct Hb.
      destruct be_log0 as (t & Ht & Hlog). exists t. split; [exact Ht|].
      destruct (logged_buys row _ _ _ _ Hu Hlog) as [Hty Hb].
      apply sip_entry; assumption.
  - right. apply bid_block_cases in H. cbv zeta in H.
    destruct H as (_ & Hlt & _ & _ & _ & Hu & Hb).
    apply bid_buy_effect in Hb. destruct Hb.
    destruct be_log0 as (t & Ht & Hlog). exists t. split; [exact Ht|].
    destruct (logged_buys row _ _ _ _ Hu Hlog) as [Hty Hb].
    eapply bid_entry; [exact Hday | exact Hty | lia | exact Hb].
  - apply sell_block_inv in H.
    destruct H as [->|(_ & pv & u & Hu & _ & _ & Hb)]; [left; reflexivity|].
    right. apply sell_spec in Hb. destruct Hb.
    destruct se_log0 as (t & Ht & (Hd & Hty & Htu & Hp & Ha & _) & _).
    exists t. split; [exact Ht|].
    eapply (sell_entry cfg row pm t u); try assumption. lia.
Qed.

(** X7.  Over one day of a fresh run the log grows by at most a lumpsum
    entry (first row only) followed by at most one action entry.  On a
    contribution day the action can only be the contribution; on any other
    day only a dip-buy at a multiplier from 1 to 10, or a sale.  Every
    entry is dated and priced as the row, with units times price as its
    amount. *)
Theorem one_action_per_day cfg pre row s pm s' pm' :
  run_loop cfg 0 pre (init cfg, None) = Some (s, pm) ->
  run_day cfg (length pre) row (s, pm) = Some (s', pm') ->
  exists new,
    transactions s' = transactions s ++ new /\
    day_log cfg (length pre) row pm new.
Proof.
  intros Hpre Hday.
  assert (Hst : stage_in_range s).
  { eapply run_loop_stage_in_range; [exact Hpre|].
    unfold stage_in_range. cbn. lia. }
  apply run_day_inv in Hday.
  destruct Hday as (_ & s1 & s2 & Hl & -> & Hcase).
  apply lumpsum_block_log in Hl. destruct Hl as [Hst1 Hl].
  apply action_log in Hcase; [|rewrite Hst1; apply Hst].
  destruct (record_history_effect (date row) (close row) s2).
  rewrite re_log0.
  destruct Hl as [Hl|(Hi & t & Hl & Hle)];
    destruct Hcase as [Ha|(t' & Ha & Hae)]; rewrite Ha, Hl.
  - exists []. rewrite app_nil_r. split; [reflexivity | constructor].
  - exists [t']. split; [reflexivity|]. apply day_log_action. exact Hae.
  - exists [t]. split; [reflexivity|]. apply day_log_lumpsum; assumption.
  - exists [t; t']. rewrite <- app_assoc. split; [reflexivity|].
    apply day_log_both; assumption.
Qed.

Lemma one_action_per_day_witness :
  exists new,
    transactions (fst after_dip) = transactions (fst before_dip) ++ new /\
    day_log default_config 2 dip_day (snd before_dip) new.
Proof.
  refine (one_action_per_day default_config dip_rows dip_day
            (fst before_dip) (snd before_dip)
            (fst after_dip) (snd after_dip) _ _);
    vm_compute; reflexivity.
Defined.

(** ** The history mirrors the input *)

(** The fields of a history record that are computed from the others. *)
Definition record_consistent (h : HistoryRecord) : Prop :=
  h_portfolio_value h = inject_Z (h_units h) * h_price h /\
  h_total_equity h = h_portfolio_value h + h_profit_reserve h.

Lemma run_day_snapshot cfg i row s pm s' pm' :
  run_day cfg i row (s, pm) = Some (s', pm') ->
  exists s2,
    portfolio_history s' = portfolio_history s ++ [snapshot (date row) (close row) s2].
Proof.
  intros H.
  destruct (run_day_history _ _ _ _ _ _ _ H) as (h & Hh & _).
  apply run_day_inv in H. destruct H as (_ & s1 & s2 & _ & -> & _).
  destruct (record_history_effect (date row) (close row) s2).
  exists s2. rewrite re_history0 in Hh.
  apply app_inj_tail in Hh. destruct Hh as [Heq <-].
  rewrite re_history0, Heq. reflexivity.
Qed.

Lemma run_loop_mirrors cfg data : forall i s pm s' pm',
  run_loop cfg i data (s, pm) = Some (s', pm') ->
  exists hs,
    portfolio_history s' = portfolio_history s ++ hs /\
    map (fun h => (h_date h, h_price h)) hs
    = map (fun row => (date row, close row)) data /\
    Forall record_consistent hs.
Proof.
  induction data as [|row rest IH]; intros i s pm s' pm' H; cbn [run_loop] in H.
  - some_inv. exists []. rewrite app_nil_r. repeat split. constructor.
  - apply bind_inv in H. destruct H as ([s1 pm1] & Hday & H).
    destruct (run_day_snapshot _ _ _ _ _ _ _ Hday) as (s2 & Hh).
    destruct (IH _ _ _ _ _ H) as (hs & Hhs & Hmap & Hcons).
    exists (snapshot (date row) (close row) s2 :: hs).
    split; [|split].
    + rewrite Hhs, Hh, <- app_assoc. reflexivity.
    + cbn [map snapshot h_date h_price]. rewrite Hmap. reflexivity.
    + constructor; [|exact Hcons]. split; reflexivity.
Qed.

(** X8.  After a fresh run the history has one record per input row, in
    order, carrying that row's date and price; in every record the
    portfolio value is units times price and the total equity is the
    portfolio value plus the reserve. *)
Theorem history_mirrors_input cfg data s :
  run_fresh cfg data = Some s ->
  map (fun h => (h_date h, h_price h)) (portfolio_history s)
  = map (fun row => (date row, close row)) data /\
  Forall record_consistent (portfolio_history s).
Proof.
  intros H. apply run_fresh_inv in H. destruct H as (pm & H).
  destruct (run_loop_mirrors _ _ _ _ _ _ _ H) as (hs & Hh & Hmap & Hcons).
  cbn [init portfolio_history app] in Hh. rewrite Hh. auto.
Qed.

Lemma history_mirrors_input_witness :
  map (fun h => (h_date h, h_price h)) (portfolio_history sample_state)
  = map (fun row => (date row, close row)) sample_rows /\
  Forall record_consistent (portfolio_history sample_state).
Proof.
  apply (history_mirrors_input default_config sample_rows).
  vm_compute. reflexivity.
Defined.

(** ** Nothing written is rewritten *)

(** [x] extends [s]: the log and the history of [s] are prefixes of those
    of [x], a set [initial_breakeven_date] or [has_invested] stays as it
    is, and the high-water mark has not gone down. *)
Record extends (s x : State) : Prop := {
  ex_log : exists more, transactions x = transactions s ++ more;
  ex_history : exists more, portfolio_history x = portfolio_history s ++ more;
  ex_initial : forall d,
    initial_breakeven_date s = Some d -> initial_breakeven_date x = Some d;
  ex_has : has_invested s = true -> has_invested x = true;
  ex_max : max_actual_invested s <= max_actual_invested x
}.

Lemma extends_refl s : extends s s.
Proof.
  constructor; auto; try (exists []; rewrite app_nil_r; reflexivity).
  apply Qle_refl.
Qed.

Lemma extends_step s x y more hmore :
  transactions y = transactions x ++ more ->
  portfolio_history y = portfolio_history x ++ hmore ->
  (forall d, initial_breakeven_date x = Some d ->
             initial_breakeven_date y = Some d) ->
  (has_invested x = true -> has_invested y = true) ->
  max_actual_invested x <= max_actual_invested y ->
  extends s x -> extends s y.
Proof.
  intros Ht Hh Hi Hhas Hmax [(l & Hl) (l' & Hl') Hi0 Hhas0 Hmax0].
  constructor.
  - exists (l ++ more). rewrite Ht, Hl, app_assoc. reflexivity.
  - exists (l' ++ hmore). rewrite Hh, Hl', app_assoc. reflexivity.
  - auto.
  - auto.
  - eapply Qle_trans; eassumption.
Qed.

Lemma buy_extends type date units price s x y :
  buy_effect type date units price x y -> buy_extra type date x y ->
  extends s x -> extends s y.
Proof.
  intros He Hx. destruct He, Hx.
  destruct be_log0 as (t & Ht & _).
  apply (extends_step s x y [t] []); auto.
  - rewrite app_nil_r. assumption.
  - rewrite bx_initial0. auto.
  - destruct bx_fresh0 as [(_ & -> & _)|(-> & _)]; auto.
  - destruct bx_fresh0 as [(_ & _ & -> & _)|(_ & _ & -> & _)];
      [apply Qle_refl|].
    destruct (Qlt_le_dec _ _) as [Hlt|Hle];
      [apply Qlt_le_weak; exact Hlt | apply Qle_refl].
Qed.

Lemma run_day_extends cfg i row s0 s pm s' pm' :
  run_day cfg i row (s, pm) = Some (s', pm') -> extends s0 s -> extends s0 s'.
Proof.
  apply (run_day_preserves cfg i row (extends s0)).
  - intros x y _ _ _ Hb.
    eapply buy_extends; [eapply lumpsum_buy_effect | eapply lumpsum_buy_extra];
      exact Hb.
  - intros x y Hb.
    pose proof (benchmark_sip_core _ _ _ _ Hb) as Hc. cbv zeta in Hc.
    pose proof (benchmark_sip_rest _ _ _ _ Hb) as Hr. cbv zeta in Hr.
    destruct Hc as (_ & _ & _ & _ & _ & _ & Ht & Hh).
    destruct Hr as (_ & _ & Hhas & Hmax & _ & Hi & _).
    apply (extends_step s0 x _ [] []).
    + rewrite app_nil_r. exact Ht.
    + rewrite app_nil_r. exact Hh.
    + rewrite Hi. auto.
    + rewrite Hhas. auto.
    + rewrite Hmax. apply Qle_refl.
  - intros u x y _ Hb.
    eapply buy_extends; [eapply sip_buy_effect | eapply sip_buy_extra];
      exact Hb.
  - intros dp u x y _ _ Hb.
    eapply buy_extends; [eapply bid_buy_effect | eapply bid_buy_extra];
      exact Hb.
  - intros pv u x y _ Hb.
    pose proof (sell_spec _ _ _ _ _ _ Hb) as [].
    pose proof (sell_extra_spec _ _ _ _ _ _ Hb) as [].
    destruct se_log0 as (t & Ht & _).
    apply (extends_step s0 x y [t] []); auto.
    + rewrite app_nil_r. assumption.
    + rewrite sx_initial0. auto.
    + rewrite sx_has0. auto.
    + rewrite sx_max0. apply Qle_refl.
  - intros x.
    destruct (record_history_effect (date row) (close row) x).
    destruct (record_history_extra (date row) (close row) x).
    apply (extends_step s0 x _ [] [snapshot (date row) (close row) x]).
    + rewrite app_nil_r. assumption.
    + assumption.
    + intros d Hd. rewrite rx_initial0, Hd. reflexivity.
    + rewrite rx_has0. auto.
    + rewrite rx_max0. apply Qle_refl.
Qed.

(** X9.  A fresh run over [pre ++ post] passes through the state of the
    run over [pre], and only adds to it: the log and the history after
    [pre] are prefixes of the final ones (the history grown by one record
    per row of [post]), a set [initial_breakeven_date] or [has_invested]
    is kept, and [max_actual_invested] has not gone down. *)
Theorem run_only_appends cfg pre post s :
  run_fresh cfg (pre ++ post) = Some s ->
  exists sp,
    run_fresh cfg pre = Some sp /\
    (exists more, transactions s = transactions sp ++ more) /\
    (exists more,
       portfolio_history s = portfolio_history sp ++ more
       /\ length more = length post) /\
    (forall d, initial_breakeven_date sp = Some d ->
               initial_breakeven_date s = Some d) /\
    (has_invested sp = true -> has_invested s = true) /\
    max_actual_invested sp <= max_actual_invested s.
Proof.
  intros H. apply run_fresh_inv in H. destruct H as (pm & H).
  rewrite run_loop_app in H.
  apply bind_inv in H. destruct H as ([sp pmp] & Hpre & Hpost).
  exists sp. split; [eapply run_fresh_of_loop; exact Hpre|].
  assert (He : extends sp s).
  { eapply (run_loop_preserves cfg (extends sp) (fun _ => True)).
    - intros i row x pm0 y pm1 _. apply run_day_extends.
    - apply Forall_forall. intros. exact I.
    - exact Hpost.
    - apply extends_refl. }
  destruct He.
  destruct (run_loop_history _ _ _ _ _ _ _ Hpost) as (hs & Hh & Hlen & _).
  repeat split; try assumption.
  exists hs. auto.
Qed.

Lemma run_only_appends_witness :
  exists sp,
    run_fresh default_config (firstn 2 sample_rows) = Some sp /\
    (exists more, transactions sample_state = transactions sp ++ more).
Proof.
  destruct (run_only_appends default_config (firstn 2 sample_rows)
              (skipn 2 sample_rows) sample_state)
    as (sp & Hsp & Hlog & _).
  - vm_compute. reflexivity.
  - exists sp. auto.
Defined.

(** ** The high-water mark *)

Record high_water (s : State) : Prop := {
  hw_now : actual_invested s <= max_actual_invested s;
  hw_history :
    Forall (fun h => h_actual_invested h <= max_actual_invested s)
      (portfolio_history s);
  hw_log :
    Forall (fun t => t_actual_invested t <= max_actual_invested s)
      (transactions s);
  hw_attained :
    match max_actual_invested_date s with
    | None => max_actual_invested s = 0
    | Some d =>
        exists t,
          In t (transactions s) /\ t_date t = d /\
          t_actual_invested t = max_actual_invested s
    end;
  hw_invested : has_invested s = true <-> 0 < max_actual_invested s
}.

Lemma Forall_le_trans {A} (f : A -> Q) m m' l :
  m <= m' -> Forall (fun a => f a <= m) l -> Forall (fun a => f a <= m') l.
Proof.
  intros Hm H. eapply Forall_impl; [|exact H].
  intros a Ha. cbv beta in *. eapply Qle_trans; eassumption.
Qed.

Lemma buy_high_water type date units price s s' :
  (0 < units)%Z -> 0 < price -> type <> SELL ->
  buy_effect type date units price s s' -> buy_extra type date s s' ->
  sound s -> high_water s -> high_water s'.
Proof.
  intros Hu Hp Hty He Hx Hs [].
  pose proof (cost_pos _ _ Hu Hp) as Hc.
  pose proof (sd_invested s Hs) as Hai.
  destruct He, Hx.
  destruct be_log0 as (t & Ht & (Htd & _ & _ & _ & _ & _ & _ & _ & Hta & _)).
  destruct bx_fresh0 as [(Ea & Eh & Em & Ed)|(Eh & Hgrow & Em & Ed)].
  - (* no fresh capital *)
    constructor; rewrite ?Ea, ?Em, ?Ed, ?Eh, ?be_history0; try assumption.
    + rewrite Ht. apply Forall_app. split; [assumption|].
      constructor; [|constructor]. rewrite Hta, Ea. assumption.
    + destruct (max_actual_invested_date s); [|assumption].
      destruct hw_attained0 as (t0 & Hin & Hd0 & Ht0).
      exists t0. rewrite Ht. split; [apply in_or_app; left; exact Hin | auto].
  - (* fresh capital drawn *)
    assert (Hpos : 0 < actual_invested s').
    { destruct Hgrow as [->|Hlt]; [rewrite be_invested0|]; lra. }
    destruct (Qlt_le_dec (max_actual_invested s) (actual_invested s'))
      as [Hlt|Hle].
    + assert (Hm : max_actual_invested s <= max_actual_invested s')
        by (rewrite Em; apply Qlt_le_weak; exact Hlt).
      constructor; rewrite ?be_history0.
      * rewrite Em. apply Qle_refl.
      * eapply Forall_le_trans; eassumption.
      * rewrite Ht. apply Forall_app. split.
        -- eapply Forall_le_trans; eassumption.
        -- constructor; [|constructor]. rewrite Hta, Em. apply Qle_refl.
      * rewrite Ed. exists t. rewrite Ht.
        split; [apply in_or_app; right; left; reflexivity|].
        split; [exact Htd | rewrite Hta, Em; reflexivity].
      * rewrite Eh, Em. split; auto.
    + constructor; rewrite ?be_history0, ?Em, ?Ed.
      * exact Hle.
      * assumption.
      * rewrite Ht. apply Forall_app. split; [assumption|].
        constructor; [|constructor]. rewrite Hta. exact Hle.
      * destruct (max_actual_invested_date s).
        -- destruct hw_attained0 as (t0 & Hin & Hd0 & Ht0).
           exists t0. rewrite Ht.
           split; [apply in_or_app; left; exact Hin | auto].
        -- exfalso. rewrite hw_attained0 in Hle. lra.
      * rewrite Eh. split; [|reflexivity]. intros _. lra.
Qed.

Lemma sell_high_water date units price s s' :
  (0 < units)%Z -> 0 < price ->
  sell_effect date units price s s' -> sell_extra date units price s s' ->
  sound s -> high_water s -> high_water s'.
Proof.
  intros Hu Hp He Hx Hs [].
  pose proof (cost_pos _ _ Hu Hp) as Hc.
  pose proof (sd_invested s Hs) as Hai.
  destruct He, Hx.
  destruct se_log0 as (t & Ht & (_ & _ & _ & _ & _ & _ & _ & _ & Hta & _) & _).
  assert (Hle : actual_invested s' <= max_actual_invested s).
  { rewrite se_invested0.
    destruct (Q.min_spec (inject_Z units * price) (actual_invested s))
      as [[? E]|[? E]]; lra. }
  constructor; rewrite ?sx_max0, ?sx_max_date0, ?sx_has0, ?se_history0;
    try assumption.
  - rewrite Ht. apply Forall_app. split; [assumption|].
    constructor; [|constructor]. rewrite Hta. exact Hle.
  - destruct (max_actual_invested_date s); [|assumption].
    destruct hw_attained0 as (t0 & Hin & Hd0 & Ht0).
    exists t0. rewrite Ht. split; [apply in_or_app; left; exact Hin | auto].
Qed.

Lemma init_high_water cfg : high_water (init cfg).
Proof.
  constructor; cbn; try constructor; try lra; try reflexivity.
Qed.

Lemma run_day_high_water cfg i row s pm s' pm' :
  0 < close row ->
  run_day cfg i row (s, pm) = Some (s', pm') ->
  sound s /\ high_water s -> sound s' /\ high_water s'.
Proof.
  intros Hp.
  apply (run_day_preserves cfg i row (fun x => sound x /\ high_water x)).
  - intros x y _ _ Hu Hb [Hs Hw].
    pose proof (lumpsum_buy_effect _ _ _ _ _ Hb) as He.
    split; [eapply buy_sound; eassumption|].
    eapply buy_high_water; try eassumption; [discriminate|].
    eapply lumpsum_buy_extra; exact Hb.
  - intros x y Hb [Hs [Hn Hh Hl Ha Hi]].
    split; [eapply benchmark_sound; eassumption|].
    pose proof (benchmark_sip_core _ _ _ _ Hb) as Hc. cbv zeta in Hc.
    pose proof (benchmark_sip_rest _ _ _ _ Hb) as Hr. cbv zeta in Hr.
    destruct Hc as (_ & _ & _ & _ & Eai & _ & Et & Eh).
    destruct Hr as (_ & _ & Ehas & Em & Ed & _).
    constructor; rewrite ?Eai, ?Em, ?Ed, ?Et, ?Eh, ?Ehas; assumption.
  - intros u x y Hu Hb [Hs Hw].
    pose proof (sip_buy_effect _ _ _ _ _ Hb) as He.
    split; [eapply buy_sound; eassumption|].
    eapply buy_high_water; try eassumption; [discriminate|].
    eapply sip_buy_extra; exact Hb.
  - intros dp u x y Hu _ Hb [Hs Hw].
    pose proof (bid_buy_effect _ _ _ _ _ _ _ Hb) as He.
    split; [eapply buy_sound; eassumption|].
    eapply buy_high_water; try eassumption; [discriminate|].
    eapply bid_buy_extra; exact Hb.
  - intros pv u x y Hu Hb [Hs Hw].
    pose proof (sell_spec _ _ _ _ _ _ Hb) as He.
    split; [eapply sell_sound; eassumption|].
    apply (sell_high_water (date row) u (close row) x y);
      [ lia | exact Hp | exact He | eapply sell_extra_spec; exact Hb
      | exact Hs | exact Hw ].
  - intros x [Hs [Hn Hh Hl Ha Hi]].
    split; [apply record_sound; exact Hs|].
    destruct (record_history_effect (date row) (close row) x).
    destruct (record_history_extra (date row) (close row) x).
    constructor;
      rewrite ?re_invested0, ?rx_max0, ?rx_max_date0, ?rx_has0, ?re_log0;
      try assumption.
    rewrite re_history0. apply Forall_app. split; [assumption|].
    constructor; [|constructor]. exact Hn.
Qed.

(** X10.  On input with positive prices, after a fresh run
    [max_actual_invested] bounds [actual_invested] now and in every
    history record and transaction; it is 0 with no date while nothing was
    invested, and otherwise [max_actual_invested_date] is the date of a
    logged transaction whose snapshot of [actual_invested] is the mark;
    [has_invested] is set exactly when the mark is positive. *)
Theorem high_water_mark cfg data s :
  positive_prices data ->
  run_fresh cfg data = Some s ->
  actual_invested s <= max_actual_invested s /\
  Forall (fun h => h_actual_invested h <= max_actual_invested s)
    (portfolio_history s) /\
  Forall (fun t => t_actual_invested t <= max_actual_invested s)
    (transactions s) /\
  match max_actual_invested_date s with
  | None => max_actual_invested s = 0
  | Some d =>
      exists t,
        In t (transactions s) /\ t_date t = d /\
        t_actual_invested t = max_actual_invested s
  end /\
  (has_invested s = true <-> 0 < max_actual_invested s).
Proof.
  intros Hpos H. apply run_fresh_inv in H. destruct H as (pm & H).
  assert (Hw : sound s /\ high_water s).
  { eapply (run_loop_preserves cfg (fun x => sound x /\ high_water x)
              (fun row => 0 < close row)).
    - intros i row x pm0 y pm1 Hp. apply run_day_high_water. exact Hp.
    - exact Hpos.
    - exact H.
    - split; [apply init_sound | apply init_high_water]. }
  destruct Hw as [_ []]. auto.
Qed.

Lemma high_water_mark_witness :
  actual_invested sample_state <= max_actual_invested sample_state /\
  (has_invested sample_state = true <-> 0 < max_actual_invested sample_state).
Proof.
  destruct (high_water_mark default_config sample_rows sample_state)
    as (H1 & _ & _ & _ & H5).
  - repeat constructor.
  - vm_compute. reflexivity.
  - split; assumption.
Defined.

(** ** The initial breakeven date *)

Definition initial_ok (s : State) : Prop :=
  forall d,
    initial_breakeven_date s = Some d ->
    has_invested s = true /\
    exists h,
      In h (portfolio_history s) /\ h_date h = d /\
      h_actual_invested h <= 0.

Lemma initial_ok_keep s s' :
  initial_breakeven_date s' = initial_breakeven_date s ->
  (has_invested s = true -> has_invested s' = true) ->
  portfolio_history s' = portfolio_history s ->
  initial_ok s -> initial_ok s'.
Proof.
  unfold initial_ok. intros Ei Eh Ep H d Hd. rewrite Ei in Hd.
  destruct (H d Hd) as (Hhas & h & Hin & Hh). rewrite Ep. eauto.
Qed.

Lemma buy_initial_ok type date units price s s' :
  buy_effect type date units price s s' -> buy_extra type date s s' ->
  initial_ok s -> initial_ok s'.
Proof.
  intros [] []. apply initial_ok_keep; try assumption.
  destruct bx_fresh0 as [(_ & -> & _)|(-> & _)]; auto.
Qed.

Lemma run_day_initial_ok cfg i row s pm s' pm' :
  run_day cfg i row (s, pm) = Some (s', pm') -> initial_ok s -> initial_ok s'.
Proof.
  apply (run_day_preserves cfg i row initial_ok).
  - intros x y _ _ _ Hb.
    eapply buy_initial_ok;
      [eapply lumpsum_buy_effect | eapply lumpsum_buy_extra]; exact Hb.
  - intros x y Hb.
    pose proof (benchmark_sip_core _ _ _ _ Hb) as Hc. cbv zeta in Hc.
    pose proof (benchmark_sip_rest _ _ _ _ Hb) as Hr. cbv zeta in Hr.
    destruct Hc as (_ & _ & _ & _ & _ & _ & _ & Eh).
    destruct Hr as (_ & _ & Ehas & _ & _ & Ei & _).
    apply initial_ok_keep; try assumption. rewrite Ehas. auto.
  - intros u x y _ Hb.
    eapply buy_initial_ok; [eapply sip_buy_effect | eapply sip_buy_extra];
      exact Hb.
  - intros dp u x y _ _ Hb.
    eapply buy_initial_ok; [eapply bid_buy_effect | eapply bid_buy_extra];
      exact Hb.
  - intros pv u x y _ Hb.
    pose proof (sell_spec _ _ _ _ _ _ Hb) as [].
    pose proof (sell_extra_spec _ _ _ _ _ _ Hb) as [].
    apply initial_ok_keep; try assumption. rewrite sx_has0. auto.
  - intros x Hx d Hd.
    destruct (record_history_effect (date row) (close row) x).
    destruct (record_history_extra (date row) (close row) x).
    rewrite rx_initial0 in Hd. rewrite rx_has0, re_history0.
    destruct (initial_breakeven_date x) as [d0|] eqn:E0.
    + injection Hd as <-. destruct (Hx d0 E0) as (Hhas & h & Hin & Hh).
      split; [exact Hhas|]. exists h.
      split; [apply in_or_app; left; exact Hin | exact Hh].
    + destruct (has_invested x) eqn:Ehas; cbn [andb] in Hd;
        [|discriminate Hd].
      destruct (Qlt_le_dec 0 (actual_invested x)) as [Hlt|Hle];
        [discriminate Hd|].
      injection Hd as <-. split; [reflexivity|].
      exists (snapshot (date row) (close row) x).
      split; [apply in_or_app; right; left; reflexivity|].
      split; [reflexivity | exact Hle].
Qed.

(** X11.  If a fresh run ends with an initial breakeven date, then capital
    was invested at some point ([has_invested] is set) and the date is
    that of a history record in which [actual_invested] is not positive. *)
Theorem initial_breakeven_is_recorded cfg data s d :
  run_fresh cfg data = Some s ->
  initial_breakeven_date s = Some d ->
  has_invested s = true /\
  exists h,
    In h (portfolio_history s) /\ h_date h = d /\ h_actual_invested h <= 0.
Proof.
  intros H. apply run_fresh_inv in H. destruct H as (pm & H).
  revert d.
  eapply (run_loop_preserves cfg initial_ok (fun _ => True)).
  - intros i row x pm0 y pm1 _. apply run_day_initial_ok.
  - apply Forall_forall. intros. exact I.
  - exact H.
  - intros d Hd. discriminate Hd.
Qed.

(** A lumpsum of one unit at 100 is recovered in full by the first sale,
    at 20000 on the next day. *)
Definition recovery_config : Config := {|
  base_sip := 100;
  min_profit_booking_amount := 10000;
  bid_multiplier := 0.5;
  bid_trigger_drop := 0.02;
  initial_lumpsum := 100
|}.

Definition recovery_rows : list Row :=
  [ mkRow (mkDate 2020 1 1) 100;
    mkRow (mkDate 2020 1 2) 20000;
    mkRow (mkDate 2020 1 3) 20000 ].

Definition recovery_state : State :=
  Eval vm_compute in
    match run_fresh recovery_config recovery_rows with
    | Some s => s
    | None => init recovery_config
    end.

Lemma initial_breakeven_is_recorded_witness :
  has_invested recovery_state = true /\
  exists h,
    In h (portfolio_history recovery_state) /\
    h_date h = mkDate 2020 1 2 /\ h_actual_invested h <= 0.
Proof.
  apply (initial_breakeven_is_recorded recovery_config recovery_rows).
  - vm_compute. reflexivity.
  - reflexivity.
Defined.

(** ** The sustained breakeven date *)

Lemma date_ltb_irrefl a : date_ltb a a = false.
Proof.
  unfold date_ltb.
  rewrite !Z.ltb_irrefl, !Z.eqb_refl. reflexivity.
Qed.

Lemma date_ltb_lex a b :
  date_ltb a b = true <->
  (year a < year b \/
   (year a = year b /\
    (month a < month b \/ (month a = month b /\ day a < day b))))%Z.
Proof.
  unfold date_ltb.
  rewrite !orb_true_iff, !andb_true_iff, !orb_true_iff, !andb_true_iff,
    !Z.ltb_lt, !Z.eqb_eq.
  reflexivity.
Qed.

(** [b <= a < c] gives [b < c], for the order of [date_ltb]. *)
Lemma date_le_lt_trans a b c :
  date_ltb a b = false -> date_ltb a c = true -> date_ltb b c = true.
Proof.
  intros H1 H2.
  assert (H1' : ~ date_ltb a b = true) by (rewrite H1; discriminate).
  rewrite date_ltb_lex in H1', H2. apply date_ltb_lex. lia.
Qed.

(** Dates in list order never go back. *)
Fixpoint nondecreasing (dates : list Date) : Prop :=
  match dates with
  | [] => True
  | d :: rest =>
      Forall (fun d' => date_ltb d' d = false) rest /\ nondecreasing rest
  end.

Lemma nondecreasing_app l1 l2 :
  nondecreasing (l1 ++ l2) ->
  nondecreasing l1 /\ nondecreasing l2 /\
  forall a b, In a l1 -> In b l2 -> date_ltb b a = false.
Proof.
  induction l1 as [|d l1 IH]; cbn [app nondecreasing].
  - intros H. repeat split; [exact H|]. intros a b [].
  - intros [Hall Hrest]. apply Forall_app in Hall. destruct Hall as [H1 H2].
    destruct (IH Hrest) as (Hn1 & Hn2 & Hcross).
    repeat split; try assumption.
    intros a b [<-|Hin] Hb.
    + rewrite Forall_forall in H2. apply H2. exact Hb.
    + apply Hcross; assumption.
Qed.

Lemma last_positive_date_snoc l h :
  last_positive_date (l ++ [h]) =
  if Qlt_le_dec 1 (h_actual_invested h)
  then Some (h_date h)
  else last_positive_date l.
Proof. unfold last_positive_date. rewrite fold_left_app. reflexivity. Qed.

(** On a chronological history the first scan returns the latest date at
    which [actual_invested] exceeds the tolerance. *)
Lemma last_positive_date_spec history lpd :
  nondecreasing (map h_date history) ->
  last_positive_date history = Some lpd ->
  (exists h, In h history /\ h_date h = lpd /\ 1 < h_actual_invested h) /\
  (forall h, In h history -> 1 < h_actual_invested h ->
             date_ltb lpd (h_date h) = false).
Proof.
  revert lpd. induction history as [|h l IH] using rev_ind; intros lpd Hs H.
  - discriminate H.
  - rewrite last_positive_date_snoc in H.
    rewrite map_app in Hs. apply nondecreasing_app in Hs.
    destruct Hs as (Hl & _ & Hcross).
    destruct (Qlt_le_dec 1 (h_actual_invested h)) as [Hp|Hp].
    + injection H as <-. split.
      * exists h. split; [apply in_or_app; right; left; reflexivity | auto].
      * intros x Hin _. apply in_app_or in Hin.
        destruct Hin as [Hin|[<-|[]]]; [|apply date_ltb_irrefl].
        apply Hcross; [apply in_map; exact Hin | left; reflexivity].
    + destruct (IH lpd Hl H) as ((x & Hin & Hx) & Hall). split.
      * exists x. split; [apply in_or_app; left; exact Hin | exact Hx].
      * intros y Hy Hpos. apply in_app_or in Hy.
        destruct Hy as [Hy|[<-|[]]]; [apply Hall; assumption|].
        exfalso. apply (Qle_not_lt _ _ Hp Hpos).
Qed.

Lemma last_positive_date_some history :
  Exists (fun h => 1 < h_actual_invested h) history ->
  exists lpd, last_positive_date history = Some lpd.
Proof.
  induction history as [|h l IH] using rev_ind; intros H.
  - inversion H.
  - rewrite last_positive_date_snoc.
    destruct (Qlt_le_dec 1 (h_actual_invested h)) as [Hp|Hp]; [eauto|].
    apply IH. apply Exists_app in H. destruct H as [H|H]; [exact H|].
    inversion H as [? ? Hh|? ? Hh]; subst.
    + exfalso. apply (Qle_not_lt _ _ Hp Hh).
    + inversion Hh.
Qed.

(** On a chronological history the second scan returns the earliest date
    after [lpd]. *)
Lemma first_date_after_spec history lpd d :
  nondecreasing (map h_date history) ->
  first_date_after history lpd = Some d ->
  date_ltb lpd d = true /\
  (exists h, In h history /\ h_date h = d) /\
  (forall h, In h history -> date_ltb lpd (h_date h) = true ->
             date_ltb (h_date h) d = false).
Proof.
  induction history as [|h l IH]; cbn [first_date_after map nondecreasing].
  - intros _ H. discriminate H.
  - intros [Hall Hs] H.
    destruct (date_ltb lpd (h_date h)) eqn:E.
    + injection H as <-. split; [exact E|]. split.
      * exists h. split; [left; reflexivity | reflexivity].
      * intros x [<-|Hin] _; [apply date_ltb_irrefl|].
        rewrite Forall_forall in Hall. apply Hall. apply in_map. exact Hin.
    + destruct (IH Hs H) as (Hlt & (x & Hin & Hx) & Hmin).
      split; [exact Hlt|]. split.
      * exists x. split; [right; exact Hin | exact Hx].
      * intros y [<-|Hy] Hy'; [congruence|]. apply Hmin; assumption.
Qed.

(** [run] never writes [sustained_breakeven_date]. *)
Lemma run_fresh_sustained_none cfg data s :
  run_fresh cfg data = Some s -> sustained_breakeven_date s = None.
Proof.
  intros H. apply run_fresh_inv in H. destruct H as (pm & H).
  eapply (run_loop_preserves cfg
            (fun x => sustained_breakeven_date x = None) (fun _ => True)).
  - intros i row x pm0 y pm1 _.
    apply (run_day_preserves cfg i row
             (fun x => sustained_breakeven_date x = None)).
    + intros a b _ _ _ Hb. apply lumpsum_buy_extra in Hb. destruct Hb.
      congruence.
    + intros a b Hb. apply benchmark_sip_rest in Hb. cbv zeta in Hb.
      destruct Hb as (_ & _ & _ & _ & _ & _ & ->). auto.
    + intros u a b _ Hb. apply sip_buy_extra in Hb. destruct Hb. congruence.
    + intros dp u a b _ _ Hb. apply bid_buy_extra in Hb. destruct Hb.
      congruence.
    + intros pv u a b _ Hb. apply sell_extra_spec in Hb. destruct Hb.
      congruence.
    + intros a.
      destruct (record_history_extra (date row) (close row) a). congruence.
  - apply Forall_forall. intros. exact I.
  - exact H.
  - reflexivity.
Qed.

Lemma history_mirrors_input_aux cfg data s :
  run_fresh cfg data = Some s ->
  map date data = map h_date (portfolio_history s).
Proof.
  intros H. apply run_fresh_inv in H. destruct H as (pm & H).
  destruct (run_loop_mirrors _ _ _ _ _ _ _ H) as (hs & Hh & Hmap & _).
  cbn [init portfolio_history app] in Hh. rewrite Hh.
  apply (f_equal (map fst)) in Hmap. rewrite !map_map in Hmap.
  cbn [fst] in Hmap. symmetry. exact Hmap.
Qed.

Lemma run_fresh_chronological cfg data s :
  run_fresh cfg data = Some s ->
  nondecreasing (map date data) ->
  nondecreasing (map h_date (portfolio_history s)).
Proof.
  intros H Hs. apply history_mirrors_input_aux in H.
  rewrite <- H. exact Hs.
Qed.

Lemma final_state_snoc l x : final_state (l ++ [x]) = Some x.
Proof.
  induction l as [|a l IH]; [reflexivity|].
  cbn [app final_state]. destruct (l ++ [x]) eqn:E.
  - destruct l; discriminate E.
  - exact IH.
Qed.

Lemma final_state_in history final :
  final_state history = Some final -> In final history.
Proof.
  induction history as [|h l IH]; [discriminate|].
  cbn [final_state]. destruct l as [|h' l'].
  - intros H. injection H as <-. left. reflexivity.
  - intros H. right. apply IH. exact H.
Qed.

(** What [generate_report] writes, for a state in which the sustained
    breakeven date is not yet set. *)
Lemma generate_report_sustained s :
  sustained_breakeven_date s = None ->
  sustained_breakeven_date (generate_report s) =
  match final_state (portfolio_history s),
        last_positive_date (portfolio_history s) with
  | Some final, Some lpd =>
      if date_ltb lpd (h_date final)
      then first_date_after (portfolio_history s) lpd
      else None
  | _, _ => None
  end.
Proof.
  intros Hn. unfold generate_report.
  destruct (final_state (portfolio_history s)) as [final|]; [|exact Hn].
  destruct (last_positive_date (portfolio_history s)) as [lpd|]; [|exact Hn].
  destruct (date_ltb lpd (h_date final)); [|exact Hn].
  destruct (first_date_after (portfolio_history s) lpd); [reflexivity|exact Hn].
Qed.

(** X12.  After a fresh run over rows in chronological order, a sustained
    breakeven date [d] set by [generate_report] is a history date; some
    earlier record has [actual_invested] above the tolerance 1.0; no record
    dated [d] or later has; and [d] is the earliest history date that
    comes after every record above the tolerance. *)
Theorem sustained_breakeven_is_sound cfg data s d :
  run_fresh cfg data = Some s ->
  nondecreasing (map date data) ->
  sustained_breakeven_date (generate_report s) = Some d ->
  (exists h, In h (portfolio_history s) /\ h_date h = d) /\
  (exists h, In h (portfolio_history s) /\
             date_ltb (h_date h) d = true /\ 1 < h_actual_invested h) /\
  (forall h, In h (portfolio_history s) ->
             date_ltb (h_date h) d = false -> h_actual_invested h <= 1) /\
  (forall h', In h' (portfolio_history s) ->
     (forall h, In h (portfolio_history s) -> 1 < h_actual_invested h ->
                date_ltb (h_date h) (h_date h') = true) ->
     date_ltb (h_date h') d = false).
Proof.
  intros Hrun Hdates Hd.
  pose proof (run_fresh_chronological _ _ _ Hrun Hdates) as Hs.
  rewrite (generate_report_sustained _ (run_fresh_sustained_none _ _ _ Hrun))
    in Hd.
  destruct (final_state (portfolio_history s)) as [final|]; [|discriminate].
  destruct (last_positive_date (portfolio_history s)) as [lpd|] eqn:El;
    [|discriminate].
  destruct (date_ltb lpd (h_date final)); [|discriminate].
  destruct (last_positive_date_spec _ _ Hs El) as ((x & Hx & Hxd & Hxp) & Hmax).
  destruct (first_date_after_spec _ _ _ Hs Hd) as (Hlt & Hex & Hmin).
  split; [exact Hex|]. split; [|split].
  - exists x. rewrite Hxd. auto.
  - intros h Hin Hge.
    destruct (Qlt_le_dec 1 (h_actual_invested h)) as [Hp|Hp]; [|exact Hp].
    exfalso.
    pose proof (date_le_lt_trans _ _ _ (Hmax h Hin Hp) Hlt) as Hc.
    congruence.
  - intros h' Hin' Hafter. apply Hmin; [exact Hin'|].
    rewrite <- Hxd. apply Hafter; assumption.
Qed.

Lemma sustained_breakeven_is_sound_witness :
  exists h,
    In h (portfolio_history recovery_state) /\ h_date h = mkDate 2020 1 2.
Proof.
  refine (proj1 (sustained_breakeven_is_sound recovery_config recovery_rows
                   recovery_state (mkDate 2020 1 2) _ _ _)).
  - vm_compute. reflexivity.
  - vm_compute. repeat constructor.
  - vm_compute. reflexivity.
Defined.

Lemma average_total l : exists q, average l = Some q.
Proof.
  destruct l as [|a l]; [cbn; eauto|].
  unfold average. rewrite div_some; [eauto|].
  apply inject_Z_nonzero. cbn [length]. lia.
Qed.

(** X13.  After a fresh run in which [actual_invested] exceeded the
    tolerance 1.0 in some history record, [get_metrics] reports as
    [break_even_date] exactly the sustained breakeven date that
    [generate_report] sets, and the sentinel when it sets none. *)
Theorem metrics_agree_with_report cfg data s m :
  run_fresh cfg data = Some s ->
  Exists (fun h => 1 < h_actual_invested h) (portfolio_history s) ->
  get_metrics s = Some (MetricsOf m) ->
  break_even_date m =
  match sustained_breakeven_date (generate_report s) with
  | Some d => DateOf d
  | None => NotReached
  end.
Proof.
  intros Hrun Hex H.
  rewrite (generate_report_sustained _ (run_fresh_sustained_none _ _ _ Hrun)).
  destruct (last_positive_date_some _ Hex) as (lpd & El).
  unfold get_metrics in H.
  destruct (final_state (portfolio_history s)) as [final|]; [|discriminate].
  unfold metrics_sustained_breakeven_date in H. rewrite El in H.
  apply bind_inv in H. destruct H as (a1 & _ & H).
  apply bind_inv in H. destruct H as (a2 & _ & H).
  injection H as <-. cbn [break_even_date]. rewrite El.
  destruct (date_ltb lpd (h_date final)); reflexivity.
Qed.

Lemma metrics_agree_with_report_witness :
  exists m,
    get_metrics recovery_state = Some (MetricsOf m) /\
    break_even_date m = DateOf (mkDate 2020 1 2).
Proof.
  assert (H : exists m, get_metrics recovery_state = Some (MetricsOf m))
    by (vm_compute; eauto).
  destruct H as (m & H). exists m. split; [exact H|].
  rewrite (metrics_agree_with_report recovery_config recovery_rows
             recovery_state m).
  - reflexivity.
  - vm_compute. reflexivity.
  - apply Exists_cons_hd. vm_compute. reflexivity.
  - exact H.
Defined.

(** X14.  After a fresh run [get_metrics] does not raise.  On empty input
    it returns the empty dict; on input ending in the row [last] it returns
    metrics that carry the final state: cost basis, capital figures,
    reserve, and both portfolios valued at [last]'s price. *)
Theorem metrics_of_run cfg data s :
  run_fresh cfg data = Some s ->
  (data = [] -> get_metrics s = Some EmptyDict) /\
  (forall pre last, data = pre ++ [last] ->
     exists m,
       get_metrics s = Some (MetricsOf m) /\
       base_inv_amt m = bia s /\
       m_actual_invested m = actual_invested s /\
       m_max_actual_invested m = max_actual_invested s /\
       cash_balance m = profit_reserve s /\
       market_value m = inject_Z (total_units s) * close last /\
       invested_reg_sip m = benchmark_invested s /\
       market_value_reg_sip m = inject_Z (benchmark_units s) * close last).
Proof.
  intros Hrun. split.
  - intros ->. unfold run_fresh, run in Hrun. cbn in Hrun.
    injection Hrun as <-. reflexivity.
  - intros pre last ->.
    apply run_fresh_inv in Hrun. destruct Hrun as (pm & Hrun).
    rewrite run_loop_snoc in Hrun.
    apply bind_inv in Hrun. destruct Hrun as ([sp pmp] & _ & Hday).
    destruct (run_day_snapshot _ _ _ _ _ _ _ Hday) as (s2 & Hh).
    apply run_day_inv in Hday.
    destruct Hday as (_ & s1 & s2' & _ & Hs & _).
    pose proof (record_history_effect (date last) (close last) s2') as Hr.
    rewrite <- Hs in Hr. destruct Hr.
    assert (E2 : snapshot (date last) (close last) s2
                 = snapshot (date last) (close last) s2').
    { rewrite Hh in re_history0. apply app_inj_tail in re_history0.
      destruct re_history0 as [_ E]. exact E. }
    unfold get_metrics. rewrite Hh, final_state_snoc.
    match goal with
    | |- context [Py.bind (average ?l) _] =>
        destruct (average_total l) as (a1 & ->)
    end.
    cbn [Py.bind].
    match goal with
    | |- context [Py.bind (average ?l) _] =>
        destruct (average_total l) as (a2 & ->)
    end.
    cbn [Py.bind]. eexists. split; [reflexivity|].
    cbn [base_inv_amt m_actual_invested m_max_actual_invested cash_balance
         market_value invested_reg_sip market_value_reg_sip].
    rewrite E2.
    cbn [snapshot h_profit_reserve h_portfolio_value h_price].
    rewrite re_reserve0, re_units0. repeat split.
Qed.

Lemma metrics_of_run_witness :
  exists m,
    get_metrics sample_state = Some (MetricsOf m) /\
    cash_balance m = profit_reserve sample_state.
Proof.
  destruct (metrics_of_run default_config sample_rows sample_state)
    as [_ H].
  - vm_compute. reflexivity.
  - destruct (H (firstn 4 sample_rows) (mkRow (mkDate 2020 3 2) 120) eq_refl)
      as (m & Hm & _ & _ & _ & Hc & _).
    exists m. auto.
Defined.

(** ** How the actions move the average price *)

Lemma inject_Z_lt a b : (a < b)%Z -> inject_Z a < inject_Z b.
Proof. intros H. rewrite <- Zlt_Qlt. exact H. Qed.


(** What [units_calc] returns for a positive price is capped by the
    holdings and by the amount [target + price - 1] it was computed from. *)
Lemma units_calc_bounds target price held units :
  0 < price ->
  units_calc target price held = Some units ->
  (units <= held)%Z /\
  inject_Z units * price <= target + price - 1.
Proof.
  intros Hp H. unfold units_calc, Py.floordiv in H.
  destruct (Qeq_dec price 0) as [E|_]; [rewrite E in Hp; lra|].
  cbn [Py.bind] in H. rewrite int_inject_Z in H.
  set (x := (target + price - 1) / price) in *.
  assert (Hx : x * price == target + price - 1).
  { unfold x. field. lra. }
  clearbody x.
  pose proof (Qfloor_le x) as Hlo.
  assert (Hup : inject_Z (Qfloor x) * price <= x * price)
    by (apply Qmult_le_compat_r; lra).
  destruct (Z_lt_le_dec held (Qfloor x)) as [Hc|Hc]; injection H as <-.
  - split; [lia|].
    apply inject_Z_lt in Hc.
    assert (Hh : inject_Z held * price <= inject_Z (Qfloor x) * price)
      by (apply Qmult_le_compat_r; lra).
    lra.
  - split; [exact Hc|]. lra.
Qed.

(** X15.  When the harvest block sells at a positive price, the profit was
    at least the target; it sells between 1 unit and all units held and
    leaves [bia] alone; and the sale value is at most
    [target + price - 1], the amount the unit count is computed from. *)
Theorem harvest_sale_bounds cfg date price s s' :
  0 < price ->
  sell_block cfg date price s = Some s' ->
  s' = s \/
  let target := target_threshold cfg (inject_Z (total_units s) * price) in
  target <= inject_Z (total_units s) * price - bia s /\
  exists units,
    (0 < units <= total_units s)%Z /\
    total_units s' = (total_units s - units)%Z /\
    bia s' = bia s /\
    inject_Z units * price <= target + price - 1.
Proof.
  intros Hp H. apply sell_block_inv in H.
  destruct H as [->|(_ & pv & u & Hu & Hcalc & Hprofit & Hsell)]; [auto|].
  right. cbv zeta. split; [exact Hprofit|].
  apply sell_spec in Hsell. destruct Hsell.
  destruct (units_calc_bounds _ _ _ _ Hp Hcalc) as (_ & Hup).
  exists u. auto 6.
Qed.

Definition after_harvest : State :=
  Eval vm_compute in
    match sell_block default_config (mkDate 2020 2 4) 3.5 before_sale with
    | Some s => s
    | None => before_sale
    end.

Lemma harvest_sale_bounds_witness :
  after_harvest = before_sale \/
  let target :=
    target_threshold default_config
      (inject_Z (total_units before_sale) * 3.5) in
  target <= inject_Z (total_units before_sale) * 3.5 - bia before_sale /\
  exists units,
    (0 < units <= total_units before_sale)%Z /\
    total_units after_harvest = (total_units before_sale - units)%Z /\
    bia after_harvest = bia before_sale /\
    inject_Z units * 3.5 <= target + 3.5 - 1.
Proof.
  apply (harvest_sale_bounds default_config (mkDate 2020 2 4)).
  - reflexivity.
  - vm_compute. reflexivity.
Defined.

Lemma Qdiv_lt_smaller_divisor a b c :
  0 < a -> 0 < c -> c < b -> a / b < a / c.
Proof.
  intros Ha Hc Hb.
  apply Qlt_shift_div_l; [exact Hc|].
  assert (E : a / b * c == a * c / b) by (field; lra).
  rewrite E. apply Qlt_shift_div_r; [lra|]. nra.
Qed.

(** X16.  A sale from sound books leaves [bia] alone.  If units remain,
    the average price is [bia] over the remaining units and is strictly
    higher than before; if none remain, it is 0. *)
Theorem sale_raises_average date price profit_val units s s' :
  sound s -> (0 < units <= total_units s)%Z ->
  sell date price profit_val units s = Some s' ->
  bia s' = bia s /\
  ((units < total_units s)%Z ->
   pap s' == bia s / inject_Z (total_units s - units) /\ pap s < pap s') /\
  (units = total_units s -> total_units s' = 0%Z /\ pap s' = 0).
Proof.
  intros Hs Hu H. apply sell_spec in H. destruct H.
  split; [exact se_bia0|]. split.
  - intros Hlt. rewrite se_pap0, se_units0, se_bia0.
    destruct (Z_lt_le_dec 0 (total_units s - units)) as [Hr|Hr]; [|lia].
    split; [reflexivity|].
    destruct Hs as [(_ & Hpap & _) _ Hbia _ _ _ _].
    rewrite (Hpap ltac:(lia)).
    apply Qdiv_lt_smaller_divisor.
    + apply Hbia. lia.
    + apply inject_Z_pos. exact Hr.
    + apply inject_Z_lt. lia.
  - intros ->. rewrite se_pap0, se_units0.
    destruct (Z_lt_le_dec 0 (total_units s - total_units s)) as [Hr|Hr];
      [lia|].
    split; [lia | reflexivity].
Qed.

Lemma before_sale_sound : sound before_sale.
Proof.
  destruct (run_fresh_sound default_config (firstn 2 rising_rows))
    as (s & Hs & Hsound).
  - repeat constructor.
  - assert (E : run_fresh default_config (firstn 2 rising_rows)
                = Some before_sale) by (vm_compute; reflexivity).
    rewrite E in Hs. injection Hs as <-. exact Hsound.
Qed.

Lemma sale_raises_average_witness :
  bia after_sale = bia before_sale /\ pap before_sale < pap after_sale.
Proof.
  destruct (sale_raises_average (mkDate 2020 2 4) 3.5 40000 2857
              before_sale after_sale before_sale_sound)
    as (Hb & Hp & _).
  - vm_compute. split; [reflexivity | discriminate].
  - vm_compute. reflexivity.
  - split; [exact Hb|]. apply Hp. vm_compute. reflexivity.
Defined.





(** ** Prices the engine cannot buy at *)

Lemma int_small q : 0 <= q -> q < 1 -> Py.int q = 0%Z.
Proof.
  intros H0 H1. rewrite (int_nonneg_floor q H0).
  pose proof (Qfloor_le q) as Hlo.
  pose proof (Qlt_floor q) as Hhi.
  assert (Ha : inject_Z (Qfloor q) < inject_Z 1) by (change (inject_Z 1) with 1; lra).
  assert (Hb : inject_Z 0 < inject_Z (Qfloor q + 1))
    by (change (inject_Z 0) with 0; lra).
  rewrite <- Zlt_Qlt in Ha, Hb. lia.
Qed.

Lemma div_none a b : b == 0 -> Py.div a b = None.
Proof.
  intros E. unfold Py.div. destruct (Qeq_dec b 0); [reflexivity|contradiction].
Qed.

(** X18.  On a contribution day after the first row, a price above a
    non-negative contribution amount buys nothing and raises nothing: the
    day logs no transaction, leaves holdings, cost basis, both cash
    figures and the benchmark as they were, and still records the day. *)
Theorem unaffordable_contribution_is_skipped cfg i row s pm :
  is_sip_day pm (month (date row)) = true ->
  0 <= base_sip cfg -> base_sip cfg < close row ->
  exists s',
    run_day cfg (S i) row (s, pm) = Some (s', Some (month (date row))) /\
    transactions s' = transactions s /\
    total_units s' = total_units s /\ bia s' = bia s /\ pap s' = pap s /\
    actual_invested s' = actual_invested s /\
    profit_reserve s' = profit_reserve s /\
    benchmark_units s' = benchmark_units s /\
    benchmark_invested s' = benchmark_invested s /\
    portfolio_history s'
    = portfolio_history s ++ [snapshot (date row) (close row) s].
Proof.
  intros Hday Hb Hp.
  assert (Hpos : 0 < close row) by lra.
  assert (Hint : Py.int (base_sip cfg / close row) = 0%Z).
  { apply int_small.
    - apply Qle_shift_div_l; [exact Hpos | lra].
    - apply Qlt_shift_div_r; [exact Hpos | lra]. }
  assert (Hs : sip_block cfg (date row) (close row) s
               = Some (set_current_sip_amount (base_sip cfg) s)).
  { unfold sip_block, benchmark_sip.
    rewrite div_some by lra. cbn [Py.bind]. rewrite Hint.
    destruct (Z_lt_le_dec 0 0) as [H0|_]; [lia|]. cbn [Py.bind].
    change (current_sip_amount (set_current_sip_amount (base_sip cfg) s))
      with (base_sip cfg).
    rewrite div_some by lra. cbn [Py.bind]. rewrite Hint.
    destruct (Z_lt_le_dec 0 0) as [H0|_]; [lia | reflexivity]. }
  exists (record_history (date row) (close row)
            (set_current_sip_amount (base_sip cfg) s)).
  split.
  - unfold run_day. cbv zeta.
    change (lumpsum_block cfg (S i) (date row) (close row) s) with (Some s).
    cbn [Py.bind]. rewrite Hday, Hs. reflexivity.
  - destruct (record_history_effect (date row) (close row)
                (set_current_sip_amount (base_sip cfg) s)).
    repeat split; assumption.
Qed.

Lemma unaffordable_contribution_is_skipped_witness :
  exists s',
    run_day default_config 1 (mkRow (mkDate 2020 2 3) 250000)
      (init default_config, Some 1%Z) = Some (s', Some 2%Z) /\
    transactions s' = [].
Proof.
  destruct (unaffordable_contribution_is_skipped default_config 0
              (mkRow (mkDate 2020 2 3) 250000) (init default_config)
              (Some 1%Z))
    as (s' & Hrun & Hlog & _).
  - reflexivity.
  - vm_compute. discriminate.
  - reflexivity.
  - exists s'. split; [exact Hrun | exact Hlog].
Defined.

(** X19.  A price of 0 makes a fresh run raise [ZeroDivisionError]
    whenever it falls on the first row with a positive lumpsum configured,
    or on a contribution day. *)
Theorem zero_price_raises cfg row post :
  close row == 0 ->
  (0 < initial_lumpsum cfg -> run_fresh cfg (row :: post) = None) /\
  (forall pre prev,
     month (date prev) <> month (date row) ->
     run_fresh cfg (pre ++ prev :: row :: post) = None).
Proof.
  intros Hz. split.
  - intros Hl. unfold run_fresh, run. cbn [run_loop].
    unfold run_day. cbv zeta. unfold lumpsum_block. cbn [Nat.eqb andb].
    destruct (Qlt_le_dec 0 (initial_lumpsum cfg)) as [_|Hle]; [|lra].
    rewrite (div_none _ _ Hz). reflexivity.
  - intros pre prev Hm. unfold run_fresh, run.
    replace (pre ++ prev :: row :: post)
      with ((pre ++ [prev]) ++ row :: post)
      by (rewrite <- app_assoc; reflexivity).
    rewrite run_loop_app.
    destruct (run_loop cfg 0 (pre ++ [prev]) (init cfg, None))
      as [[s pm]|] eqn:E; [|reflexivity].
    apply run_loop_prev_month in E. subst pm.
    cbn [Py.bind run_loop].
    rewrite length_app. cbn [length].
    replace (0 + (length pre + 1))%nat with (S (length pre)) by lia.
    unfold run_day. cbv zeta.
    change (lumpsum_block cfg (S (length pre)) (date row) (close row) s)
      with (Some s).
    cbn [Py.bind is_sip_day].
    destruct (Z.eqb_spec (month (date row)) (month (date prev))) as [Em|_];
      [congruence|].
    cbn [negb]. unfold sip_block, benchmark_sip.
    rewrite (div_none _ _ Hz). reflexivity.
Qed.

Lemma zero_price_raises_witness :
  run_fresh default_config
    [mkRow (mkDate 2020 1 1) 100; mkRow (mkDate 2020 2 3) 0] = None.
Proof.
  apply (proj2 (zero_price_raises default_config
                  (mkRow (mkDate 2020 2 3) 0) [] (Qeq_refl 0))
           [] (mkRow (mkDate 2020 1 1) 100)).
  cbn. discriminate.
Defined.

(** * Indian digit grouping: [core/utils.py]

    [format_inr] prints every amount of the daily log and of the report.
    Its first step, ["{:.{}f}".format(amount, decimals)], is Python's
    fixed-point printing of a float; the text [s] it produces is the input
    of the model, and everything the source does with that text is
    modelled: the split at the decimal point, the slices, the grouping
    loop, the reassembly, and the [except] branch. *)


(** A Python [str] is the list of its characters. *)
Definition str := list ascii.

Local Open Scope char_scope.
Local Open Scope nat_scope.

(** [s.split(sep)] for a one-character separator. *)
Fixpoint str_split (sep : ascii) (s : str) : list str :=
  match s with
  | [] => [[]]
  | c :: s' =>
      if Ascii.eqb c sep then [] :: str_split sep s'
      else match str_split sep s' with
           | part :: parts => (c :: part) :: parts
           | [] => [[c]]
           end
  end.

(** The loop over [enumerate(reversed(rest))]: [i] is the index, [chars]
    what is left of the reversed text, [rest_formatted] the accumulator. *)
Fixpoint rest_formatted_loop (i : nat) (chars : str) (rest_formatted : str) : str :=
  match chars with
  | [] => rest_formatted
  | digit :: chars' =>
      let rest_formatted :=
        if (0 <? i) && (i mod 2 =? 0) then "," :: rest_formatted
        else rest_formatted in
      rest_formatted_loop (S i) chars' (digit :: rest_formatted)
  end.

(** The grouping of [integer_part]: [result] of the source. *)
Definition result (integer_part : str) : str :=
  let last_three := skipn (length integer_part - 3) integer_part in
  let rest := firstn (length integer_part - 3) integer_part in
  match rest with
  | [] => last_three
  | _ :: _ => rest_formatted_loop 0 (rev rest) [] ++ "," :: last_three
  end.

(** [format_inr], from the text [s] that
    ["{:.{}f}".format(amount, decimals)] returns for a float [amount] and a
    precision [decimals] it accepts.  [None] is the [except] branch, where
    the source gives up on grouping and returns [str(amount)]; inside the
    modelled lines only [parts[1]] can raise.  A negative [decimals] is
    refused by the format call, so no text exists for it and the model
    answers [None]; the other ways that call can raise (a precision beyond
    its limit, an [amount] that is no number) and the early return for
    [amount is None] lie before the text exists and are outside the
    model. *)
Definition format_inr (s : str) (decimals : Z) : option str :=
  if (decimals <? 0)%Z then None
  else if (0 <? decimals)%Z then
    let parts := str_split "." s in
    match nth_error parts 0, nth_error parts 1 with
    | Some integer_part, Some decimal_part =>
        Some (result integer_part ++ "." :: decimal_part)
    | _, _ => None
    end
  else Some (result s).

(** The text of a fixed-point number: digits, a point and more digits when
    [decimals] is positive, digits alone otherwise. *)
Definition fixed_text (decimals : Z) (integer_part decimal_part : str) : str :=
  if (0 <? decimals)%Z then integer_part ++ "." :: decimal_part else integer_part.

Definition is_comma (c : ascii) : bool := Ascii.eqb c ",".
Definition no_comma (c : ascii) : bool := negb (is_comma c).

(** A text with neither separator in it. *)
Definition plain (t : str) : Prop := ~ In "," t /\ ~ In "." t.

Ltac plain_text :=
  split; cbn [In]; intros H;
  repeat (destruct H as [H|H]; [discriminate|]); exact H.

(** What the loop emits, in the order it is emitted. *)
Fixpoint emitted (i : nat) (chars : str) : str :=
  match chars with
  | [] => []
  | digit :: chars' =>
      (if (0 <? i) && (i mod 2 =? 0) then [","] else []) ++ digit :: emitted (S i) chars'
  end.

Lemma rest_formatted_loop_rev chars : forall i acc,
  rev (rest_formatted_loop i chars acc) = rev acc ++ emitted i chars.
Proof.
  induction chars as [|c cs IH]; intros i acc; cbn [rest_formatted_loop emitted].
  - now rewrite app_nil_r.
  - rewrite IH. destruct ((0 <? i) && (i mod 2 =? 0)); cbn [rev app];
      repeat rewrite <- app_assoc; reflexivity.
Qed.

Lemma filter_emitted chars : forall i,
  ~ In "," chars -> filter no_comma (emitted i chars) = chars.
Proof.
  induction chars as [|c cs IH]; intros i Hn; cbn [emitted]; [reflexivity|].
  assert (Hc : no_comma c = true).
  { unfold no_comma, is_comma. destruct (Ascii.eqb_spec c ","); [|reflexivity].
    exfalso. apply Hn. left. auto. }
  assert (Hcs : ~ In "," cs) by (intro; apply Hn; right; assumption).
  destruct ((0 <? i) && (i mod 2 =? 0)); cbn [app filter];
    [change (no_comma ",") with false; cbn iota|]; rewrite Hc, IH; auto.
Qed.

Lemma filter_rev {A} (f : A -> bool) l : filter f (rev l) = rev (filter f l).
Proof.
  induction l as [|a l IH]; simpl; [reflexivity|].
  rewrite filter_app, IH. simpl. destruct (f a); simpl; [reflexivity|now rewrite app_nil_r].
Qed.

Lemma filter_plain t : ~ In "," t -> filter no_comma t = t.
Proof.
  induction t as [|c cs IH]; intros Hn; simpl; [reflexivity|].
  assert (Hc : no_comma c = true).
  { unfold no_comma, is_comma. destruct (Ascii.eqb_spec c ","); [|reflexivity].
    exfalso. apply Hn. left. auto. }
  rewrite Hc, IH; [reflexivity|]. intro; apply Hn; right; assumption.
Qed.

Lemma not_in_firstn {A} (x : A) n l : ~ In x l -> ~ In x (firstn n l).
Proof.
  intros H Hin. apply H. rewrite <- (firstn_skipn n l).
  apply in_or_app. left. exact Hin.
Qed.

Lemma not_in_skipn {A} (x : A) n l : ~ In x l -> ~ In x (skipn n l).
Proof.
  intros H Hin. apply H. rewrite <- (firstn_skipn n l).
  apply in_or_app. right. exact Hin.
Qed.

(** The grouped text, read from the right. *)
Lemma result_rev t :
  rev (result t) =
  match firstn (length t - 3) t with
  | [] => rev t
  | _ :: _ => rev (skipn (length t - 3) t) ++ "," :: emitted 0 (rev (firstn (length t - 3) t))
  end.
Proof.
  unfold result. destruct (firstn (length t - 3) t) as [|a r] eqn:E.
  - pose proof (firstn_skipn (length t - 3) t) as H. rewrite E in H.
    cbn [app] in H. now rewrite H.
  - rewrite rev_app_distr. simpl rev at 1. rewrite <- app_assoc. simpl.
    rewrite rest_formatted_loop_rev. reflexivity.
Qed.

Lemma result_filter t : ~ In "," t -> filter no_comma (result t) = t.
Proof.
  intros Hn. rewrite <- (rev_involutive (result t)), filter_rev, result_rev.
  destruct (firstn (length t - 3) t) as [|a r] eqn:E.
  - rewrite <- filter_rev, rev_involutive. now apply filter_plain.
  - rewrite <- E. rewrite filter_app. cbn [filter].
    change (no_comma ",") with false. cbn iota. rewrite filter_emitted.
    2:{ intro H. apply In_rev in H. revert H. apply not_in_firstn. exact Hn. }
    rewrite filter_rev, filter_plain by (apply not_in_skipn; exact Hn).
    rewrite rev_app_distr, !rev_involutive. apply firstn_skipn.
Qed.

Ltac divmod x k :=
  pose proof (Nat.div_mod_eq x k);
  pose proof (Nat.mod_upper_bound x k ltac:(discriminate)).

(** Where the loop puts its separators, counted from the index it starts at. *)
Definition phase (i : nat) : nat :=
  if i =? 0 then 2 else if i mod 2 =? 0 then 0 else 1.

Lemma emitted_commas chars : forall i j c,
  ~ In "," chars -> nth_error (emitted i chars) j = Some c ->
  (c = "," <-> j mod 3 = phase i).
Proof.
  induction chars as [|d cs IH]; intros i j c Hn Hj; cbn [emitted] in Hj.
  - destruct j; discriminate.
  - assert (Hd : d <> ",") by (intro; apply Hn; left; auto).
    assert (Hcs : ~ In "," cs) by (intro; apply Hn; right; assumption).
    assert (Hph : phase (S i) = if i mod 2 =? 0 then 1 else 0).
    { unfold phase. change (S i =? 0) with false. cbn iota.
      divmod i 2. divmod (S i) 2.
      destruct (Nat.eqb_spec (i mod 2) 0), (Nat.eqb_spec (S i mod 2) 0); lia. }
    unfold phase. destruct (Nat.eqb_spec i 0) as [Hi|Hi].
    + subst i. cbn [Nat.ltb Nat.leb andb app] in Hj.
      destruct j as [|j]; cbn [nth_error] in Hj.
      * injection Hj as <-. split; [contradiction|discriminate].
      * rewrite (IH _ _ _ Hcs Hj), Hph.
        change (0 mod 2 =? 0) with true. cbn iota.
        divmod j 3. divmod (S j) 3. lia.
    + assert (H0 : (0 <? i) = true) by (apply Nat.ltb_lt; lia).
      rewrite H0 in Hj. cbn [andb] in Hj.
      destruct (Nat.eqb_spec (i mod 2) 0) as [He|He]; cbn [app] in Hj.
      * destruct j as [|[|j]]; cbn [nth_error] in Hj.
        -- injection Hj as <-. split; reflexivity.
        -- injection Hj as <-. split; [contradiction|discriminate].
        -- rewrite (IH _ _ _ Hcs Hj), Hph.
           destruct (Nat.eqb_spec (i mod 2) 0); [|contradiction].
           divmod j 3. divmod (S (S j)) 3. lia.
      * destruct j as [|j]; cbn [nth_error] in Hj.
        -- injection Hj as <-. split; [contradiction|discriminate].
        -- rewrite (IH _ _ _ Hcs Hj), Hph.
           destruct (Nat.eqb_spec (i mod 2) 0); [contradiction|].
           divmod j 3. divmod (S j) 3. lia.
Qed.

(** How many separators the loop adds. *)
Definition added (i n : nat) : nat :=
  if i =? 0 then (n - 1) / 2 else if i mod 2 =? 0 then (n + 1) / 2 else n / 2.

Lemma emitted_length chars : forall i,
  length (emitted i chars) = length chars + added i (length chars).
Proof.
  induction chars as [|d cs IH]; intros i; cbn [emitted length].
  - unfold added. destruct (i =? 0), (i mod 2 =? 0); reflexivity.
  - rewrite length_app. cbn [length]. rewrite IH.
    assert (Hph : added (S i) (length cs) =
                  if i mod 2 =? 0 then length cs / 2 else (length cs + 1) / 2).
    { unfold added. change (S i =? 0) with false. cbn iota.
      divmod i 2. divmod (S i) 2.
      destruct (Nat.eqb_spec (i mod 2) 0), (Nat.eqb_spec (S i mod 2) 0); lia. }
    rewrite Hph. unfold added.
    set (n := length cs).
    divmod n 2. divmod (n + 1) 2. divmod (S n - 1) 2. divmod (S n + 1) 2. divmod (S n) 2.
    destruct (Nat.eqb_spec i 0) as [Hi|Hi].
    + subst i. cbn [Nat.ltb Nat.leb andb app length].
      change (0 mod 2 =? 0) with true. cbn iota. lia.
    + assert (Hpos : (0 <? i) = true) by (apply Nat.ltb_lt; lia).
      rewrite Hpos. cbn [andb].
      destruct (Nat.eqb_spec (i mod 2) 0); cbn [length]; lia.
Qed.

Lemma firstn_nil_length {A} (t : list A) :
  firstn (length t - 3) t = [] -> length t <= 3.
Proof.
  intros E. apply (f_equal (@length A)) in E.
  rewrite length_firstn in E. cbn [length] in E. lia.
Qed.

Lemma firstn_cons_length {A} (t : list A) a r :
  firstn (length t - 3) t = a :: r -> 3 < length t.
Proof.
  intros E. apply (f_equal (@length A)) in E.
  rewrite length_firstn in E. cbn [length] in E. lia.
Qed.

Lemma nth_error_not_comma (t : str) j c :
  ~ In "," t -> nth_error t j = Some c -> c <> ",".
Proof. intros Hn Hj Hc. subst c. apply Hn. eapply nth_error_In; eauto. Qed.

Lemma result_commas t j c :
  ~ In "," t -> nth_error (rev (result t)) j = Some c ->
  (c = "," <-> 3 <= j /\ j mod 3 = 0).
Proof.
  intros Hn Hj. rewrite result_rev in Hj.
  destruct (firstn (length t - 3) t) as [|a r] eqn:E.
  - pose proof (firstn_nil_length t E) as Hlen.
    assert (Hlt : j < length (rev t)) by (apply nth_error_Some; congruence).
    rewrite length_rev in Hlt.
    assert (Hc : c <> ",").
    { apply (nth_error_not_comma (rev t) j); [|exact Hj].
      intro H. apply Hn. apply In_rev. exact H. }
    split; [contradiction|lia].
  - pose proof (firstn_cons_length t a r E) as Hlen. rewrite <- E in Hj.
    assert (Hs : length (rev (skipn (length t - 3) t)) = 3)
      by (rewrite length_rev, length_skipn; lia).
    destruct (Nat.lt_ge_cases j 3) as [Hlt|Hge].
    + rewrite nth_error_app1 in Hj by lia.
      assert (Hc : c <> ",").
      { apply (nth_error_not_comma _ j _) in Hj; [exact Hj|].
        intro H. apply In_rev in H. revert H. apply not_in_skipn. exact Hn. }
      split; [contradiction|lia].
    + rewrite nth_error_app2 in Hj by lia. rewrite Hs in Hj.
      destruct (j - 3) as [|k] eqn:Ek; cbn [nth_error] in Hj.
      * injection Hj as <-. assert (j = 3) by lia. subst j.
        split; [intros _; split; [lia|reflexivity]|reflexivity].
      * apply emitted_commas in Hj.
        2:{ intro H. apply In_rev in H. revert H. apply not_in_firstn. exact Hn. }
        rewrite Hj. change (phase 0) with 2.
        assert (j = k + 4) by lia. subst j.
        divmod k 3. divmod (k + 4) 3. lia.
Qed.

Lemma result_length t : length (result t) = length t + (length t - 2) / 2.
Proof.
  rewrite <- (length_rev (result t)), result_rev.
  destruct (firstn (length t - 3) t) as [|a r] eqn:E.
  - pose proof (firstn_nil_length t E) as Hlen. rewrite length_rev.
    assert (H : (length t - 2) / 2 = 0).
    { apply Nat.div_small. lia. }
    lia.
  - pose proof (firstn_cons_length t a r E) as Hlen. rewrite <- E.
    rewrite length_app. cbn [length]. rewrite emitted_length.
    rewrite !length_rev, length_skipn, length_firstn.
    replace (Nat.min (length t - 3) (length t)) with (length t - 3) by lia.
    unfold added. change (0 =? 0) with true. cbn iota.
    set (n := length t) in *.
    divmod (n - 3 - 1) 2. divmod (n - 2) 2. lia.
Qed.

(** [s.split(sep)] always gives a first part; there is a second one exactly when
    the separator occurs. *)
Lemma split_plain sep t : ~ In sep t -> str_split sep t = [t].
Proof.
  induction t as [|c cs IH]; intros Hn; cbn [str_split]; [reflexivity|].
  destruct (Ascii.eqb_spec c sep) as [->|Hc].
  - exfalso. apply Hn. left. reflexivity.
  - rewrite IH; [reflexivity|]. intro; apply Hn; right; assumption.
Qed.

Lemma split_at sep t u :
  ~ In sep t -> str_split sep (t ++ sep :: u) = t :: str_split sep u.
Proof.
  induction t as [|c cs IH]; intros Hn; cbn [str_split app].
  - now rewrite Ascii.eqb_refl.
  - destruct (Ascii.eqb_spec c sep) as [->|Hc].
    + exfalso. apply Hn. left. reflexivity.
    + rewrite IH; [reflexivity|]. intro; apply Hn; right; assumption.
Qed.

Lemma split_second sep s :
  exists part parts, str_split sep s = part :: parts /\ (parts = [] <-> ~ In sep s).
Proof.
  induction s as [|c cs (p & ps & E & Hps)]; cbn [str_split].
  - exists [], []. split; [reflexivity|]. split; [intros _ []|reflexivity].
  - destruct (Ascii.eqb_spec c sep) as [->|Hc].
    + exists [], (str_split sep cs). split; [reflexivity|]. split.
      * rewrite E. discriminate.
      * intros H. exfalso. apply H. left. reflexivity.
    + rewrite E. exists (c :: p), ps. split; [reflexivity|].
      rewrite Hps. split.
      * intros H [Heq|Hin]; [congruence|contradiction].
      * intros H Hin. apply H. right. exact Hin.
Qed.

Lemma format_inr_fixed decimals integer_part decimal_part :
  (0 <= decimals)%Z -> ~ In "." integer_part -> ~ In "." decimal_part ->
  format_inr (fixed_text decimals integer_part decimal_part) decimals =
  Some (fixed_text decimals (result integer_part) decimal_part).
Proof.
  intros Hd Hi Hp. unfold format_inr, fixed_text.
  destruct (Z.ltb_spec decimals 0); [lia|].
  destruct (Z.ltb_spec 0 decimals); [|reflexivity].
  rewrite (split_at "." _ _ Hi), (split_plain "." _ Hp). reflexivity.
Qed.

(** X20.  For a fixed-point text without separators, [format_inr] does not
    fall back to [str(amount)], and deleting the commas from what it
    returns gives the text back: grouping loses, adds and moves no
    character of the number. *)
Theorem format_inr_keeps_the_number decimals integer_part decimal_part :
  (0 <= decimals)%Z -> plain integer_part -> plain decimal_part ->
  exists text,
    format_inr (fixed_text decimals integer_part decimal_part) decimals = Some text /\
    filter no_comma text = fixed_text decimals integer_part decimal_part.
Proof.
  intros Hd [Hic Hid] [Hpc Hpd].
  exists (fixed_text decimals (result integer_part) decimal_part).
  split; [apply format_inr_fixed; assumption|].
  unfold fixed_text. destruct (0 <? decimals)%Z.
  - rewrite filter_app. cbn [filter]. change (no_comma ".") with true. cbn iota.
    rewrite (result_filter _ Hic), (filter_plain _ Hpc). reflexivity.
  - apply result_filter. exact Hic.
Qed.

Lemma format_inr_keeps_the_number_witness :
  exists text,
    format_inr (fixed_text 2 ["1"; "2"; "3"; "4"; "5"; "6"; "7"] ["5"; "0"]) 2
      = Some text /\
    filter no_comma text
      = fixed_text 2 ["1"; "2"; "3"; "4"; "5"; "6"; "7"] ["5"; "0"].
Proof.
  apply format_inr_keeps_the_number; [lia | plain_text | plain_text].
Defined.

(** X21.  For a fixed-point text without separators, [format_inr] returns
    the grouped integer part followed by the unchanged decimals.  The
    grouped part has one comma for every two characters beyond the last
    three, and, counted from its right end starting at 0, its commas are
    exactly the characters at positions 3, 6, 9, ...: a group of three,
    then groups of two. *)
Theorem format_inr_separator_positions decimals integer_part decimal_part :
  (0 <= decimals)%Z -> plain integer_part -> plain decimal_part ->
  exists grouped,
    format_inr (fixed_text decimals integer_part decimal_part) decimals =
      Some (fixed_text decimals grouped decimal_part) /\
    length grouped = length integer_part + (length integer_part - 2) / 2 /\
    forall j c, nth_error (rev grouped) j = Some c ->
                (c = "," <-> 3 <= j /\ j mod 3 = 0).
Proof.
  intros Hd [Hic Hid] [Hpc Hpd]. exists (result integer_part).
  split; [apply format_inr_fixed; assumption|].
  split; [apply result_length|].
  intros j c. apply result_commas. exact Hic.
Qed.

Lemma format_inr_separator_positions_witness :
  exists grouped,
    format_inr (fixed_text 0 ["1"; "2"; "3"; "4"; "5"; "6"; "7"] []) 0
      = Some (fixed_text 0 grouped []) /\
    length grouped = 7 + (7 - 2) / 2 /\
    forall j c, nth_error (rev grouped) j = Some c ->
                (c = "," <-> 3 <= j /\ j mod 3 = 0).
Proof.
  apply (format_inr_separator_positions 0
           ["1"; "2"; "3"; "4"; "5"; "6"; "7"] []);
    [lia | plain_text | plain_text].
Defined.

(** X22.  Once the format call has returned its text [s] (so [decimals]
    is not negative), the rest of [format_inr] raises, and the function
    falls back to [str(amount)], exactly when [decimals] is positive and
    [s] has no decimal point, as the texts [nan] and [inf] have none: only
    [parts[1]] can fail.  With [decimals = 0] the text is always grouped. *)
Theorem format_inr_gives_up s decimals :
  (0 <= decimals)%Z ->
  (format_inr s decimals = None <-> (0 < decimals)%Z /\ ~ In "." s).
Proof.
  intros Hd. unfold format_inr.
  destruct (Z.ltb_spec decimals 0) as [Hn|Hn]; [lia|].
  destruct (Z.ltb_spec 0 decimals) as [Hp|Hp].
  - destruct (split_second "." s) as (p & ps & E & Hps). rewrite E.
    cbn [nth_error]. destruct ps as [|q ps].
    + split; [intros _; split; [assumption|now apply Hps]|reflexivity].
    + split; [discriminate|]. intros [_ H].
      apply Hps in H. discriminate.
  - split; [discriminate|]. intros [H _]. lia.
Qed.

Lemma format_inr_gives_up_witness :
  format_inr ["n"; "a"; "n"] 2 = None <->
  (0 < 2)%Z /\ ~ In "." ["n"; "a"; "n"].
Proof. apply format_inr_gives_up. lia. Defined.

(** X23.  The minus sign is grouped as if it were a digit: for a negative
    number with an odd number of integer digits, at least three, the text
    [format_inr] returns starts with a minus sign followed directly by a
    comma. *)
Theorem format_inr_minus_sign decimals digits decimal_part :
  (0 <= decimals)%Z -> plain digits -> plain decimal_part ->
  3 <= length digits -> length digits mod 2 = 1 ->
  exists tail,
    format_inr (fixed_text decimals ("-" :: digits) decimal_part) decimals =
    Some ("-" :: "," :: fixed_text decimals tail decimal_part).
Proof.
  intros Hd [Hic Hid] [Hpc Hpd] Hlen Hodd.
  assert (Hmc : ~ In "," ("-" :: digits)).
  { intros [H|H]; [discriminate|contradiction]. }
  assert (Hmd : ~ In "." ("-" :: digits)).
  { intros [H|H]; [discriminate|contradiction]. }
  pose proof (result_length ("-" :: digits)) as HL.
  pose proof (result_filter _ Hmc) as HF.
  pose proof (fun j c => result_commas ("-" :: digits) j c Hmc) as HC.
  rewrite (format_inr_fixed _ _ _ Hd Hmd Hpd).
  cbn [length] in HL.
  set (n := length digits) in *.
  divmod n 2. divmod (S n - 2) 2.
  set (m := n / 2) in *.
  assert (HL' : length (result ("-" :: digits)) = 3 * m + 2) by lia.
  destruct (result ("-" :: digits)) as [|a [|b t]]; cbn [length] in HL'; try lia.
  exists t.
  assert (Ht : length (rev t) = 3 * m) by (rewrite length_rev; cbn [length] in HL'; lia).
  assert (Hb : nth_error (rev (a :: b :: t)) (3 * m) = Some b).
  { cbn [rev]. rewrite <- app_assoc. rewrite nth_error_app2 by lia.
    rewrite Ht, Nat.sub_diag. reflexivity. }
  assert (Ha : nth_error (rev (a :: b :: t)) (3 * m + 1) = Some a).
  { cbn [rev]. rewrite nth_error_app2 by (rewrite length_app, Ht; cbn [length]; lia).
    rewrite length_app, Ht. cbn [length].
    replace (3 * m + 1 - (3 * m + 1)) with 0 by lia. reflexivity. }
  apply HC in Hb. apply HC in Ha.
  divmod (3 * m) 3. divmod (3 * m + 1) 3.
  assert (b = ",") by (apply Hb; lia). subst b.
  assert (Hna : a <> ",") by (intro H9; apply Ha in H9; lia).
  cbn [filter] in HF.
  assert (Hnc : no_comma a = true).
  { unfold no_comma, is_comma. destruct (Ascii.eqb_spec a ","); [contradiction|reflexivity]. }
  rewrite Hnc in HF. injection HF as -> _.
  unfold fixed_text. destruct (0 <? decimals)%Z; reflexivity.
Qed.

Lemma format_inr_minus_sign_witness :
  exists tail,
    format_inr (fixed_text 2 ["-"; "5"; "0"; "0"] ["0"; "0"]) 2
      = Some ("-" :: "," :: fixed_text 2 tail ["0"; "0"]).
Proof.
  apply (format_inr_minus_sign 2 ["5"; "0"; "0"] ["0"; "0"]);
    [lia | plain_text | plain_text | cbn; lia | reflexivity].
Defined.
